(** * SPI NOR flash driver and FIMG backup / restore pipeline (main.c)

    A shallow embedding of the flash driver (JEDEC command set over SPI0),
    the CRC-32 accumulator, the capacity decoder, the image chooser and the
    backup / restore pipelines of [main.c], with the properties the
    specification states about them.

    Conventions.
    - [uint32_t] values are integers of [Z] kept in [0, 2^32) by [u32];
      [uint8_t] values and buffer contents are [Byte.byte].
    - The Pico SDK (SPI, GPIO, clock, heap) is an abstract [Board]; every SDK
      call the driver makes on the flash bus is appended to a log, so that
      what reached the chip can be stated.
    - FatFs is an in-memory volume: path-addressed files holding bytes.
    - [flash_wait_busy_timeout] polls for as long as the hardware says; it is
      modelled with a polling budget and yields [None] when the budget runs
      out before the loop exits. *)

From Stdlib Require Import String Ascii.
From Stdlib.Strings Require Import Byte.
From Stdlib Require Import ZArith List Lia Bool.
Import ListNotations.
Open Scope Z_scope.

(* ================================================================= *)
(** ** Bytes and 32-bit unsigned arithmetic *)

Definition b2z (b : byte) : Z := Z.of_N (Byte.to_N b).

Definition z2b (z : Z) : byte :=
  match Byte.of_N (Z.to_N (z mod 256)) with
  | Some b => b
  | None => x00
  end.

(** Reduction modulo 2^32: the value a C expression of type [uint32_t] has. *)
Definition u32 (z : Z) : Z := z mod 2 ^ 32.

Definition in_u32 (z : Z) : Prop := 0 <= z < 2 ^ 32.

(** [~c] on a [uint32_t]. *)
Definition not32 (c : Z) : Z := u32 (Z.lnot c).

(** [(uint8_t) x] for a [uint32_t] x. *)
Definition low8 (x : Z) : byte := z2b (Z.land x 255).

(* ================================================================= *)
(** ** CRC-32 (main.c, crc32_update) *)

(** One turn of the inner [for (k = 0; k < 8; ++k)] loop:
    [c = (c >> 1) ^ (0xEDB88320u & -(int)(c & 1))]. The negated [int] is
    converted to [unsigned] by the [&], hence the [u32]. *)
Definition crc32_bit (c : Z) : Z :=
  Z.lxor (Z.shiftr c 1) (Z.land 0xEDB88320 (u32 (- (Z.land c 1)))).

(** One turn of the outer loop: [c ^= b[i]] followed by the eight bit steps. *)
Definition crc32_byte (c : Z) (b : byte) : Z :=
  Nat.iter 8 crc32_bit (Z.lxor c (b2z b)).

Definition crc32_update (c : Z) (b : list byte) : Z :=
  let c := not32 c in
  let c := fold_left crc32_byte b c in
  not32 c.

(* ================================================================= *)
(** ** Capacity decoding (main.c, flash_calculate_capacity) *)

(** [1u << capacity_code] in 32-bit unsigned arithmetic. The guard lets the
    count 32 through, which C leaves undefined; the shift is modelled as the
    mathematical shift truncated to 32 bits (what the Cortex-M0+ register
    shift does). [capacity_any_bits_below] shows that the conclusion drawn
    from it holds whatever 32-bit value the shift yields. *)
Definition shl32 (x n : Z) : Z := u32 (Z.shiftl x n).

Definition flash_calculate_capacity (capacity_code : byte) : Z :=
  if (b2z capacity_code <? 0x10) || (b2z capacity_code >? 0x20) then 0
  else
    let bits := shl32 1 (b2z capacity_code) in
    bits / 8.

(* ================================================================= *)
(** ** The flash bus: opcodes, the board and the bus log *)

Definition CMD_WREN   : byte := x06.
Definition CMD_RDSR1  : byte := x05.
Definition CMD_RDSR2  : byte := x35.
Definition CMD_WRSR   : byte := x01.
Definition CMD_READ   : byte := x03.
Definition CMD_PP     : byte := x02.
Definition CMD_SE_4K  : byte := x20.
Definition CMD_JEDEC_ID : byte := x9f.
Definition CMD_RSTEN  : byte := x66.
Definition CMD_RST    : byte := x99.
Definition CMD_ULBPR  : byte := x98.
Definition CMD_RESUME : byte := x7a.

Definition FLASH_PAGE_SIZE : Z := 256.
Definition FLASH_SECTOR_SIZE : Z := 4096.

(** The Pico SDK as the driver uses it. [bd_setup] stands for the pin and
    SPI configuration calls of [flash_dut_init]; [bd_read n] clocks out [n]
    zero bytes and returns what the chip answered; [bd_write_read] is the
    full-duplex transfer; [bd_malloc n] tells whether the heap can serve a
    request of [n] bytes. *)
Record Board : Type := mkBoard {
  hw : Type;
  bd_setup : hw -> hw;
  bd_cs : bool -> hw -> hw;
  bd_write : list byte -> hw -> hw;
  bd_read : nat -> hw -> list byte * hw;
  bd_write_read : list byte -> hw -> list byte * hw;
  bd_sleep : Z -> hw -> hw;
  bd_now : hw -> Z * hw;
  bd_malloc : Z -> hw -> bool
}.

(** What the driver did on the flash bus, one entry per SDK call. *)
Inductive bus_event : Type :=
| EvSetup
| EvCs (level : bool)
| EvWrite (tx : list byte)
| EvRead (n : nat)
| EvWriteRead (tx : list byte)
| EvSleep (ms : Z).

(** A buffer of exactly [n] bytes filled from [l] (zero where [l] is short):
    the SDK always writes the [n] bytes it was asked for. *)
Definition fit (n : nat) (l : list byte) : list byte :=
  firstn n (l ++ repeat x00 n).

(** The frames of a log: for every chip-select pulse, the bytes shifted out
    while the chip was selected (a read shifts out zeros). The first byte of
    a frame is its opcode. *)
Fixpoint frames_from (cur : option (list byte)) (evs : list bus_event)
  : list (list byte) :=
  match evs with
  | [] => match cur with Some f => [f] | None => [] end
  | EvCs false :: r =>
      match cur with
      | Some f => f :: frames_from (Some []) r
      | None => frames_from (Some []) r
      end
  | EvCs true :: r =>
      match cur with
      | Some f => f :: frames_from None r
      | None => frames_from None r
      end
  | EvWrite tx :: r => frames_from (option_map (fun f => f ++ tx) cur) r
  | EvWriteRead tx :: r => frames_from (option_map (fun f => f ++ tx) cur) r
  | EvRead n :: r => frames_from (option_map (fun f => f ++ repeat x00 n) cur) r
  | EvSetup :: r => frames_from cur r
  | EvSleep _ :: r => frames_from cur r
  end.

Definition frames (evs : list bus_event) : list (list byte) :=
  frames_from None evs.

Definition opcode (f : list byte) : byte := hd x00 f.

Definition opcodes (evs : list bus_event) : list byte := map opcode (frames evs).

Definition byte_eqb (a b : byte) : bool := Byte.eqb a b.

(** The commands of a log other than polls of status register 1. *)
Definition commands (evs : list bus_event) : list byte :=
  filter (fun c => negb (byte_eqb c CMD_RDSR1)) (opcodes evs).

(** A frame that changes the memory array: page program or sector erase. *)
Definition destructive (f : list byte) : bool :=
  byte_eqb (opcode f) CMD_PP || byte_eqb (opcode f) CMD_SE_4K.

(** The 24-bit address a command frame carries after its opcode. *)
Definition frame_addr (f : list byte) : Z :=
  b2z (nth 1 f x00) * 65536 + b2z (nth 2 f x00) * 256 + b2z (nth 3 f x00).

(** The page programs of a log, as (address, data) pairs. *)
Definition pp_calls (evs : list bus_event) : list (Z * list byte) :=
  map (fun f => (frame_addr f, skipn 4 f))
      (filter (fun f => byte_eqb (opcode f) CMD_PP) (frames evs)).

(** The frames of one [flash_dut_program_page] call, polls apart:
    write-enable, then the program command with its data. *)
Definition pp_frames (c : Z * list byte) : list (list byte) :=
  [[CMD_WREN]; [CMD_PP; low8 (Z.shiftr (fst c) 16); low8 (Z.shiftr (fst c) 8);
                low8 (fst c)] ++ snd c].

(* ================================================================= *)
(** ** The storage volume (FatFs) *)

Inductive FRESULT : Type := FR_OK | FR_NOT_READY | FR_NO_FILE | FR_NO_PATH.

Definition fr_ok (r : FRESULT) : bool :=
  match r with FR_OK => true | _ => false end.

Record file : Type := mkFile {
  file_date : Z;
  file_time : Z;
  file_data : list byte
}.

(** A card: whether it answers, whether the dump folder exists, the
    timestamp FatFs gives a file it creates, and the files by path, in
    directory order. *)
Record volume : Type := mkVolume {
  card_ready : bool;
  has_folder : bool;
  fattime : Z * Z;
  files : list (string * file)
}.

Record FIL : Type := mkFIL {
  fil_path : string;
  fil_ptr : nat
}.

Record FILINFO : Type := mkFILINFO {
  fname : string;
  fdate : Z;
  ftime : Z
}.

Definition DUMP_FOLDER : string := "FLASHIMG".
Definition CHUNK_BYTES : Z := 4096.

Fixpoint lookup_file (path : string) (fs : list (string * file)) : option file :=
  match fs with
  | [] => None
  | (p, f) :: r => if String.eqb p path then Some f else lookup_file path r
  end.

Fixpoint store_file (path : string) (f : file) (fs : list (string * file))
  : list (string * file) :=
  match fs with
  | [] => [(path, f)]
  | (p, g) :: r =>
      if String.eqb p path then (p, f) :: r else (p, g) :: store_file path f r
  end.

Definition set_files (v : volume) (fs : list (string * file)) : volume :=
  mkVolume (card_ready v) (has_folder v) (fattime v) fs.

Definition set_folder (v : volume) : volume :=
  mkVolume (card_ready v) true (fattime v) (files v).

Definition FA_READ : bool := false.
Definition FA_CREATE_ALWAYS_WRITE : bool := true.

(** [f_open]: for reading the file must exist; for [FA_CREATE_ALWAYS |
    FA_WRITE] the folder must exist and the file is created or truncated. *)
Definition f_open (path : string) (mode : bool) (v : volume)
  : FRESULT * FIL * volume :=
  if negb (card_ready v) then (FR_NOT_READY, mkFIL path 0, v)
  else if mode then
    if has_folder v then
      let f := match lookup_file path (files v) with
               | Some old => mkFile (file_date old) (file_time old) []
               | None => mkFile (fst (fattime v)) (snd (fattime v)) []
               end in
      (FR_OK, mkFIL path 0, set_files v (store_file path f (files v)))
    else (FR_NO_PATH, mkFIL path 0, v)
  else
    match lookup_file path (files v) with
    | Some _ => (FR_OK, mkFIL path 0, v)
    | None => (FR_NO_FILE, mkFIL path 0, v)
    end.

(** [f_read]: the bytes from the file pointer on, at most [btr] of them;
    [br] is the length of what is returned. *)
Definition f_read (fp : FIL) (btr : Z) (v : volume) : FRESULT * list byte * FIL :=
  match lookup_file (fil_path fp) (files v) with
  | Some f =>
      let got := firstn (Z.to_nat btr) (skipn (fil_ptr fp) (file_data f)) in
      (FR_OK, got, mkFIL (fil_path fp) (fil_ptr fp + length got))
  | None => (FR_NO_FILE, [], fp)
  end.

(** [f_write]: the bytes replace what is at the file pointer and extend the
    file past its end; [bw] is the number of bytes written. *)
Definition f_write (fp : FIL) (buf : list byte) (v : volume)
  : FRESULT * Z * FIL * volume :=
  match lookup_file (fil_path fp) (files v) with
  | Some f =>
      let d := file_data f in
      let d' := firstn (fil_ptr fp) d ++ buf
                ++ skipn (fil_ptr fp + length buf) d in
      (FR_OK, Z.of_nat (length buf),
       mkFIL (fil_path fp) (fil_ptr fp + length buf),
       set_files v (store_file (fil_path fp)
                      (mkFile (file_date f) (file_time f) d') (files v)))
  | None => (FR_NO_FILE, 0, fp, v)
  end.

(** [f_lseek] within the file; past the end the pointer stops at the end. *)
Definition f_lseek (fp : FIL) (ofs : Z) (v : volume) : FIL :=
  match lookup_file (fil_path fp) (files v) with
  | Some f => mkFIL (fil_path fp) (Nat.min (Z.to_nat ofs) (length (file_data f)))
  | None => fp
  end.

Fixpoint strip_prefix (p s : string) : option string :=
  match p with
  | EmptyString => Some s
  | String a p' =>
      match s with
      | String b s' => if Ascii.eqb a b then strip_prefix p' s' else None
      | EmptyString => None
      end
  end.

(** The listing [f_readdir] walks through for the dump folder. *)
Definition dir_entries (v : volume) : list FILINFO :=
  flat_map (fun e : string * file =>
              match strip_prefix (DUMP_FOLDER ++ "/") (fst e) with
              | Some n => [mkFILINFO n (file_date (snd e)) (file_time (snd e))]
              | None => []
              end) (files v).

Definition f_opendir (v : volume) : FRESULT :=
  if negb (card_ready v) then FR_NOT_READY
  else if has_folder v then FR_OK else FR_NO_PATH.

(* ================================================================= *)
(** ** C strings *)

(** [strstr(s, p) != NULL]. *)
Fixpoint strstr (s p : string) : bool :=
  if String.prefix p s then true
  else match s with
       | EmptyString => false
       | String _ s' => strstr s' p
       end.

(** [strcmp] up to the sign of its result: characters compare as
    [unsigned char]. *)
Fixpoint strcmp (a b : string) : Z :=
  match a, b with
  | EmptyString, EmptyString => 0
  | EmptyString, String _ _ => -1
  | String _ _, EmptyString => 1
  | String x a', String y b' =>
      if Ascii.eqb x y then strcmp a' b'
      else if (N_of_ascii x <? N_of_ascii y)%N then -1 else 1
  end.

(** [snprintf(out, n, "%s", s)]: at most [n - 1] characters are kept. *)
Definition snprintf_s (n : nat) (s : string) : string :=
  String.substring 0 (n - 1) s.

Definition hex_digit (d : Z) : string :=
  String.substring (Z.to_nat d) 1 "0123456789abcdef".

(** ["%02x"] of a byte. *)
Definition hex02 (b : byte) : string :=
  (hex_digit (b2z b / 16) ++ hex_digit (b2z b mod 16))%string.

Fixpoint dec_digits (k : nat) (x : Z) : string :=
  match k with
  | O => EmptyString
  | S k' =>
      (dec_digits k' (x / 10)
       ++ String.substring (Z.to_nat (x mod 10)) 1 "0123456789")%string
  end.

(** ["t%010u"] of a [uint32_t]: ten decimal digits, zero padded. *)
Definition fmt_stamp (ms : Z) : string :=
  ("t" ++ dec_digits 10 ms)%string.

(* ================================================================= *)
(** ** The image header (flashimg_hdr_t, packed, little-endian) *)

Record jedec_info_t : Type := mkJedec {
  manuf_id : byte;
  mem_type : byte;
  capacity_id : byte
}.

Record flashimg_hdr_t : Type := mkHdr {
  magic : list byte;
  jedec : jedec_info_t;
  reserved : byte;
  flash_size : Z;
  chunk_size : Z;
  image_size : Z;
  crc32_all : Z
}.

(** ["FIMGv1\0"], eight bytes with the terminator of the literal. *)
Definition FIMG_MAGIC : list byte := [x46; x49; x4d; x47; x76; x31; x00; x00].

Definition HDR_SIZE : Z := 28.

Definition le32 (x : Z) : list byte :=
  [low8 x; low8 (Z.shiftr x 8); low8 (Z.shiftr x 16); low8 (Z.shiftr x 24)].

Definition rd32 (bs : list byte) : Z :=
  b2z (nth 0 bs x00) + 256 * b2z (nth 1 bs x00)
  + 65536 * b2z (nth 2 bs x00) + 16777216 * b2z (nth 3 bs x00).

Definition hdr_bytes (h : flashimg_hdr_t) : list byte :=
  fit 8 (magic h)
  ++ [manuf_id (jedec h); mem_type (jedec h); capacity_id (jedec h); reserved h]
  ++ le32 (flash_size h) ++ le32 (chunk_size h)
  ++ le32 (image_size h) ++ le32 (crc32_all h).

Definition hdr_of_bytes (bs : list byte) : flashimg_hdr_t :=
  mkHdr (firstn 8 bs)
        (mkJedec (nth 8 bs x00) (nth 9 bs x00) (nth 10 bs x00))
        (nth 11 bs x00)
        (rd32 (skipn 12 bs)) (rd32 (skipn 16 bs))
        (rd32 (skipn 20 bs)) (rd32 (skipn 24 bs)).

(** [memcmp(a, b, n) == 0] for buffers of equal length. *)
Fixpoint bytes_eqb (a b : list byte) : bool :=
  match a, b with
  | [], [] => true
  | x :: a', y :: b' => byte_eqb x y && bytes_eqb a' b'
  | _, _ => false
  end.

(* ================================================================= *)
(** ** The driver and the pipelines over a board *)

Notation "'let?' p ':=' e 'in' k" :=
  (match e with Some p => k | None => None end)
  (at level 10, p pattern, e at level 200, k at level 200, only parsing).

(** The program state over hardware of type [W]: the hardware, the bus log,
    the card and the [static bool mounted] of [fs_mount_once]. *)
Record state (W : Type) : Type := mkState {
  st_hw : W;
  st_bus : list bus_event;
  st_vol : volume;
  st_mounted : bool
}.

Arguments mkState {W} _ _ _ _.
Arguments st_hw {W} _.
Arguments st_bus {W} _.
Arguments st_vol {W} _.
Arguments st_mounted {W} _.

(** What an operation taking [s] to [s'] appended to the bus log. *)
Definition bus_since {W : Type} (s s' : state W) : list bus_event :=
  skipn (length (st_bus s)) (st_bus s').

Section Driver.

Variable B : Board.

(** Polls modelled per busy-wait before the model gives up. *)
Variable fuel : nat.

Local Abbreviation state := (state (hw B)).

Definition on_bus (e : bus_event) (f : hw B -> hw B) (s : state) : state :=
  mkState (f (st_hw s)) (st_bus s ++ [e]) (st_vol s) (st_mounted s).

Definition set_vol (s : state) (v : volume) : state :=
  mkState (st_hw s) (st_bus s) v (st_mounted s).

(** *** SDK calls *)

Definition gpio_put_cs (level : bool) (s : state) : state :=
  on_bus (EvCs level) (bd_cs B level) s.

Definition spi_write_blocking (tx : list byte) (s : state) : state :=
  on_bus (EvWrite tx) (bd_write B tx) s.

Definition spi_read_blocking (n : nat) (s : state) : list byte * state :=
  let (rx, h) := bd_read B n (st_hw s) in
  (fit n rx, on_bus (EvRead n) (fun _ => h) s).

Definition spi_write_read_blocking (tx : list byte) (s : state)
  : list byte * state :=
  let (rx, h) := bd_write_read B tx (st_hw s) in
  (fit (length tx) rx, on_bus (EvWriteRead tx) (fun _ => h) s).

Definition sleep_ms (ms : Z) (s : state) : state :=
  on_bus (EvSleep ms) (bd_sleep B ms) s.

(** [to_ms_since_boot(get_absolute_time())], a [uint32_t]. *)
Definition to_ms_since_boot (s : state) : Z * state :=
  let (t, h) := bd_now B (st_hw s) in
  (u32 t, mkState h (st_bus s) (st_vol s) (st_mounted s)).

Definition malloc (n : Z) (s : state) : bool := bd_malloc B n (st_hw s).

(** *** Flash driver (main.c, lines 100-282) *)

Definition flash_cs_low (s : state) : state := gpio_put_cs false s.
Definition flash_cs_high (s : state) : state := gpio_put_cs true s.

Definition flash_cmd1 (cmd : byte) (s : state) : state :=
  let s := flash_cs_low s in
  let s := spi_write_blocking [cmd] s in
  flash_cs_high s.

Definition flash_wren (s : state) : state := flash_cmd1 CMD_WREN s.

Definition flash_read_sr1 (s : state) : byte * state :=
  let s := flash_cs_low s in
  let (rx, s) := spi_write_read_blocking [CMD_RDSR1; x00] s in
  let s := flash_cs_high s in
  (nth 1 rx x00, s).

Definition flash_read_sr2 (s : state) : byte * state :=
  let s := flash_cs_low s in
  let (rx, s) := spi_write_read_blocking [CMD_RDSR2; x00] s in
  let s := flash_cs_high s in
  (nth 1 rx x00, s).

(** The [while (true)] of [flash_wait_busy_timeout], [t0] being the clock
    read on entry. *)
Fixpoint wait_busy_loop (k : nat) (timeout_ms t0 : Z) (s : state)
  : option (bool * state) :=
  match k with
  | O => None
  | S k' =>
      let (sr, s) := flash_read_sr1 s in
      if Z.land (b2z sr) 1 =? 0 then Some (true, s)
      else
        let (now, s) := to_ms_since_boot s in
        if u32 (now - t0) >? timeout_ms then Some (false, s)
        else wait_busy_loop k' timeout_ms t0 s
  end.

Definition flash_wait_busy_timeout (timeout_ms : Z) (s : state)
  : option (bool * state) :=
  let (t0, s) := to_ms_since_boot s in
  wait_busy_loop fuel timeout_ms t0 s.

Definition flash_soft_reset (s : state) : state :=
  let s := flash_cmd1 CMD_RSTEN s in
  let s := sleep_ms 1 s in
  let s := flash_cmd1 CMD_RST s in
  sleep_ms 10 s.

Definition flash_resume (s : state) : state := flash_cmd1 CMD_RESUME s.

Definition flash_global_unprotect (s : state) : option (unit * state) :=
  let s := flash_cmd1 CMD_ULBPR s in
  let s := sleep_ms 1 s in
  let s := flash_wren s in
  let wr := [CMD_WRSR; x00; x00] in
  let s := flash_cs_low s in
  let s := spi_write_blocking wr s in
  let s := flash_cs_high s in
  let? (_, s) := flash_wait_busy_timeout 200 s in
  let (_, s) := flash_read_sr1 s in
  let (_, s) := flash_read_sr2 s in
  Some (tt, s).

Definition flash_dut_init (s : state) : option (bool * state) :=
  let s := on_bus EvSetup (bd_setup B) s in
  let s := gpio_put_cs true s in
  let s := flash_soft_reset s in
  let? (_, s) := flash_global_unprotect s in
  Some (true, s).

Definition flash_dut_read_jedec (s : state) : bool * jedec_info_t * state :=
  let cmd := CMD_JEDEC_ID in
  let s := flash_cs_low s in
  let s := spi_write_blocking [cmd] s in
  let (rx, s) := spi_read_blocking 3 s in
  let s := flash_cs_high s in
  (true, mkJedec (nth 0 rx x00) (nth 1 rx x00) (nth 2 rx x00), s).

Definition flash_dut_probe_capacity_sfdp : bool * Z := (false, 0).

(** The opcode and the three address bytes of a command. *)
Definition cmd_addr (cmd : byte) (addr : Z) : list byte :=
  [cmd; low8 (Z.shiftr addr 16); low8 (Z.shiftr addr 8); low8 addr].

Definition flash_dut_read (addr : Z) (len : nat) (s : state)
  : bool * list byte * state :=
  if (len =? 0)%nat then (false, [], s)
  else
    let hdr := cmd_addr CMD_READ addr in
    let s := flash_cs_low s in
    let s := spi_write_blocking hdr s in
    let (buf, s) := spi_read_blocking len s in
    let s := flash_cs_high s in
    (true, buf, s).

(** [data] is [None] for a null pointer; [len] is the length of the list. *)
Definition flash_dut_program_page (addr : Z) (data : option (list byte))
  (s : state) : option (bool * state) :=
  match data with
  | None => Some (false, s)
  | Some d =>
      let len := Z.of_nat (length d) in
      if (len =? 0) || (len >? FLASH_PAGE_SIZE) then Some (false, s)
      else
        let s := flash_wren s in
        let hdr := cmd_addr CMD_PP addr in
        let s := flash_cs_low s in
        let s := spi_write_blocking hdr s in
        let s := spi_write_blocking d s in
        let s := flash_cs_high s in
        flash_wait_busy_timeout (10 * 1000) s
  end.

Definition flash_dut_erase_4k (addr : Z) (s : state) : option (bool * state) :=
  let cmd := cmd_addr CMD_SE_4K addr in
  let? (_, s) := flash_global_unprotect s in
  let s := flash_wren s in
  let s := flash_cs_low s in
  let s := spi_write_blocking cmd s in
  let s := flash_cs_high s in
  let? (ok, s) := flash_wait_busy_timeout 2000 s in
  if negb ok then
    let (sr1, s) := flash_read_sr1 s in
    let (sr2, s) := flash_read_sr2 s in
    let s := flash_resume s in
    let s := flash_soft_reset s in
    let? (_, s) := flash_global_unprotect s in
    let s := flash_wren s in
    let s := flash_cs_low s in
    let s := spi_write_blocking cmd s in
    let s := flash_cs_high s in
    let? (ok, s) := flash_wait_busy_timeout 3000 s in
    if negb ok then
      let (sr1, s) := flash_read_sr1 s in
      let (sr2, s) := flash_read_sr2 s in
      Some (false, s)
    else Some (true, s)
  else Some (true, s).

(** *** Storage helpers (main.c, lines 302-373) *)

Definition f_mount (v : volume) : FRESULT :=
  if card_ready v then FR_OK else FR_NOT_READY.

(** [sd_get_by_num(0)] is the address of the one card and never null. *)
Definition fs_mount_once (s : state) : bool * state :=
  if st_mounted s then (true, s)
  else
    let fr := f_mount (st_vol s) in
    if negb (fr_ok fr) then (false, s)
    else (true, mkState (st_hw s) (st_bus s) (st_vol s) true).

Definition f_mkdir (v : volume) : volume :=
  if card_ready v then set_folder v else v.

Definition ensure_folder (s : state) : state :=
  if negb (fr_ok (f_opendir (st_vol s))) then set_vol s (f_mkdir (st_vol s))
  else s.

Definition fmt_time (s : state) : string * state :=
  let (ms, s) := to_ms_since_boot s in
  (snprintf_s 32 (fmt_stamp ms), s).

(** *** CRC over the live chip (main.c, crc32_over_flash) *)

Fixpoint crc32_flash_loop (k : nat) (chunk_bytes crc addr remain : Z)
  (s : state) : option (Z * Z * state) :=
  if remain =? 0 then Some (0, crc, s)
  else
    match k with
    | O => None
    | S k' =>
        let n := if remain >? chunk_bytes then chunk_bytes else remain in
        let '(ok, buf, s) := flash_dut_read addr (Z.to_nat n) s in
        if negb ok then Some (-3, crc, s)
        else
          let crc := crc32_update crc buf in
          crc32_flash_loop k' chunk_bytes crc (u32 (addr + n))
            (u32 (remain - n)) s
    end.

(** Returns the status and, with status 0, the checksum. *)
Definition crc32_over_flash (total_bytes chunk_bytes : Z) (s : state)
  : option (Z * Z * state) :=
  if chunk_bytes =? 0 then Some (-1, 0, s)
  else if negb (malloc chunk_bytes s) then Some (-2, 0, s)
  else
    crc32_flash_loop (Z.to_nat (total_bytes / chunk_bytes + 1))
      chunk_bytes 0 0 total_bytes s.

(** *** Backup (main.c, backup_flash_to_sd) *)

(** The [while (total)] loop: status 0 with the checksum, or -7 / -8. *)
Fixpoint backup_loop (k : nat) (fp : FIL) (crc addr total : Z) (s : state)
  : option (Z * Z * FIL * state) :=
  if total =? 0 then Some (0, crc, fp, s)
  else
    match k with
    | O => None
    | S k' =>
        let n := if total >? CHUNK_BYTES then CHUNK_BYTES else total in
        let '(ok, buf, s) := flash_dut_read addr (Z.to_nat n) s in
        if negb ok then Some (-7, crc, fp, s)
        else
          let crc := crc32_update crc buf in
          let '(fr, bw, fp, v) := f_write fp buf (st_vol s) in
          let s := set_vol s v in
          if negb (fr_ok fr) || negb (bw =? n) then Some (-8, crc, fp, s)
          else backup_loop k' fp crc (u32 (addr + n)) (u32 (total - n)) s
    end.

Definition backup_name (stamp : string) (id : jedec_info_t) : string :=
  snprintf_s 128
    (DUMP_FOLDER ++ "/" ++ stamp ++ "_" ++ hex02 (manuf_id id)
       ++ hex02 (mem_type id) ++ hex02 (capacity_id id) ++ ".fimg")%string.

Definition backup_flash_to_sd (s : state) : option (Z * state) :=
  let (ok, s) := fs_mount_once s in
  if negb ok then Some (-1, s) else
  let? (ok, s) := flash_dut_init s in
  if negb ok then Some (-2, s) else
  let '(ok, id, s) := flash_dut_read_jedec s in
  if negb ok then Some (-3, s) else
  let flash_sz := 16 * 1024 * 1024 in
  let (sfdp_ok, sfdp) := flash_dut_probe_capacity_sfdp in
  let flash_sz :=
    if sfdp_ok && negb (sfdp =? 0) then sfdp
    else
      let by_jedec := flash_calculate_capacity (capacity_id id) in
      if negb (by_jedec =? 0) then by_jedec else flash_sz in
  let s := ensure_folder s in
  let (stamp, s) := fmt_time s in
  let name := backup_name stamp id in
  let '(fr, fp, v) := f_open name FA_CREATE_ALWAYS_WRITE (st_vol s) in
  let s := set_vol s v in
  if negb (fr_ok fr) then Some (-4, s) else
  let h := mkHdr FIMG_MAGIC id x00 flash_sz CHUNK_BYTES flash_sz 0 in
  let '(fr, bw, fp, v) := f_write fp (hdr_bytes h) (st_vol s) in
  let s := set_vol s v in
  if negb (fr_ok fr) || negb (bw =? HDR_SIZE) then Some (-5, s) else
  if negb (malloc CHUNK_BYTES s) then Some (-6, s) else
  let? (rc, crc, fp, s) :=
    backup_loop (Z.to_nat (flash_sz / CHUNK_BYTES + 1)) fp 0 0 flash_sz s in
  if negb (rc =? 0) then Some (rc, s) else
  let '(fr, bw, fp, v) := f_write fp (le32 crc) (st_vol s) in
  let s := set_vol s v in
  if negb (fr_ok fr) || negb (bw =? 4) then Some (-9, s) else
  let h := mkHdr (magic h) (jedec h) (reserved h) (flash_size h)
                 (chunk_size h) (image_size h) crc in
  let fp := f_lseek fp 0 (st_vol s) in
  let '(_, _, fp, v) := f_write fp (hdr_bytes h) (st_vol s) in
  let s := set_vol s v in
  Some (0, s).

(** *** Choosing the newest image (main.c, choose_latest_image) *)

Definition string_nonempty (x : string) : bool :=
  match x with EmptyString => false | String _ _ => true end.

(** The [while (f_readdir(...) == FR_OK && f.fname[0])] loop over the
    listing, carrying [best_date], [best_time] and [best_path]. *)
Fixpoint choose_loop (entries : list FILINFO) (best_date best_time : Z)
  (best_path : string) : string :=
  match entries with
  | [] => best_path
  | f :: rest =>
      if negb (string_nonempty (fname f)) then best_path
      else if negb (strstr (fname f) ".fimg") then
        choose_loop rest best_date best_time best_path
      else
        let newer :=
          if negb (fdate f =? 0) || negb (ftime f =? 0) then
            (fdate f >? best_date)
            || ((fdate f =? best_date) && (ftime f >? best_time))
          else
            negb (string_nonempty best_path)
            || (strcmp (fname f) best_path >? 0) in
        if newer then
          choose_loop rest (fdate f) (ftime f)
            (snprintf_s 128 (DUMP_FOLDER ++ "/" ++ fname f)%string)
        else choose_loop rest best_date best_time best_path
  end.

(** Returns the status and, with status 0, the path written to [out]. *)
Definition choose_latest_image (n : nat) (v : volume) : Z * string :=
  if negb (fr_ok (f_opendir v)) then (-1, EmptyString)
  else
    let best_path := choose_loop (dir_entries v) 0 0 EmptyString in
    if negb (string_nonempty best_path) then (-1, EmptyString)
    else (0, snprintf_s n best_path).

(** *** Restore (main.c, restore_flash_from_sd) *)

(** First pass over the payload: status 0 with the checksum, or -8. *)
Fixpoint restore_crc_loop (k : nat) (fp : FIL) (chunk_bytes crc_calc remain : Z)
  (v : volume) : option (Z * Z * FIL) :=
  if remain =? 0 then Some (0, crc_calc, fp)
  else
    match k with
    | O => None
    | S k' =>
        let n := if remain >? chunk_bytes then chunk_bytes else remain in
        let '(fr, buf, fp) := f_read fp n v in
        if negb (fr_ok fr) || negb (Z.of_nat (length buf) =? n)
        then Some (-8, crc_calc, fp)
        else
          let crc_calc := crc32_update crc_calc buf in
          restore_crc_loop k' fp chunk_bytes crc_calc (u32 (remain - n)) v
    end.

(** The [for (a = 0; a < h.flash_size; a += FLASH_SECTOR_SIZE)] loop;
    [false] when an erase fails. *)
Fixpoint restore_erase_loop (k : nat) (a flash_sz : Z) (s : state)
  : option (bool * state) :=
  if a <? flash_sz then
    match k with
    | O => None
    | S k' =>
        let? (ok, s) := flash_dut_erase_4k a s in
        if negb ok then Some (false, s)
        else restore_erase_loop k' (u32 (a + FLASH_SECTOR_SIZE)) flash_sz s
    end
  else Some (true, s).

(** The [while (off < n)] loop that splits a chunk into page writes
    (lines 661-676); [false] when a page program fails. *)
Fixpoint program_pages (k : nat) (addr : Z) (buf : list byte) (n off : Z)
  (s : state) : option (bool * state) :=
  if off <? n then
    match k with
    | O => None
    | S k' =>
        let page_off := Z.land (u32 (addr + off)) (FLASH_PAGE_SIZE - 1) in
        let room := u32 (FLASH_PAGE_SIZE - page_off) in
        let w := if u32 (n - off) >? room then room else u32 (n - off) in
        let data := firstn (Z.to_nat w) (skipn (Z.to_nat off) buf) in
        let? (ok, s) := flash_dut_program_page (u32 (addr + off)) (Some data) s in
        if negb ok then Some (false, s)
        else program_pages k' addr buf n (u32 (off + w)) s
    end
  else Some (true, s).

(** Second pass over the payload: status 0, -12 or -13. *)
Fixpoint restore_program_loop (k : nat) (fp : FIL) (chunk_bytes addr remain : Z)
  (s : state) : option (Z * state) :=
  if remain =? 0 then Some (0, s)
  else
    match k with
    | O => None
    | S k' =>
        let n := if remain >? chunk_bytes then chunk_bytes else remain in
        let '(fr, buf, fp) := f_read fp n (st_vol s) in
        if negb (fr_ok fr) || negb (Z.of_nat (length buf) =? n)
        then Some (-12, s)
        else
          let? (ok, s) := program_pages (Z.to_nat n) addr buf n 0 s in
          if negb ok then Some (-13, s)
          else
            restore_program_loop k' fp chunk_bytes (u32 (addr + n))
              (u32 (remain - n)) s
    end.

(** [if (!name || !*name)] (lines 552-559): the path to open, with status 0,
    or the status of [choose_latest_image]. [name] is [None] for a null
    pointer. *)
Definition restore_target (name : option string) (v : volume) : Z * string :=
  match name with
  | Some (String a x) => (0, String a x)
  | _ => choose_latest_image 128 v
  end.

(** [restore_flash_from_sd] from "Erase flash" on (lines 630-709): erase
    the sectors below [h.flash_size], program the payload, compare the
    checksum of the live chip with the header's. *)
Definition restore_write (h : flashimg_hdr_t) (fp : FIL) (s : state)
  : option (Z * state) :=
  let chunk_bytes := chunk_size h in
  let data_start := HDR_SIZE in
  (* Erase flash (up to flash_size from header) *)
  let? (ok, s) :=
    restore_erase_loop (Z.to_nat (flash_size h / FLASH_SECTOR_SIZE + 1)) 0
      (flash_size h) s in
  if negb ok then Some (-11, s) else
  (* Program flash from image *)
  let fp := f_lseek fp data_start (st_vol s) in
  let? (rc, s) :=
    restore_program_loop (Z.to_nat (image_size h / chunk_bytes + 1)) fp
      chunk_bytes 0 (image_size h) s in
  if negb (rc =? 0) then Some (rc, s) else
  (* Final CRC over live flash *)
  let? (crc_rc, crc_flash, s) :=
    crc32_over_flash (image_size h) (chunk_size h) s in
  if negb (crc_rc =? 0) then Some (-14, s) else
  if negb (crc_flash =? crc32_all h) then Some (-15, s) else
  Some (0, s).

(** [restore_flash_from_sd] from "Recompute CRC" on (lines 585-709): stream
    the payload through the checksum, read the trailer, require the three
    values to agree, then write. *)
Definition restore_checked (h : flashimg_hdr_t) (fp : FIL) (s : state)
  : option (Z * state) :=
  let chunk_bytes := chunk_size h in
  if negb (malloc chunk_bytes s) then Some (-7, s) else
  let data_start := HDR_SIZE in
  let fp := f_lseek fp data_start (st_vol s) in
  let? (rc, crc_calc, fp) :=
    restore_crc_loop (Z.to_nat (image_size h / chunk_bytes + 1)) fp
      chunk_bytes 0 (image_size h) (st_vol s) in
  if negb (rc =? 0) then Some (rc, s) else
  let '(fr, tb, fp) := f_read fp 4 (st_vol s) in
  if negb (fr_ok fr) || negb (Z.of_nat (length tb) =? 4) then Some (-9, s) else
  let crc_file_trailer := rd32 tb in
  if negb (crc_calc =? crc_file_trailer) || negb (crc_calc =? crc32_all h)
  then Some (-10, s) else
  restore_write h fp s.

(** The head of [restore_flash_from_sd] (lines 542-583): mount, initialise
    the flash, resolve and open the file, read and validate the header. *)
Definition restore_flash_from_sd (name : option string) (s : state)
  : option (Z * state) :=
  let (ok, s) := fs_mount_once s in
  if negb ok then Some (-1, s) else
  let? (ok, s) := flash_dut_init s in
  if negb ok then Some (-2, s) else
  let (rc, name) := restore_target name (st_vol s) in
  if negb (rc =? 0) then Some (-3, s) else
  let '(fr, fp, _) := f_open name FA_READ (st_vol s) in
  if negb (fr_ok fr) then Some (-4, s) else
  (* Read and validate header *)
  let '(fr, hb, fp) := f_read fp HDR_SIZE (st_vol s) in
  let h := hdr_of_bytes (fit (Z.to_nat HDR_SIZE) hb) in
  if negb (fr_ok fr) || negb (Z.of_nat (length hb) =? HDR_SIZE)
     || negb (bytes_eqb (magic h) FIMG_MAGIC)
  then Some (-5, s) else
  if (image_size h =? 0) || (chunk_size h =? 0) then Some (-6, s) else
  restore_checked h fp s.

(** *** Stages of the driver calls, for stating what happens between the
    busy-waits *)

(** [flash_dut_erase_4k] up to its first busy-wait. *)
Definition erase_first (addr : Z) (s : state) : option state :=
  let? (_, s) := flash_global_unprotect s in
  let s := flash_wren s in
  let s := flash_cs_low s in
  let s := spi_write_blocking (cmd_addr CMD_SE_4K addr) s in
  Some (flash_cs_high s).

(** [flash_dut_erase_4k] from the first time-out up to the second
    busy-wait. *)
Definition erase_retry (addr : Z) (s : state) : option state :=
  let (_, s) := flash_read_sr1 s in
  let (_, s) := flash_read_sr2 s in
  let s := flash_resume s in
  let s := flash_soft_reset s in
  erase_first addr s.

(** [flash_dut_erase_4k] after the second time-out. *)
Definition erase_give_up (s : state) : state :=
  let (_, s) := flash_read_sr1 s in
  let (_, s) := flash_read_sr2 s in
  s.

(** [flash_dut_program_page] up to its busy-wait. *)
Definition pp_issue (addr : Z) (d : list byte) (s : state) : state :=
  let s := flash_wren s in
  let s := flash_cs_low s in
  let s := spi_write_blocking (cmd_addr CMD_PP addr) s in
  let s := spi_write_blocking d s in
  flash_cs_high s.

(** A list of page programs issued in order, stopping at the first
    failure. *)
Fixpoint program_calls (calls : list (Z * list byte)) (s : state)
  : option (bool * state) :=
  match calls with
  | [] => Some (true, s)
  | (a, d) :: r =>
      let? (ok, s) := flash_dut_program_page a (Some d) s in
      if negb ok then Some (false, s) else program_calls r s
  end.

End Driver.


(* ================================================================= *)
(** ** A synthetic NOR chip on a synthetic board

    The test double the specification's properties are run against: a
    memory array with NOR semantics (erase sets a sector to 0xFF, program
    clears bits within one page), a write-enable latch, a write-in-progress
    flag that stays up for [lat] polls after each program, erase or status
    write, and an erase that latches up once when [glitch] is set and stays
    busy until a soft reset. Commands take effect when chip select rises. *)

Module Sim.

Record chip : Type := mkChip {
  id : jedec_info_t;
  mem : list byte;
  wel : bool;
  busy : nat;
  stuck : bool;
  glitch : bool;
  rsten : bool;
  sel : option (list byte);
  now : Z;
  lat : nat;
  tick : Z;
  heap : Z
}.

Definition band (x y : byte) : byte := z2b (Z.land (b2z x) (b2z y)).

Fixpoint upd (m : list byte) (i : nat) (b : byte) : list byte :=
  match m, i with
  | [], _ => []
  | _ :: r, O => b :: r
  | x :: r, S j => x :: upd r j b
  end.

(** [n] bytes read sequentially, [cur] being what lies from the address
    counter to the end of the array; at the end the counter wraps to 0. *)
Fixpoint read_from (m cur : list byte) (n : nat) : list byte :=
  match n with
  | O => []
  | S n' =>
      match cur with
      | b :: r => b :: read_from m r n'
      | [] =>
          match m with
          | b :: r => b :: read_from m r n'
          | [] => xff :: read_from m [] n'
          end
      end
  end.

Definition read_bytes (m : list byte) (a : nat) (n : nat) : list byte :=
  read_from m (skipn a m) n.

(** Page program: byte [off] of the page at [base] onwards, the offset
    wrapping within the 256-byte page; bits can only be cleared. *)
Fixpoint program_bytes (m : list byte) (base off : nat) (data : list byte)
  : list byte :=
  match data with
  | [] => m
  | d :: r =>
      let p := (base + off mod 256)%nat in
      program_bytes (upd m p (band (nth p m xff) d)) base (S off) r
  end.

Definition program (m : list byte) (a : nat) (data : list byte) : list byte :=
  program_bytes m (a - a mod 256) (a mod 256) data.

(** Sector erase: the 4096-byte sector containing [a] becomes 0xFF. *)
Definition erase (m : list byte) (a : nat) : list byte :=
  let base := (a - a mod 4096)%nat in
  firstn base m
  ++ repeat xff (Nat.min 4096 (length m - base))
  ++ skipn (base + 4096) m.

Definition set_sel (c : chip) (f : option (list byte)) : chip :=
  mkChip (id c) (mem c) (wel c) (busy c) (stuck c) (glitch c) (rsten c) f
         (now c) (lat c) (tick c) (heap c).

Definition set_now (c : chip) (t : Z) : chip :=
  mkChip (id c) (mem c) (wel c) (busy c) (stuck c) (glitch c) (rsten c)
         (sel c) t (lat c) (tick c) (heap c).

(** The dynamic part of the chip replaced: memory, latch, busy count,
    latch-up, pending glitch, reset-enable. *)
Definition set_core (c : chip) (m : list byte) (w : bool) (b : nat)
  (st gl re : bool) : chip :=
  mkChip (id c) m w b st gl re (sel c) (now c) (lat c) (tick c) (heap c).

Definition wip (c : chip) : bool := stuck c || (0 <? busy c)%nat.

Definition status (c : chip) : byte :=
  match wip c, wel c with
  | true, true => x03
  | true, false => x01
  | false, true => x02
  | false, false => x00
  end.

(** The effect of a complete frame, applied when chip select rises. *)
Definition commit (f : list byte) (c : chip) : chip :=
  match f with
  | [op] =>
      if byte_eqb op CMD_WREN then
        set_core c (mem c) true (busy c) (stuck c) (glitch c) (rsten c)
      else if byte_eqb op CMD_RSTEN then
        set_core c (mem c) (wel c) (busy c) (stuck c) (glitch c) true
      else if byte_eqb op CMD_RST then
        if rsten c then set_core c (mem c) false 0 false (glitch c) false
        else c
      else c
  | [op; _; _] =>
      if byte_eqb op CMD_WRSR && wel c then
        set_core c (mem c) false (lat c) (stuck c) (glitch c) (rsten c)
      else c
  | op :: a2 :: a1 :: a0 :: data =>
      let a := Z.to_nat (frame_addr f) in
      if byte_eqb op CMD_PP && wel c && negb (stuck c) then
        match data with
        | [] => c
        | _ => set_core c (program (mem c) (a mod length (mem c)) data) false
                 (lat c) (stuck c) (glitch c) (rsten c)
        end
      else if byte_eqb op CMD_SE_4K && wel c && negb (stuck c) then
        match data with
        | [] =>
            if glitch c then
              set_core c (mem c) false (busy c) true false (rsten c)
            else
              set_core c (erase (mem c) (a mod length (mem c))) false (lat c)
                (stuck c) (glitch c) (rsten c)
        | _ => c
        end
      else c
  | _ => c
  end.

Definition cs (level : bool) (c : chip) : chip :=
  if level then
    match sel c with
    | Some f => commit f (set_sel c None)
    | None => c
    end
  else set_sel c (Some []).

Definition write (tx : list byte) (c : chip) : chip :=
  set_sel c (option_map (fun f => f ++ tx) (sel c)).

Definition read (n : nat) (c : chip) : list byte * chip :=
  match sel c with
  | Some [op] =>
      if byte_eqb op CMD_JEDEC_ID then
        (firstn n [manuf_id (id c); mem_type (id c); capacity_id (id c)], c)
      else (repeat x00 n, c)
  | Some [op; a2; a1; a0] =>
      if byte_eqb op CMD_READ then
        (read_bytes (mem c)
           (Z.to_nat (frame_addr [op; a2; a1; a0]) mod length (mem c)) n, c)
      else (repeat x00 n, c)
  | Some _ => (repeat x00 n, c)
  | None => (repeat xff n, c)
  end.

(** A status poll: the answer, and one poll less of busy time. *)
Definition write_read (tx : list byte) (c : chip) : list byte * chip :=
  match sel c, tx with
  | Some [], [op; _] =>
      if byte_eqb op CMD_RDSR1 then
        ([x00; status c],
         set_sel (set_core c (mem c) (wel c) (Nat.pred (busy c)) (stuck c)
                    (glitch c) (rsten c)) (Some tx))
      else (repeat x00 (length tx), set_sel c (Some tx))
  | Some f, _ => (repeat x00 (length tx), set_sel c (Some (f ++ tx)))
  | None, _ => (repeat xff (length tx), c)
  end.

Definition sleep (ms : Z) (c : chip) : chip := set_now c (now c + ms).

Definition clock (c : chip) : Z * chip := (now c, set_now c (now c + tick c)).

Definition board : Board :=
  mkBoard chip (fun c => c) cs write read write_read sleep clock
          (fun n c => n <=? heap c).

(** A chip at rest holding [m]. *)
Definition idle (i : jedec_info_t) (m : list byte) (l : nat) (tk hp : Z)
  : chip :=
  mkChip i m false 0 false false false None 0 l tk hp.

End Sim.

(* ================================================================= *)
(** ** The page-exact reference splitter

    The specification's words for programming a run of bytes: compute
    [room = pageSize - (address mod pageSize)], write [min(remaining, room)]
    bytes, advance the address. [k] bounds the number of pieces. *)

Fixpoint ref_split_aux (k : nat) (addr : Z) (data : list byte)
  : list (Z * list byte) :=
  match k, data with
  | O, _ => []
  | _, [] => []
  | S k', _ :: _ =>
      let room := FLASH_PAGE_SIZE - addr mod FLASH_PAGE_SIZE in
      let w := Z.min (Z.of_nat (length data)) room in
      (addr, firstn (Z.to_nat w) data)
        :: ref_split_aux k' (addr + w) (skipn (Z.to_nat w) data)
  end.

Definition ref_split (addr : Z) (data : list byte) : list (Z * list byte) :=
  ref_split_aux (length data) addr data.

(** A page program that stays inside one 256-byte page. *)
Definition within_page (call : Z * list byte) : Prop :=
  1 <= Z.of_nat (length (snd call)) <= FLASH_PAGE_SIZE /\
  fst call mod FLASH_PAGE_SIZE + Z.of_nat (length (snd call)) <= FLASH_PAGE_SIZE.

(* ================================================================= *)
(** ** Reading the bus log *)

(** The frames other than polls of status register 1. *)
Definition significant (F : list (list byte)) : list (list byte) :=
  filter (fun f => negb (byte_eqb (opcode f) CMD_RDSR1)) F.

(** A stretch of log that leaves the chip deselected: its frames are its
    own, whatever follows. *)
Definition balanced (added : list bus_event) : Prop :=
  forall k, frames (added ++ k) = frames added ++ frames k.

(** [runs s s' G]: going from [s] to [s'] left the card and the mount flag
    alone and put on the bus, besides status polls, exactly the frames [G]. *)
Definition runs {W : Type} (s s' : state W) (G : list (list byte)) : Prop :=
  st_vol s' = st_vol s /\
  st_mounted s' = st_mounted s /\
  exists added,
    st_bus s' = st_bus s ++ added /\
    balanced added /\
    significant (frames added) = G.

(** The frames [flash_dut_init] puts on the bus. *)
Definition init_frames : list (list byte) :=
  [[CMD_RSTEN]; [CMD_RST]; [CMD_ULBPR]; [CMD_WREN];
   [CMD_WRSR; x00; x00]; [CMD_RDSR2; x00]].

(** The frames [flash_global_unprotect] puts on the bus. *)
Definition unprotect_frames : list (list byte) :=
  [[CMD_ULBPR]; [CMD_WREN]; [CMD_WRSR; x00; x00]; [CMD_RDSR2; x00]].

(* ================================================================= *)
(** ** The parts of an image file *)

Definition img_header (data : list byte) : flashimg_hdr_t :=
  hdr_of_bytes (firstn (Z.to_nat HDR_SIZE) data).

Definition img_payload (data : list byte) : list byte :=
  firstn (Z.to_nat (image_size (img_header data)))
         (skipn (Z.to_nat HDR_SIZE) data).

Definition img_trailer (data : list byte) : list byte :=
  firstn 4 (skipn (Z.to_nat HDR_SIZE + Z.to_nat (image_size (img_header data)))
              data).

(** The state once [fs_mount_once] has succeeded. *)
Definition mounted {W : Type} (s : state W) : state W :=
  mkState (st_hw s) (st_bus s) (st_vol s) true.

(** The conditions the abort theorems share: the card answers, the flash
    initialisation returns, and the target resolves to a file that holds at
    least a header. *)
Definition restore_reaches_header (B : Board) (fuel : nat)
  (name : option string) (s si : state (hw B)) (path : string) (f : file)
  : Prop :=
  card_ready (st_vol s) = true /\
  (exists ok, flash_dut_init B fuel (mounted s) = Some (ok, si)) /\
  restore_target name (st_vol s) = (0, path) /\
  lookup_file path (files (st_vol s)) = Some f /\
  HDR_SIZE <= Z.of_nat (length (file_data f)).

(* ================================================================= *)
(** ** The synthetic chip at rest *)

(** A chip between commands: deselected, not latched up, no glitch
    pending. *)
Definition rest_chip (i : jedec_info_t) (l : nat) (tk hp : Z)
  (m : list byte) (w : bool) (b : nat) (re : bool) (t : Z) : Sim.chip :=
  Sim.mkChip i m w b false false re None t l tk hp.

(** [sim_at i l tk hp m w v mtd s]: the state [s] has the synthetic chip at
    rest with memory [m] and write-enable latch [w], busy for at most [l]
    more polls, the card [v] and the mount flag [mtd]. *)
Definition sim_at (i : jedec_info_t) (l : nat) (tk hp : Z)
  (m : list byte) (w : bool) (v : volume) (mtd : bool)
  (s : state (hw Sim.board)) : Prop :=
  exists b re t bus,
    s = mkState (W := hw Sim.board) (rest_chip i l tk hp m w b re t) bus v mtd /\
    (b <= l)%nat.

(** The size [backup_flash_to_sd] takes the chip to have (lines 418-425). *)
Definition detected_size (i : jedec_info_t) : Z :=
  let by_jedec := flash_calculate_capacity (capacity_id i) in
  if negb (by_jedec =? 0) then by_jedec else 16 * 1024 * 1024.

(** The card answers and holds, at [path], a file with the given stamps and
    bytes. *)
Definition vol_has (v : volume) (path : string) (dt tm : Z) (data : list byte)
  : Prop :=
  card_ready v = true /\
  lookup_file path (files v) = Some (mkFile dt tm data).

(* ================================================================= *)
(** ** Concrete chips, cards and images *)

Definition from_some {A : Type} (d : A) (o : option A) : A :=
  match o with Some x => x | None => d end.

Module Ex.

Definition id : jedec_info_t := mkJedec xef x40 x10.

(** 8192 bytes: the size capacity code 0x10 decodes to. *)
Definition content : list byte :=
  concat (repeat [x00; x11; x5a; xa5; xff; x3c; x77; xfe] 1024).

Definition chip : Sim.chip := rest_chip id 3 1 8192 content false 0 false 0.

Definition card : volume := mkVolume true false (0, 0) [].

Definition start : state (hw Sim.board) :=
  mkState (W := hw Sim.board) chip [] card false.

(** A small chip whose next erase latches up, on a board whose clock
    advances a second per reading. *)
Definition glitchy : state (hw Sim.board) :=
  mkState (W := hw Sim.board)
    (Sim.mkChip id (repeat x5a 4096) false 0 false true false None 0 3 1000
       8192)
    [] card false.

Definition glitchy1 : state (hw Sim.board) :=
  from_some glitchy (erase_first Sim.board 10 0 glitchy).

Definition glitchy2 : state (hw Sim.board) :=
  from_some glitchy1
    (option_map snd (flash_wait_busy_timeout Sim.board 10 2000 glitchy1)).

Definition glitchy3 : state (hw Sim.board) :=
  from_some glitchy2 (erase_retry Sim.board 10 0 glitchy2).

Definition glitchy4 : state (hw Sim.board) :=
  from_some glitchy3
    (option_map snd (flash_wait_busy_timeout Sim.board 10 3000 glitchy3)).

(** A four-byte image whose header and trailer carry the right checksum,
    and the same image with one payload byte flipped. *)
Definition payload : list byte := [x01; x02; x03; x04].

Definition good_hdr : flashimg_hdr_t :=
  mkHdr FIMG_MAGIC id x00 4096 4096 4 (crc32_update 0 payload).

Definition good_image : list byte :=
  hdr_bytes good_hdr ++ payload ++ le32 (crc32_update 0 payload).

Definition tampered_image : list byte :=
  hdr_bytes good_hdr ++ [x01; x02; x83; x04] ++ le32 (crc32_update 0 payload).

(** An image whose header claims [image_size = 0]. *)
Definition empty_image : list byte :=
  hdr_bytes (mkHdr FIMG_MAGIC id x00 4096 4096 0 0) ++ le32 0.

Definition small_chip : Sim.chip :=
  rest_chip id 3 1 8192 (repeat x5a 16) false 0 false 0.

Definition with_file (data : list byte) : state (hw Sim.board) :=
  mkState (W := hw Sim.board) small_chip []
    (mkVolume true true (0, 0)
       [("FLASHIMG/t0000000012_ef4010.fimg"%string, mkFile 0 0 data)])
    false.

Definition path : string := "FLASHIMG/t0000000012_ef4010.fimg".

(** The state after [flash_dut_init], from [s]. *)
Definition initialised (s : state (hw Sim.board)) : state (hw Sim.board) :=
  from_some s (option_map snd (flash_dut_init Sim.board 8 (mounted s))).

End Ex.

(* ================================================================= *)
(** ** Listings of the dump folder *)

(** A listed image that carries a FAT timestamp. *)
Definition stamped_image (f : FILINFO) : Prop :=
  string_nonempty (fname f) = true /\
  strstr (fname f) ".fimg" = true /\
  0 <= fdate f /\ 0 <= ftime f /\ (fdate f <> 0 \/ ftime f <> 0).

(** The (date, time) pair [(d, t)] is not after [(d', t')]. *)
Definition not_after (d t d' t' : Z) : Prop :=
  d < d' \/ (d = d' /\ t <= t').

Definition image_path (f : FILINFO) : string :=
  snprintf_s 128 (DUMP_FOLDER ++ "/" ++ fname f)%string.

(* ================================================================= *)
(** ** Relations and predicates for the further properties *)

(** [emits s s' G]: between [s] and [s'] the bus log grew by whole frames
    which, polls of status register 1 apart, are [G]. Unlike [runs] it says
    nothing of the card. *)
Definition emits {W : Type} (s s' : state W) (G : list (list byte)) : Prop :=
  exists added,
    st_bus s' = st_bus s ++ added /\
    balanced added /\
    significant (frames added) = G.

(** A card that differs from [v] at most in the file at [path], and in that
    the dump folder may have been created. *)
Definition same_but (path : string) (v v' : volume) : Prop :=
  card_ready v' = card_ready v /\
  fattime v' = fattime v /\
  (has_folder v = true -> has_folder v' = true) /\
  forall q, q <> path ->
    lookup_file q (files v') = lookup_file q (files v).

(** The frames of the three stages of the write of a restore: while it
    erases nothing is programmed or read, while it programs there are
    write-enables and page programs only, while it verifies reads only. *)
Definition erase_stage (f : list byte) : bool :=
  negb (byte_eqb (opcode f) CMD_PP) && negb (byte_eqb (opcode f) CMD_READ).

Definition program_stage (f : list byte) : bool :=
  byte_eqb (opcode f) CMD_WREN || byte_eqb (opcode f) CMD_PP.

Definition read_stage (f : list byte) : bool :=
  byte_eqb (opcode f) CMD_READ.

(** [runs_within P s s']: a run from [s] to [s'] all of whose frames, polls
    apart, satisfy [P]. *)
Definition runs_within {W : Type} (P : list byte -> bool) (s s' : state W)
  : Prop :=
  exists G, runs s s' G /\ forallb P G = true.

(** The frame of a read of [n] bytes at [a]. *)
Definition read_frame (a : Z) (n : nat) : list byte :=
  cmd_addr CMD_READ a ++ repeat x00 n.

(** [covers chunk a plan b]: the reads of [plan], as (address, length) pairs, go
    through the addresses from [a] to [b] in order, without gap or
    overlap, each at most [chunk] bytes long. *)
Fixpoint covers (chunk a : Z) (plan : list (Z * nat)) (b : Z) : Prop :=
  match plan with
  | [] => a = b
  | (a', n) :: rest =>
      a' = a /\ 0 < Z.of_nat n <= chunk /\
      covers chunk (a + Z.of_nat n) rest b
  end.

(** The frames of one sector erase at [a] that succeeds, polls apart: with
    or without the recovery and the second erase command. *)
Definition erase_once (a : Z) : list (list byte) :=
  unprotect_frames ++ [[CMD_WREN]; cmd_addr CMD_SE_4K a].

Definition erase_twice (a : Z) : list (list byte) :=
  erase_once a
  ++ [[CMD_RDSR2; x00]; [CMD_RESUME]; [CMD_RSTEN]; [CMD_RST]] ++ erase_once a.

(** [rewrites path v v']: the card [v'] is [v] with, at most, the file at
    [path] stored anew. *)
Definition rewrites (path : string) (v v' : volume) : Prop :=
  card_ready v' = card_ready v /\ has_folder v' = has_folder v /\
  (files v' = files v \/ exists f, files v' = store_file path f (files v)).

(* ================================================================= *)
(** ** The listing and the console (main.c, list_flash_images,
       read_line_blocking, main) *)

(** The [while (f_readdir(...) == FR_OK && f.fname[0])] loop of
    [list_flash_images]: the count and the lines printed. The count is an
    [int]; a folder holds far fewer entries than it can count. *)
Fixpoint list_loop (entries : list FILINFO) (count : Z) (out : list string)
  : Z * list string :=
  match entries with
  | [] => (count, out)
  | f :: rest =>
      if negb (string_nonempty (fname f)) then (count, out)
      else if strstr (fname f) ".fimg" then
        list_loop rest (count + 1)
          (out ++ [(DUMP_FOLDER ++ "/" ++ fname f)%string])
      else list_loop rest count out
  end.

Section Listing.

Variable B : Board.

(** Returns the count, or -1, with the paths it printed. *)
Definition list_flash_images (s : state (hw B))
  : Z * list string * state (hw B) :=
  let (ok, s) := fs_mount_once B s in
  if negb ok then (-1, [], s) else
  let s := ensure_folder B s in
  if negb (fr_ok (f_opendir (st_vol s))) then (-1, [], s)
  else
    let (count, out) := list_loop (dir_entries (st_vol s)) 0 [] in
    (count, out, s).

End Listing.

(** What [getchar_timeout_us(100000)] returned, with the value
    [time_us_64()] has when it is read next: [KeyNone] is
    [PICO_ERROR_TIMEOUT]. *)
Inductive key_event : Type :=
| KeyNone (now : Z)
| KeyChar (c : Z) (now : Z).

(** Reduction modulo 2^64, for [uint64_t]. *)
Definition u64 (z : Z) : Z := z mod 2 ^ 64.

(** [(char) c] for a printable [c]. *)
Definition char_of (c : Z) : ascii := ascii_of_N (Z.to_N c).

(** The [while (1)] of [read_line_blocking]: [buf] holds [buf[0..pos)],
    [out] what [putchar] has written. [None] when the input ends before
    the loop does. [buf_len] is a [size_t], 32 bits wide on the RP2040. *)
Fixpoint read_line_loop (evs : list key_event) (buf_len : Z)
  (buf : list ascii) (out : list Z) (got_any : bool) (last_us : Z)
  : option (list ascii * list Z * list key_event) :=
  match evs with
  | [] => None
  | KeyNone now :: rest =>
      if got_any && (u64 (now - last_us) >? 500000)
      then Some (buf, out ++ [10], rest)
      else read_line_loop rest buf_len buf out got_any last_us
  | KeyChar c now :: rest =>
      if (c =? 13) || (c =? 10) then Some (buf, out ++ [10], rest)
      else if (c =? 8) || (c =? 127) then
        if (0 <? Z.of_nat (length buf)) then
          read_line_loop rest buf_len (removelast buf) (out ++ [8; 32; 8])
            true now
        else read_line_loop rest buf_len buf out true now
      else if (c >=? 32) && (c <? 127) then
        if Z.of_nat (length buf) <? u32 (buf_len - 1) then
          read_line_loop rest buf_len (buf ++ [char_of c]) (out ++ [c])
            true now
        else read_line_loop rest buf_len buf out true now
      else read_line_loop rest buf_len buf out true now
  end.

(** Returns the line, what was echoed and the input left over; [t0] is the
    clock on entry. *)
Definition read_line_blocking (t0 : Z) (evs : list key_event) (buf_len : Z)
  : option (string * list Z * list key_event) :=
  match read_line_loop evs buf_len [] [] false t0 with
  | Some (buf, out, rest) => Some (string_of_list_ascii buf, out, rest)
  | None => None
  end.

(** [strchr(s, c) != NULL] for a [c] other than the terminator. *)
Fixpoint strchr (s : string) (c : ascii) : bool :=
  match s with
  | EmptyString => false
  | String a r => Ascii.eqb a c || strchr r c
  end.

(** Option 4 of the menu, from the line read to the path handed to
    [restore_flash_from_sd] (main, [case '4']): [None] when the line is
    empty and the restore is cancelled. *)
Definition menu_restore_path (input : string) : option string :=
  if negb (string_nonempty input) then None
  else if negb (strchr input "/") && negb (strchr input "\")
  then Some (snprintf_s 160 (DUMP_FOLDER ++ "/" ++ input)%string)
  else Some (snprintf_s 160 input).

(** The keys of a line typed without corrections, each with the clock
    reading that follows it. *)
Definition typed (line : string) (now : Z) : list key_event :=
  map (fun a => KeyChar (Z.of_N (N_of_ascii a)) now)
      (list_ascii_of_string line).

Definition printable (a : ascii) : Prop :=
  32 <= Z.of_N (N_of_ascii a) < 127.

(* ================================================================= *)
(** ** More concrete runs *)

Module Demo.

(** A chip that stays busy for a hundred polls after each command, on a
    board whose clock advances a second per reading: every busy-wait times
    out. *)
Definition slow : state (hw Sim.board) :=
  mkState (W := hw Sim.board)
    (Sim.mkChip Ex.id (repeat x5a 4096) false 0 false false false None 0 100
       1000 8192)
    [] Ex.card false.

(** A header that claims a flash of 2^32 - 1 bytes. *)
Definition oversize_hdr : flashimg_hdr_t :=
  mkHdr FIMG_MAGIC Ex.id x00 0xFFFFFFFF 4096 4 0.

Definition slow_failed : state (hw Sim.board) :=
  from_some slow
    (option_map snd
       (restore_write Sim.board 10 oversize_hdr (mkFIL Ex.path 28) slow)).

(** The small chip after the write of the four-byte image. *)
Definition written : state (hw Sim.board) :=
  from_some (Ex.initialised (Ex.with_file Ex.good_image))
    (option_map snd
       (restore_write Sim.board 8 Ex.good_hdr (mkFIL Ex.path 36)
          (Ex.initialised (Ex.with_file Ex.good_image)))).

(** The state a backup of the 8192-byte chip ends in. *)
Definition backed_up : state (hw Sim.board) :=
  from_some Ex.start
    (option_map snd (backup_flash_to_sd Sim.board 8 Ex.start)).

(** The state the checksum pass over the 8192-byte chip ends in. *)
Definition summed : state (hw Sim.board) :=
  from_some Ex.start
    (option_map snd (crc32_over_flash Sim.board 8192 4096 Ex.start)).

(** The 8192-byte chip after the erase loop over its two sectors. *)
Definition erased : state (hw Sim.board) :=
  from_some Ex.start
    (option_map snd (restore_erase_loop Sim.board 8 3 0 8192 Ex.start)).

(** A card with three stamped images. *)
Definition stamped_card : volume :=
  mkVolume true true (0, 0)
    [("FLASHIMG/t0000000001_ef4018.fimg"%string, mkFile 5 1 []);
     ("FLASHIMG/t0000000002_ef4018.fimg"%string, mkFile 7 2 []);
     ("FLASHIMG/notes.txt"%string, mkFile 9 9 []);
     ("FLASHIMG/t0000000003_ef4018.fimg"%string, mkFile 7 1 [])].

(** The same card without the text file. *)
Definition images_card : volume :=
  mkVolume true true (0, 0)
    [("FLASHIMG/t0000000001_ef4018.fimg"%string, mkFile 5 1 []);
     ("FLASHIMG/t0000000002_ef4018.fimg"%string, mkFile 7 2 []);
     ("FLASHIMG/t0000000003_ef4018.fimg"%string, mkFile 7 1 [])].

Definition with_card (v : volume) : state (hw Sim.board) :=
  mkState (W := hw Sim.board) Ex.chip [] v false.

(** A card that does not answer. *)
Definition no_card : volume := mkVolume false false (0, 0) [].

(** "ab", a backspace, "c", then silence. *)
Definition keys : list key_event :=
  [KeyNone 100000; KeyChar 97 150000; KeyChar 98 200000; KeyChar 8 250000;
   KeyChar 99 300000; KeyNone 400000; KeyNone 900000; KeyChar 100 950000].

End Demo.

(* ================================================================= *)
(** ** Facts on bytes and words *)

Lemma b2z_range (b : byte) : 0 <= b2z b < 256.
Proof.
  unfold b2z. pose proof (Byte.to_N_bounded b). lia.
Qed.

Lemma z2b_b2z (b : byte) : z2b (b2z b) = b.
Proof.
  unfold z2b, b2z. pose proof (Byte.to_N_bounded b).
  rewrite Z.mod_small by lia.
  rewrite N2Z.id, Byte.of_to_N. reflexivity.
Qed.

Lemma b2z_z2b (z : Z) : 0 <= z < 256 -> b2z (z2b z) = z.
Proof.
  intros Hz. unfold z2b, b2z. rewrite Z.mod_small by lia.
  destruct (Byte.of_N (Z.to_N z)) as [b|] eqn:E.
  - apply Byte.to_of_N in E. rewrite E. lia.
  - pose proof (Byte.to_of_N_option_map (Z.to_N z)) as H.
    rewrite E in H. simpl in H.
    destruct (N.leb_spec (Z.to_N z) 255); [discriminate | lia].
Qed.

(** Linear arithmetic with the value of 2^32 at hand. *)
Ltac lia32 :=
  unfold in_u32 in *;
  change (2 ^ 32) with 4294967296 in *;
  change (2 ^ 24) with 16777216 in *;
  lia.

Lemma u32_range (z : Z) : in_u32 (u32 z).
Proof. unfold in_u32, u32. apply Z.mod_pos_bound. lia. Qed.

Lemma u32_small (z : Z) : in_u32 z -> u32 z = z.
Proof. unfold in_u32, u32. intros H. apply Z.mod_small. exact H. Qed.

Lemma not32_range (c : Z) : in_u32 (not32 c).
Proof. apply u32_range. Qed.

Lemma not32_involutive (c : Z) : in_u32 c -> not32 (not32 c) = c.
Proof.
  unfold in_u32, not32, u32. intros Hc.
  replace (Z.lnot c) with (- c - 1) by (unfold Z.lnot; lia).
  replace ((- c - 1) mod 2 ^ 32) with (2 ^ 32 - 1 - c).
  2:{ apply Z.mod_unique with (q := -1); lia. }
  replace (Z.lnot (2 ^ 32 - 1 - c)) with (c - 2 ^ 32) by (unfold Z.lnot; lia).
  symmetry. apply Z.mod_unique with (q := -1); lia.
Qed.

Lemma lxor_u32 (a b : Z) : in_u32 a -> in_u32 b -> in_u32 (Z.lxor a b).
Proof.
  unfold in_u32. intros Ha Hb.
  assert (H0 : 0 <= Z.lxor a b) by (apply Z.lxor_nonneg; lia).
  split; [exact H0|].
  destruct (Z.eq_dec (Z.lxor a b) 0) as [E|E]; [rewrite E; lia|].
  apply Z.log2_lt_pow2; [lia|].
  pose proof (Z.log2_lxor a b ltac:(lia) ltac:(lia)) as Hl.
  assert (La : Z.log2 a < 32).
  { destruct (Z.eq_dec a 0) as [->|]; [simpl; lia|].
    apply Z.log2_lt_pow2; lia. }
  assert (Lb : Z.log2 b < 32).
  { destruct (Z.eq_dec b 0) as [->|]; [simpl; lia|].
    apply Z.log2_lt_pow2; lia. }
  lia.
Qed.

Lemma land_u32_l (a b : Z) : in_u32 a -> 0 <= b -> in_u32 (Z.land a b).
Proof.
  unfold in_u32. intros Ha Hb.
  assert (H0 : 0 <= Z.land a b) by (apply Z.land_nonneg; lia).
  split; [exact H0|].
  destruct (Z.eq_dec (Z.land a b) 0) as [E|E]; [rewrite E; lia|].
  apply Z.log2_lt_pow2; [lia|].
  pose proof (Z.log2_land a b ltac:(lia) Hb) as Hl.
  assert (La : Z.log2 a < 32).
  { destruct (Z.eq_dec a 0) as [->|]; [simpl; lia|].
    apply Z.log2_lt_pow2; lia. }
  lia.
Qed.

Lemma crc32_bit_range (c : Z) : in_u32 c -> in_u32 (crc32_bit c).
Proof.
  intros Hc. unfold crc32_bit. apply lxor_u32.
  - unfold in_u32 in *. rewrite Z.shiftr_div_pow2 by lia.
    split; [apply Z.div_pos; lia|].
    apply Z.div_lt_upper_bound; lia.
  - apply land_u32_l.
    + unfold in_u32. lia.
    + apply u32_range.
Qed.

Lemma crc32_byte_range (c : Z) (b : byte) : in_u32 c -> in_u32 (crc32_byte c b).
Proof.
  intros Hc. unfold crc32_byte.
  assert (H : in_u32 (Z.lxor c (b2z b))).
  { apply lxor_u32; [exact Hc|]. pose proof (b2z_range b). unfold in_u32. lia. }
  revert H. generalize (Z.lxor c (b2z b)). intros z Hz.
  simpl. repeat apply crc32_bit_range. exact Hz.
Qed.

Lemma crc32_fold_range (bs : list byte) (c : Z) :
  in_u32 c -> in_u32 (fold_left crc32_byte bs c).
Proof.
  revert c. induction bs as [|b bs IH]; intros c Hc; simpl.
  - exact Hc.
  - apply IH. apply crc32_byte_range. exact Hc.
Qed.

Lemma crc32_update_range (c : Z) (bs : list byte) : in_u32 (crc32_update c bs).
Proof. unfold crc32_update. apply not32_range. Qed.

(** Feeding [a] and then [b] is feeding [a ++ b]: the complement applied on
    the way out of one call is undone on the way into the next. *)
Lemma crc32_update_app (c : Z) (a b : list byte) :
  crc32_update (crc32_update c a) b = crc32_update c (a ++ b).
Proof.
  unfold crc32_update.
  rewrite not32_involutive by (apply crc32_fold_range, not32_range).
  rewrite fold_left_app. reflexivity.
Qed.

Lemma crc32_update_nil (c : Z) : in_u32 c -> crc32_update c [] = c.
Proof. intros Hc. unfold crc32_update. simpl. apply not32_involutive, Hc. Qed.

Lemma crc32_fold_chunks (chunks : list (list byte)) (c : Z) :
  in_u32 c ->
  fold_left crc32_update chunks c = crc32_update c (concat chunks).
Proof.
  revert c. induction chunks as [|ch chunks IH]; intros c Hc; simpl.
  - symmetry. apply crc32_update_nil, Hc.
  - rewrite IH by apply crc32_update_range.
    apply crc32_update_app.
Qed.

(** In range of the table the decoder is exact up to code 0x1F. *)
Lemma capacity_in_table (code : byte) :
  0x10 <= b2z code <= 0x1F ->
  flash_calculate_capacity code = 2 ^ b2z code / 8.
Proof.
  intros H. unfold flash_calculate_capacity, shl32, u32.
  destruct (Z.ltb_spec (b2z code) 0x10); [lia|].
  destruct (Z.gtb_spec (b2z code) 0x20); [lia|]. cbv [orb].
  rewrite Z.shiftl_1_l.
  rewrite Z.mod_small; [reflexivity|].
  split; [apply Z.pow_nonneg; lia|].
  apply Z.pow_lt_mono_r; lia.
Qed.

Lemma capacity_out_of_table (code : byte) :
  b2z code < 0x10 \/ 0x20 < b2z code ->
  flash_calculate_capacity code = 0.
Proof.
  intros H. unfold flash_calculate_capacity.
  destruct (Z.ltb_spec (b2z code) 0x10); [reflexivity|].
  destruct (Z.gtb_spec (b2z code) 0x20); [reflexivity|]. lia.
Qed.

(** Whatever 32-bit value [1u << 32] takes, an eighth of it is below
    2^32 / 8. *)
Lemma capacity_any_bits_below (bits : Z) : in_u32 bits -> bits / 8 < 2 ^ 32 / 8.
Proof.
  unfold in_u32. intros H.
  change (2 ^ 32 / 8) with 536870912.
  apply Z.div_lt_upper_bound; lia.
Qed.

(** C3. Folding [crc32_update] over the chunks of any partition of a byte
    sequence, from accumulator 0, gives the value of one [crc32_update] call
    over the whole sequence: chunk boundaries do not enter the checksum. *)
Theorem crc32_chunking_invariant (chunks : list (list byte)) :
  fold_left crc32_update chunks 0 = crc32_update 0 (concat chunks).
Proof.
  apply crc32_fold_chunks. unfold in_u32. lia.
Qed.

(** C8. Reference vectors: the CRC-32 of the empty input is 0 and the CRC-32
    of the nine ASCII bytes "123456789" is 0xCBF43926. *)
Theorem crc32_reference_vectors :
  crc32_update 0 [] = 0 /\
  crc32_update 0 [x31; x32; x33; x34; x35; x36; x37; x38; x39] = 0xCBF43926.
Proof.
  split; vm_compute; reflexivity.
Qed.

(** C5 (at the upper end of the table). For capacity code 0x20 the decoder
    returns 0, not 2^32 / 8 = 536870912: the shifted bit leaves the 32-bit
    word. *)
Theorem flash_calculate_capacity_0x20 :
  flash_calculate_capacity x20 = 0 /\
  flash_calculate_capacity x20 <> 2 ^ b2z x20 / 8.
Proof.
  split; vm_compute; congruence.
Qed.

(* ================================================================= *)
(** ** What the driver puts on the bus *)

Lemma commands_significant (evs : list bus_event) :
  commands evs = map opcode (significant (frames evs)).
Proof.
  unfold commands, opcodes, significant.
  induction (frames evs) as [|f F IH]; simpl; [reflexivity|].
  destruct (negb (byte_eqb (opcode f) CMD_RDSR1)); simpl; rewrite IH; reflexivity.
Qed.

Lemma significant_app (F G : list (list byte)) :
  significant (F ++ G) = significant F ++ significant G.
Proof. unfold significant. apply filter_app. Qed.

Lemma balanced_nil : balanced [].
Proof. intros k. reflexivity. Qed.

Lemma balanced_app (a b : list bus_event) :
  balanced a -> balanced b -> balanced (a ++ b).
Proof.
  intros Ha Hb k.
  rewrite <- app_assoc, Ha, Hb, Ha, app_assoc. reflexivity.
Qed.

Lemma frames_balanced_app (a b : list bus_event) :
  balanced a -> frames (a ++ b) = frames a ++ frames b.
Proof. intros Ha. apply Ha. Qed.

Section BusLog.

Variable B : Board.
Variable fuel : nat.

Local Abbreviation state := (state (hw B)).

Lemma runs_refl (s : state) : runs s s [].
Proof.
  split; [reflexivity|]. split; [reflexivity|].
  exists []. rewrite app_nil_r.
  split; [reflexivity|]. split; [apply balanced_nil | reflexivity].
Qed.

Lemma runs_trans (s s1 s2 : state) (G1 G2 : list (list byte)) :
  runs s s1 G1 -> runs s1 s2 G2 -> runs s s2 (G1 ++ G2).
Proof.
  intros (V1 & M1 & a1 & E1 & B1 & S1) (V2 & M2 & a2 & E2 & B2 & S2).
  split; [congruence|]. split; [congruence|].
  exists (a1 ++ a2). split; [|split].
  - rewrite E2, E1, app_assoc. reflexivity.
  - apply balanced_app; assumption.
  - rewrite (frames_balanced_app a1 a2 B1), significant_app, S1, S2.
    reflexivity.
Qed.

Lemma runs_bus_since (s s' : state) (G : list (list byte)) :
  runs s s' G -> significant (frames (bus_since s s')) = G.
Proof.
  intros (_ & _ & a & E & _ & S). unfold bus_since.
  rewrite E, skipn_app, skipn_all, Nat.sub_diag. simpl. exact S.
Qed.

Lemma runs_commands (s s' : state) (G : list (list byte)) :
  runs s s' G -> commands (bus_since s s') = map opcode G.
Proof.
  intros H. rewrite commands_significant, (runs_bus_since _ _ _ H).
  reflexivity.
Qed.

(** Straight-line bus code: unfold down to the log and compute its frames. *)
Ltac bus_unfold :=
  unfold flash_wren, flash_resume, flash_soft_reset, flash_cmd1,
    flash_read_sr1, flash_read_sr2, flash_cs_low, flash_cs_high,
    spi_write_read_blocking, spi_read_blocking, spi_write_blocking,
    sleep_ms, gpio_put_cs, to_ms_since_boot, on_bus in *.

Ltac board_cases :=
  repeat match goal with
    | |- context [bd_write_read ?b ?t ?h] =>
        destruct (bd_write_read b t h)
    | |- context [bd_read ?b ?n ?h] => destruct (bd_read b n h)
    | |- context [bd_now ?b ?h] => destruct (bd_now b h)
    end.

Ltac runs_direct :=
  bus_unfold; board_cases; cbn [fst snd st_hw st_bus st_vol st_mounted];
  split; [reflexivity|]; split; [reflexivity|];
  eexists; split;
  [ rewrite <- ?app_assoc; cbn [app]; reflexivity
  | split; [intros k; reflexivity | reflexivity] ].

Lemma runs_cmd1 (c : byte) (s : state) :
  runs s (flash_cmd1 B c s) (significant [[c]]).
Proof. runs_direct. Qed.

Lemma runs_wren (s : state) : runs s (flash_wren B s) [[CMD_WREN]].
Proof. runs_direct. Qed.

Lemma runs_resume (s : state) : runs s (flash_resume B s) [[CMD_RESUME]].
Proof. runs_direct. Qed.

Lemma runs_soft_reset (s : state) :
  runs s (flash_soft_reset B s) [[CMD_RSTEN]; [CMD_RST]].
Proof. runs_direct. Qed.

Lemma runs_read_sr1 (s : state) : runs s (snd (flash_read_sr1 B s)) [].
Proof. runs_direct. Qed.

Lemma runs_read_sr2 (s : state) :
  runs s (snd (flash_read_sr2 B s)) [[CMD_RDSR2; x00]].
Proof. runs_direct. Qed.

Lemma runs_now (s : state) : runs s (snd (to_ms_since_boot B s)) [].
Proof.
  bus_unfold; board_cases. cbn [fst snd].
  split; [reflexivity|]. split; [reflexivity|].
  exists []. cbn [st_bus]. rewrite app_nil_r.
  split; [reflexivity|]. split; [apply balanced_nil | reflexivity].
Qed.

Lemma runs_wait_loop (k : nat) (t t0 : Z) (s s' : state) (r : bool) :
  wait_busy_loop B k t t0 s = Some (r, s') -> runs s s' [].
Proof.
  revert s. induction k as [|k IH]; intros s H; simpl in H; [discriminate|].
  pose proof (runs_read_sr1 s) as R1.
  destruct (flash_read_sr1 B s) as [sr s1]. cbn [snd] in R1.
  destruct (Z.land (b2z sr) 1 =? 0).
  - injection H as <- <-. exact R1.
  - pose proof (runs_now s1) as R2.
    destruct (to_ms_since_boot B s1) as [now s2]. cbn [snd] in R2.
    pose proof (runs_trans _ _ _ _ _ R1 R2) as R12.
    destruct (u32 (now - t0) >? t).
    + injection H as <- <-. exact R12.
    + apply (runs_trans _ _ _ _ _ R12 (IH _ H)).
Qed.

Lemma runs_wait (t : Z) (s s' : state) (r : bool) :
  flash_wait_busy_timeout B fuel t s = Some (r, s') -> runs s s' [].
Proof.
  unfold flash_wait_busy_timeout. intros H.
  pose proof (runs_now s) as R1.
  destruct (to_ms_since_boot B s) as [t0 s1]. cbn [snd] in R1.
  apply (runs_trans _ _ _ _ _ R1 (runs_wait_loop _ _ _ _ _ _ H)).
Qed.

Lemma runs_eq (s s' : state) (G G' : list (list byte)) :
  runs s s' G -> G = G' -> runs s s' G'.
Proof. intros H <-. exact H. Qed.

Lemma runs_unprotect (s s' : state) (u : unit) :
  flash_global_unprotect B fuel s = Some (u, s') ->
  runs s s' unprotect_frames.
Proof.
  unfold flash_global_unprotect. intros H.
  match type of H with
  | context [flash_wait_busy_timeout _ _ _ ?x] =>
      set (sA := x) in H;
      assert (RA : runs s sA [[CMD_ULBPR]; [CMD_WREN]; [CMD_WRSR; x00; x00]])
        by (subst sA; runs_direct)
  end.
  destruct (flash_wait_busy_timeout B fuel 200 sA) as [[r s1]|] eqn:W;
    [|discriminate].
  pose proof (runs_wait _ _ _ _ W) as R1.
  pose proof (runs_read_sr1 s1) as R2.
  destruct (flash_read_sr1 B s1) as [x s2]. cbn [snd] in R2.
  pose proof (runs_read_sr2 s2) as R3.
  destruct (flash_read_sr2 B s2) as [y s3]. cbn [snd] in R3.
  injection H as _ <-.
  eapply runs_eq.
  - eapply runs_trans; [exact RA|].
    eapply runs_trans; [exact R1|].
    eapply runs_trans; [exact R2|exact R3].
  - reflexivity.
Qed.

Lemma runs_init (s s' : state) (ok : bool) :
  flash_dut_init B fuel s = Some (ok, s') ->
  ok = true /\ runs s s' init_frames.
Proof.
  unfold flash_dut_init. intros H.
  match type of H with
  | context [flash_global_unprotect _ _ ?x] =>
      set (sA := x) in H;
      assert (RA : runs s sA [[CMD_RSTEN]; [CMD_RST]])
        by (subst sA; runs_direct)
  end.
  destruct (flash_global_unprotect B fuel sA) as [[u s1]|] eqn:U;
    [|discriminate].
  injection H as <- <-. split; [reflexivity|].
  eapply runs_eq.
  - eapply runs_trans; [exact RA|]. apply (runs_unprotect _ _ _ U).
  - reflexivity.
Qed.

Lemma runs_erase_first (addr : Z) (s s' : state) :
  erase_first B fuel addr s = Some s' ->
  runs s s' (unprotect_frames ++ [[CMD_WREN]; cmd_addr CMD_SE_4K addr]).
Proof.
  unfold erase_first. intros H.
  destruct (flash_global_unprotect B fuel s) as [[u s1]|] eqn:U;
    [|discriminate].
  injection H as <-.
  eapply runs_trans; [apply (runs_unprotect _ _ _ U)|].
  runs_direct.
Qed.

Lemma runs_erase_retry (addr : Z) (s s' : state) :
  erase_retry B fuel addr s = Some s' ->
  runs s s'
    ([[CMD_RDSR2; x00]; [CMD_RESUME]; [CMD_RSTEN]; [CMD_RST]]
       ++ unprotect_frames ++ [[CMD_WREN]; cmd_addr CMD_SE_4K addr]).
Proof.
  unfold erase_retry. intros H.
  pose proof (runs_read_sr1 s) as R1.
  destruct (flash_read_sr1 B s) as [x s1]. cbn [snd] in R1.
  pose proof (runs_read_sr2 s1) as R2.
  destruct (flash_read_sr2 B s1) as [y s2]. cbn [snd] in R2.
  pose proof (runs_resume s2) as R3.
  pose proof (runs_soft_reset (flash_resume B s2)) as R4.
  pose proof (runs_erase_first _ _ _ H) as R5.
  eapply runs_eq.
  - eapply runs_trans; [exact R1|].
    eapply runs_trans; [exact R2|].
    eapply runs_trans; [exact R3|].
    eapply runs_trans; [exact R4|exact R5].
  - reflexivity.
Qed.

Lemma runs_erase_give_up (s : state) :
  runs s (erase_give_up B s) [[CMD_RDSR2; x00]].
Proof.
  unfold erase_give_up.
  pose proof (runs_read_sr1 s) as R1.
  destruct (flash_read_sr1 B s) as [x s1]. cbn [snd] in R1.
  pose proof (runs_read_sr2 s1) as R2.
  destruct (flash_read_sr2 B s1) as [y s2]. cbn [snd] in R2.
  apply (runs_trans _ _ _ _ _ R1 R2).
Qed.

(** [flash_dut_erase_4k] written with its stages. *)
Lemma erase_4k_stages (addr : Z) (s : state) :
  flash_dut_erase_4k B fuel addr s =
  match erase_first B fuel addr s with
  | None => None
  | Some s1 =>
      match flash_wait_busy_timeout B fuel 2000 s1 with
      | None => None
      | Some (true, s2) => Some (true, s2)
      | Some (false, s2) =>
          match erase_retry B fuel addr s2 with
          | None => None
          | Some s3 =>
              match flash_wait_busy_timeout B fuel 3000 s3 with
              | None => None
              | Some (true, s4) => Some (true, s4)
              | Some (false, s4) => Some (false, erase_give_up B s4)
              end
          end
      end
  end.
Proof.
  unfold flash_dut_erase_4k, erase_first.
  destruct (flash_global_unprotect B fuel s) as [[u s0]|]; [|reflexivity].
  match goal with
  | |- context [flash_wait_busy_timeout _ _ 2000 ?x] =>
      destruct (flash_wait_busy_timeout B fuel 2000 x) as [[[|] s2]|];
        [reflexivity| |reflexivity]
  end.
  cbn [negb]. unfold erase_retry, erase_first, erase_give_up.
  destruct (flash_read_sr1 B s2) as [x s2a].
  destruct (flash_read_sr2 B s2a) as [y s2b].
  destruct (flash_global_unprotect B fuel _) as [[u' s2c]|]; [|reflexivity].
  match goal with
  | |- context [flash_wait_busy_timeout _ _ 3000 ?x] =>
      destruct (flash_wait_busy_timeout B fuel 3000 x) as [[[|] s4]|];
        [reflexivity| |reflexivity]
  end.
  cbn [negb].
  destruct (flash_read_sr1 B s4) as [x4 s4a].
  destruct (flash_read_sr2 B s4a) as [y4 s4b]. reflexivity.
Qed.

Lemma runs_pp_issue (addr : Z) (d : list byte) (s : state) :
  runs s (pp_issue B addr d s) [[CMD_WREN]; cmd_addr CMD_PP addr ++ d].
Proof. unfold pp_issue. runs_direct. Qed.

(** [flash_dut_program_page] on arguments that pass its guard. *)
Lemma program_page_valid (addr : Z) (d : list byte) (s : state) :
  1 <= Z.of_nat (length d) <= FLASH_PAGE_SIZE ->
  flash_dut_program_page B fuel addr (Some d) s =
  flash_wait_busy_timeout B fuel (10 * 1000) (pp_issue B addr d s).
Proof.
  intros Hd. unfold flash_dut_program_page.
  destruct (Z.eqb_spec (Z.of_nat (length d)) 0); [lia|].
  destruct (Z.gtb_spec (Z.of_nat (length d)) FLASH_PAGE_SIZE); [lia|].
  reflexivity.
Qed.

Lemma runs_program_page (addr : Z) (d : list byte) (s s' : state) (r : bool) :
  1 <= Z.of_nat (length d) <= FLASH_PAGE_SIZE ->
  flash_dut_program_page B fuel addr (Some d) s = Some (r, s') ->
  runs s s' [[CMD_WREN]; cmd_addr CMD_PP addr ++ d].
Proof.
  intros Hd H. rewrite program_page_valid in H by exact Hd.
  eapply runs_eq.
  - eapply runs_trans; [apply runs_pp_issue | apply (runs_wait _ _ _ _ H)].
  - reflexivity.
Qed.

(** C7. When the first busy-wait of an erase (2000 ms) times out, the driver
    goes through one recovery cycle: it reads both status registers, sends
    resume and the soft reset, clears protection again, and re-issues
    write-enable and the erase command. If the busy-wait that follows
    (3000 ms) succeeds the erase returns success; if that one times out too
    it reads the status registers once more and returns failure, with no
    third erase command. *)
Theorem erase_one_recovery_cycle
  (addr : Z) (s s1 s2 s3 s4 : state) (ok : bool) :
  erase_first B fuel addr s = Some s1 ->
  flash_wait_busy_timeout B fuel 2000 s1 = Some (false, s2) ->
  erase_retry B fuel addr s2 = Some s3 ->
  flash_wait_busy_timeout B fuel 3000 s3 = Some (ok, s4) ->
  let s5 := if ok then s4 else erase_give_up B s4 in
  flash_dut_erase_4k B fuel addr s = Some (ok, s5) /\
  commands (bus_since s s5) =
    [CMD_ULBPR; CMD_WREN; CMD_WRSR; CMD_RDSR2; CMD_WREN; CMD_SE_4K]
    ++ [CMD_RDSR2; CMD_RESUME; CMD_RSTEN; CMD_RST;
        CMD_ULBPR; CMD_WREN; CMD_WRSR; CMD_RDSR2; CMD_WREN; CMD_SE_4K]
    ++ (if ok then [] else [CMD_RDSR2]).
Proof.
  intros H1 W1 H2 W2 s5. split.
  - rewrite erase_4k_stages, H1, W1, H2, W2. subst s5.
    destruct ok; reflexivity.
  - assert (R : runs s s4
                  ((unprotect_frames ++ [[CMD_WREN]; cmd_addr CMD_SE_4K addr])
                   ++ ([[CMD_RDSR2; x00]; [CMD_RESUME]; [CMD_RSTEN]; [CMD_RST]]
                       ++ unprotect_frames
                       ++ [[CMD_WREN]; cmd_addr CMD_SE_4K addr]))).
    { eapply runs_eq.
      - eapply runs_trans; [apply (runs_erase_first _ _ _ H1)|].
        eapply runs_trans; [apply (runs_wait _ _ _ _ W1)|].
        eapply runs_trans; [apply (runs_erase_retry _ _ _ H2)|].
        apply (runs_wait _ _ _ _ W2).
      - cbn [app]. rewrite app_nil_r. reflexivity. }
    subst s5. destruct ok.
    + rewrite (runs_commands _ _ _ R). reflexivity.
    + pose proof (runs_trans _ _ _ _ _ R (runs_erase_give_up s4)) as R'.
      rewrite (runs_commands _ _ _ R'). reflexivity.
Qed.

(** C10. A page program with a null data pointer, length 0 or length above
    256 returns failure at once and leaves the whole state, bus log
    included, as it was: no write-enable and no other command is issued.
    Failure is returned exactly when that guard rejects the arguments or the
    busy-wait after the program command times out. *)
Theorem program_page_failure
  (addr : Z) (data : option (list byte)) (s : state) :
  let rejected :=
    data = None \/
    exists d, data = Some d /\
      (Z.of_nat (length d) = 0 \/ Z.of_nat (length d) > FLASH_PAGE_SIZE) in
  (rejected -> flash_dut_program_page B fuel addr data s = Some (false, s)) /\
  (forall (r : bool) (s' : state),
     flash_dut_program_page B fuel addr data s = Some (r, s') ->
     (r = false <->
      rejected \/
      exists d, data = Some d /\
        flash_wait_busy_timeout B fuel (10 * 1000) (pp_issue B addr d s)
        = Some (false, s'))).
Proof.
  intros rejected. split.
  - intros [-> | (d & -> & Hd)]; [reflexivity|].
    unfold flash_dut_program_page.
    destruct (Z.eqb_spec (Z.of_nat (length d)) 0) as [E|E]; [reflexivity|].
    destruct (Z.gtb_spec (Z.of_nat (length d)) FLASH_PAGE_SIZE);
      [reflexivity|lia].
  - intros r s' H. destruct data as [d|].
    + destruct (Z.eq_dec (Z.of_nat (length d)) 0) as [E0|E0].
      { unfold flash_dut_program_page in H.
        rewrite E0 in H. cbn in H. injection H as <- <-.
        split; [|reflexivity]. intros _. left. right. exists d. auto. }
      destruct (Z_gt_dec (Z.of_nat (length d)) FLASH_PAGE_SIZE) as [E1|E1].
      { unfold flash_dut_program_page in H.
        destruct (Z.gtb_spec (Z.of_nat (length d)) FLASH_PAGE_SIZE); [|lia].
        rewrite orb_true_r in H. injection H as <- <-.
        split; [|reflexivity]. intros _. left. right. exists d. auto. }
      rewrite program_page_valid in H by lia.
      split.
      * intros ->. right. exists d. auto.
      * intros [[D | (d' & D & [L|L])] | (d' & D & W)].
        -- discriminate.
        -- injection D as <-. lia.
        -- injection D as <-. lia.
        -- injection D as <-. rewrite W in H. injection H as <-. reflexivity.
    + injection H as <- <-. split; [|reflexivity]. intros _. left. left.
      reflexivity.
Qed.

End BusLog.

(* ================================================================= *)
(** ** Page splitting *)

Lemma land_255 (x : Z) : Z.land x 255 = x mod 256.
Proof. change 255 with (Z.ones 8). rewrite Z.land_ones by lia. reflexivity. Qed.

Lemma b2z_low8 (x : Z) : b2z (low8 x) = x mod 256.
Proof.
  unfold low8. rewrite land_255. apply b2z_z2b.
  apply Z.mod_pos_bound. lia.
Qed.

(** The address on the bus is the low 24 bits of the address passed. *)
Lemma frame_addr_mod (op : byte) (a : Z) (d : list byte) :
  0 <= a -> frame_addr (cmd_addr op a ++ d) = a mod 2 ^ 24.
Proof.
  intros Ha. unfold frame_addr, cmd_addr. cbn [app nth].
  rewrite !b2z_low8, !Z.shiftr_div_pow2 by lia.
  change (2 ^ 16) with 65536. change (2 ^ 8) with 256.
  change (2 ^ 24) with 16777216.
  Z.div_mod_to_equations. lia.
Qed.

Lemma filter_implied (A : Type) (p q : A -> bool) (l : list A) :
  (forall x, p x = true -> q x = true) ->
  filter p (filter q l) = filter p l.
Proof.
  intros H. induction l as [|x l IH]; [reflexivity|].
  cbn [filter]. destruct (q x) eqn:Q.
  - cbn [filter]. rewrite IH. reflexivity.
  - destruct (p x) eqn:P; [rewrite (H x P) in Q; discriminate|exact IH].
Qed.

Lemma ref_split_aux_fuel2 (k k' : nat) (addr : Z) (data : list byte) :
  (length data <= k)%nat -> (length data <= k')%nat ->
  ref_split_aux k addr data = ref_split_aux k' addr data.
Proof.
  revert k' addr data. induction k as [|k IH]; intros k' addr data Hk Hk'.
  - destruct data; [destruct k'; reflexivity | simpl in Hk; lia].
  - destruct data as [|b r]; [destruct k'; reflexivity|].
    destruct k' as [|k']; [simpl in Hk'; lia|].
    cbn [ref_split_aux].
    set (w := Z.min (Z.of_nat (length (b :: r)))
                (FLASH_PAGE_SIZE - addr mod FLASH_PAGE_SIZE)).
    assert (Hw : 1 <= w).
    { subst w. unfold FLASH_PAGE_SIZE.
      pose proof (Z.mod_pos_bound addr 256 ltac:(lia)).
      simpl length. lia. }
    assert (Hl : (length (skipn (Z.to_nat w) (b :: r)) <= length r)%nat).
    { rewrite length_skipn. simpl length. lia. }
    f_equal. simpl in Hk, Hk'. apply IH; lia.
Qed.

Lemma ref_split_aux_fuel (k : nat) (addr : Z) (data : list byte) :
  (length data <= k)%nat ->
  ref_split_aux k addr data = ref_split_aux (length data) addr data.
Proof. intros Hk. apply ref_split_aux_fuel2; [exact Hk | lia]. Qed.

Lemma ref_split_cons (addr : Z) (data : list byte) :
  data <> [] ->
  let w := Z.min (Z.of_nat (length data))
             (FLASH_PAGE_SIZE - addr mod FLASH_PAGE_SIZE) in
  ref_split addr data =
  (addr, firstn (Z.to_nat w) data)
    :: ref_split (addr + w) (skipn (Z.to_nat w) data).
Proof.
  intros Hd w. unfold ref_split.
  destruct data as [|b r]; [congruence|].
  cbn [ref_split_aux length]. fold w. f_equal.
  apply ref_split_aux_fuel.
  assert (Hw : 1 <= w).
  { subst w. unfold FLASH_PAGE_SIZE.
    pose proof (Z.mod_pos_bound addr 256 ltac:(lia)).
    simpl length. lia. }
  rewrite length_skipn. simpl length. lia.
Qed.

Lemma ref_split_nil (addr : Z) : ref_split addr [] = [].
Proof. reflexivity. Qed.

(** Induction on the length of the run that is left. *)
Lemma ref_split_ind (P : Z -> list byte -> Prop) :
  (forall addr, P addr []) ->
  (forall addr data,
     data <> [] ->
     let w := Z.min (Z.of_nat (length data))
                (FLASH_PAGE_SIZE - addr mod FLASH_PAGE_SIZE) in
     1 <= w <= Z.of_nat (length data) ->
     P (addr + w) (skipn (Z.to_nat w) data) -> P addr data) ->
  forall addr data, P addr data.
Proof.
  intros Hnil Hcons addr data.
  remember (length data) as n eqn:Hn.
  revert addr data Hn.
  induction n as [n IH] using lt_wf_ind. intros addr data Hn.
  destruct data as [|b r]; [apply Hnil|].
  assert (Hw : 1 <= Z.min (Z.of_nat (length (b :: r)))
                      (FLASH_PAGE_SIZE - addr mod FLASH_PAGE_SIZE)
               <= Z.of_nat (length (b :: r))).
  { unfold FLASH_PAGE_SIZE.
    pose proof (Z.mod_pos_bound addr 256 ltac:(lia)). simpl length. lia. }
  apply Hcons; [discriminate | exact Hw |].
  eapply IH; [|reflexivity].
  rewrite length_skipn. subst n. lia.
Qed.

Lemma ref_split_within_page (addr : Z) (data : list byte) :
  Forall within_page (ref_split addr data).
Proof.
  revert addr data. apply ref_split_ind.
  - intros addr. constructor.
  - intros addr data Hd w Hw IH.
    rewrite ref_split_cons by exact Hd. fold w.
    constructor; [|exact IH].
    unfold within_page. cbn [fst snd].
    rewrite length_firstn.
    pose proof (Z.mod_pos_bound addr 256 ltac:(lia)).
    unfold FLASH_PAGE_SIZE in *. lia.
Qed.

Lemma ref_split_concat (addr : Z) (data : list byte) :
  concat (map snd (ref_split addr data)) = data.
Proof.
  revert addr data. apply ref_split_ind.
  - intros addr. reflexivity.
  - intros addr data Hd w Hw IH.
    rewrite ref_split_cons by exact Hd. fold w.
    cbn [map snd concat]. rewrite IH. apply firstn_skipn.
Qed.

Lemma ref_split_nonneg (addr : Z) (data : list byte) :
  0 <= addr -> Forall (fun c => 0 <= fst c) (ref_split addr data).
Proof.
  revert addr data.
  apply (ref_split_ind (fun addr data =>
    0 <= addr -> Forall (fun c => 0 <= fst c) (ref_split addr data))).
  - intros addr _. constructor.
  - intros addr data Hd w Hw IH Ha.
    rewrite ref_split_cons by exact Hd. fold w.
    constructor; [exact Ha|]. apply IH. lia.
Qed.

(** Each piece starts where the previous one ended. *)
Lemma ref_split_contiguous (addr : Z) (data : list byte) :
  forall i a d,
    nth_error (ref_split addr data) i = Some (a, d) ->
    a = addr + Z.of_nat (length (concat (map snd (firstn i (ref_split addr data))))).
Proof.
  revert addr data.
  apply (ref_split_ind (fun addr data => forall i a d,
    nth_error (ref_split addr data) i = Some (a, d) ->
    a = addr + Z.of_nat (length (concat (map snd
                 (firstn i (ref_split addr data))))))).
  - intros addr i a d H. rewrite ref_split_nil in H.
    destruct i; discriminate H.
  - intros addr data Hd w Hw IH i a d H.
    rewrite ref_split_cons in * by exact Hd. fold w in H |- *.
    destruct i as [|i].
    + injection H as <- _. simpl. lia.
    + cbn [nth_error] in H. specialize (IH i a d H).
      cbn [firstn map snd concat]. rewrite length_app, length_firstn.
      rewrite IH. lia.
Qed.

Section PageSplit.

Variable B : Board.
Variable fuel : nat.

Local Abbreviation state := (state (hw B)).

Lemma program_pages_ref_aux (addr : Z) (buf : list byte) :
  0 <= addr -> addr + Z.of_nat (length buf) <= 2 ^ 32 ->
  Z.of_nat (length buf) < 2 ^ 32 ->
  forall (k : nat) (off : Z) (s : state),
    0 <= off <= Z.of_nat (length buf) ->
    Z.of_nat (length buf) - off <= Z.of_nat k ->
    program_pages B fuel k addr buf (Z.of_nat (length buf)) off s =
    program_calls B fuel
      (ref_split (addr + off) (skipn (Z.to_nat off) buf)) s.
Proof.
  intros Ha Hn Hn'. set (n := Z.of_nat (length buf)) in *.
  induction k as [|k IH]; intros off s Hoff Hk.
  - assert (off = n) by lia. subst off.
    cbn [program_pages]. rewrite Z.ltb_irrefl.
    subst n. rewrite Nat2Z.id, skipn_all. reflexivity.
  - cbn [program_pages].
    destruct (Z.ltb_spec off n) as [Hlt|Hge].
    2:{ assert (off = n) by lia. subst off.
        subst n. rewrite Nat2Z.id, skipn_all. reflexivity. }
    assert (Hlen : Z.of_nat (length (skipn (Z.to_nat off) buf)) = n - off).
    { rewrite length_skipn. subst n. lia. }
    assert (Hne : skipn (Z.to_nat off) buf <> []).
    { intros E. rewrite E in Hlen. simpl in Hlen. lia. }
    rewrite (ref_split_cons _ _ Hne). rewrite Hlen.
    assert (Hu : u32 (addr + off) = addr + off).
    { apply u32_small. lia32. }
    pose proof (Z.mod_pos_bound (addr + off) 256 ltac:(lia)) as Hm.
    unfold FLASH_PAGE_SIZE.
    change (256 - 1) with 255. rewrite Hu, land_255.
    assert (Hr : u32 (256 - (addr + off) mod 256) = 256 - (addr + off) mod 256).
    { apply u32_small. lia32. }
    assert (Hno : u32 (n - off) = n - off).
    { apply u32_small. lia32. }
    rewrite Hr, Hno.
    set (room := 256 - (addr + off) mod 256) in *.
    assert (Hw : (if n - off >? room then room else n - off)
                 = Z.min (n - off) room).
    { destruct (Z.gtb_spec (n - off) room); lia. }
    rewrite Hw. set (w := Z.min (n - off) room) in *.
    cbn [program_calls].
    destruct (flash_dut_program_page B fuel (addr + off)
                (Some (firstn (Z.to_nat w) (skipn (Z.to_nat off) buf))) s)
      as [[ok s1]|]; [|reflexivity].
    destruct ok; cbn [negb]; [|reflexivity].
    assert (Hu2 : u32 (off + w) = off + w).
    { apply u32_small. lia32. }
    rewrite Hu2, IH by lia.
    rewrite skipn_skipn.
    replace (Z.to_nat w + Z.to_nat off)%nat with (Z.to_nat (off + w)) by lia.
    replace (addr + (off + w)) with (addr + off + w) by lia.
    reflexivity.
Qed.

Lemma runs_program_calls (calls : list (Z * list byte)) :
  Forall within_page calls ->
  forall (s s' : state),
    program_calls B fuel calls s = Some (true, s') ->
    runs s s' (concat (map pp_frames calls)).
Proof.
  induction 1 as [|[a d] calls Hc Hcs IH]; intros s s' H.
  - cbn in H. injection H as <-. apply runs_refl.
  - cbn [program_calls] in H.
    destruct (flash_dut_program_page B fuel a (Some d) s) as [[ok s1]|] eqn:E;
      [|discriminate].
    destruct ok; cbn [negb] in H; [|discriminate].
    cbn [map concat].
    eapply runs_trans.
    + apply (runs_program_page B fuel a d s s1 true); [apply Hc | exact E].
    + apply IH, H.
Qed.

(** The page programs read off the bus log are the calls made, with their
    addresses cut to 24 bits. *)
Lemma pp_calls_of_runs (s s' : state) (calls : list (Z * list byte)) :
  Forall (fun c => 0 <= fst c) calls ->
  runs s s' (concat (map pp_frames calls)) ->
  pp_calls (bus_since s s')
  = map (fun c => (fst c mod 2 ^ 24, snd c)) calls.
Proof.
  intros Hpos R. apply runs_bus_since in R. unfold pp_calls.
  rewrite <- (filter_implied _ (fun f => byte_eqb (opcode f) CMD_PP)
                (fun f => negb (byte_eqb (opcode f) CMD_RDSR1))).
  2:{ intros f Hf. unfold byte_eqb in *. apply Byte.byte_dec_bl in Hf.
      rewrite Hf. reflexivity. }
  fold (significant (frames (bus_since s s'))). rewrite R. clear R.
  induction Hpos as [|[a d] calls Ha Hcs IH]; [reflexivity|].
  cbn [map concat pp_frames app fst snd filter opcode hd].
  change (byte_eqb CMD_WREN CMD_PP) with false.
  change (byte_eqb CMD_PP CMD_PP) with true. cbn iota.
  cbn [map]. rewrite IH. f_equal. f_equal.
  apply (frame_addr_mod CMD_PP a d Ha).
Qed.

(** C4. The programming loop of restore, on a chunk [buf] destined for
    address [addr] (aligned or not), issues the page programs of the
    page-exact reference splitter, in order and stopping at the same
    failure, so it leaves the chip in the same state; each program has
    length min(remaining, 256 - address mod 256), stays inside one page, and
    the pieces concatenate to the chunk; when the loop succeeds, the page
    programs seen on the bus are those pieces. *)
Theorem program_pages_page_exact (addr : Z) (buf : list byte) (s : state) :
  0 <= addr -> addr + Z.of_nat (length buf) <= 2 ^ 32 ->
  Z.of_nat (length buf) < 2 ^ 32 ->
  let n := Z.of_nat (length buf) in
  program_pages B fuel (Z.to_nat n) addr buf n 0 s
    = program_calls B fuel (ref_split addr buf) s /\
  Forall within_page (ref_split addr buf) /\
  concat (map snd (ref_split addr buf)) = buf /\
  forall s',
    program_pages B fuel (Z.to_nat n) addr buf n 0 s = Some (true, s') ->
    pp_calls (bus_since s s')
    = map (fun c => (fst c mod 2 ^ 24, snd c)) (ref_split addr buf).
Proof.
  intros Ha Hn Hn' n.
  assert (E : program_pages B fuel (Z.to_nat n) addr buf n 0 s
              = program_calls B fuel (ref_split addr buf) s).
  { subst n. rewrite program_pages_ref_aux by lia.
    rewrite Z.add_0_r. reflexivity. }
  split; [exact E|]. split; [|split].
  - apply ref_split_within_page.
  - apply ref_split_concat.
  - intros s' H. rewrite E in H.
    apply pp_calls_of_runs; [apply ref_split_nonneg, Ha|].
    apply (runs_program_calls _ (ref_split_within_page addr buf) _ _ H).
Qed.

End PageSplit.

(* ================================================================= *)
(** ** Choosing the newest image *)

(** C9 (entries without timestamps). With two images without FAT timestamps
    listed as t0000099999_... then t0000000001_..., the chooser returns the
    second one although the first has the greater name: the name is compared
    with [best_path], which starts with the folder name. *)
Theorem choose_latest_image_untimed :
  let v := mkVolume true true (0, 0)
             [("FLASHIMG/t0000099999_ef4018.fimg"%string, mkFile 0 0 []);
              ("FLASHIMG/t0000000001_ef4018.fimg"%string, mkFile 0 0 [])] in
  choose_latest_image 128 v = (0, "FLASHIMG/t0000000001_ef4018.fimg"%string) /\
  strcmp "t0000099999_ef4018.fimg" "t0000000001_ef4018.fimg" > 0.
Proof.
  split; vm_compute; reflexivity.
Qed.

Lemma choose_loop_stamped (es : list FILINFO) :
  Forall stamped_image es ->
  forall (bd bt : Z) (bp : string),
    (choose_loop es bd bt bp = bp /\
     forall g, In g es -> not_after (fdate g) (ftime g) bd bt)
    \/
    (exists f, In f es /\
       choose_loop es bd bt bp = image_path f /\
       ~ not_after (fdate f) (ftime f) bd bt /\
       forall g, In g es -> not_after (fdate g) (ftime g) (fdate f) (ftime f)).
Proof.
  induction 1 as [|e es He Hes IH]; intros bd bt bp.
  - left. split; [reflexivity|]. intros g [].
  - destruct He as (Hn & Hs & Hd & Ht & Hz).
    cbn [choose_loop]. rewrite Hn, Hs. cbn [negb].
    assert (Hst : negb (fdate e =? 0) || negb (ftime e =? 0) = true).
    { destruct (Z.eqb_spec (fdate e) 0); destruct (Z.eqb_spec (ftime e) 0);
        try reflexivity. lia. }
    rewrite Hst.
    destruct ((fdate e >? bd) || (fdate e =? bd) && (ftime e >? bt)) eqn:Hnew.
    + assert (Hgt : ~ not_after (fdate e) (ftime e) bd bt).
      { unfold not_after.
        apply orb_true_iff in Hnew as [H1|H1].
        - apply Z.gtb_lt in H1. lia.
        - apply andb_true_iff in H1 as [H1 H2].
          apply Z.eqb_eq in H1. apply Z.gtb_lt in H2. lia. }
      fold (image_path e).
      destruct (IH (fdate e) (ftime e) (image_path e))
        as [[E Hall] | (f & Hin & E & Hf & Hall)].
      * right. exists e. split; [left; reflexivity|]. split; [exact E|].
        split; [exact Hgt|].
        intros g [<-|Hg]; [unfold not_after; lia | apply Hall, Hg].
      * right. exists f. split; [right; exact Hin|]. split; [exact E|].
        unfold not_after in *. split; [lia|].
        intros g [<-|Hg]; [lia | apply Hall, Hg].
    + assert (Hle : not_after (fdate e) (ftime e) bd bt).
      { unfold not_after.
        apply orb_false_iff in Hnew as [H1 H2].
        destruct (Z.gtb_spec (fdate e) bd); [discriminate|].
        destruct (Z.eqb_spec (fdate e) bd); [|lia].
        cbn in H2. destruct (Z.gtb_spec (ftime e) bt); [discriminate|]. lia. }
      destruct (IH bd bt bp) as [[E Hall] | (f & Hin & E & Hf & Hall)].
      * left. split; [exact E|].
        intros g [<-|Hg]; [exact Hle | apply Hall, Hg].
      * right. exists f. split; [right; exact Hin|]. split; [exact E|].
        split; [exact Hf|].
        unfold not_after in *.
        intros g [<-|Hg]; [lia | apply Hall, Hg].
Qed.

(** X28. Among images that all carry timestamps, the chooser returns one
    with the greatest (date, time) pair. *)
Lemma choose_latest_image_stamped (v : volume) :
  card_ready v = true -> has_folder v = true ->
  dir_entries v <> [] ->
  Forall stamped_image (dir_entries v) ->
  exists f,
    In f (dir_entries v) /\
    choose_latest_image 128 v = (0, snprintf_s 128 (image_path f)) /\
    forall g, In g (dir_entries v) ->
      not_after (fdate g) (ftime g) (fdate f) (ftime f).
Proof.
  intros Hc Hd Hne Hall.
  unfold choose_latest_image, f_opendir. rewrite Hc, Hd. cbn [negb fr_ok].
  destruct (choose_loop_stamped _ Hall 0 0 EmptyString)
    as [[E Hmax] | (f & Hin & E & Hf & Hmax)].
  - exfalso. destruct (dir_entries v) as [|e es] eqn:Ed; [congruence|].
    inversion Hall as [|? ? He _]; subst.
    destruct He as (_ & _ & H1 & H2 & H3).
    specialize (Hmax e (or_introl eq_refl)). unfold not_after in Hmax. lia.
  - exists f. split; [exact Hin|]. split; [|exact Hmax].
    rewrite E. reflexivity.
Qed.

(* ================================================================= *)
(** ** Files *)

Lemma lookup_store_same (p : string) (f : file) (fs : list (string * file)) :
  lookup_file p (store_file p f fs) = Some f.
Proof.
  induction fs as [|[q g] fs IH]; simpl.
  - rewrite String.eqb_refl. reflexivity.
  - destruct (String.eqb q p) eqn:E; simpl; rewrite E; [reflexivity|exact IH].
Qed.

Lemma f_open_read (path : string) (v : volume) (f : file) :
  card_ready v = true ->
  lookup_file path (files v) = Some f ->
  f_open path FA_READ v = (FR_OK, mkFIL path 0, v).
Proof.
  intros Hc Hf. unfold f_open, FA_READ. rewrite Hc, Hf. reflexivity.
Qed.

Lemma f_read_at (path : string) (p : nat) (n : Z) (v : volume) (f : file) :
  lookup_file path (files v) = Some f ->
  f_read (mkFIL path p) n v =
  (FR_OK, firstn (Z.to_nat n) (skipn p (file_data f)),
   mkFIL path (p + length (firstn (Z.to_nat n) (skipn p (file_data f))))).
Proof.
  intros Hf. unfold f_read. cbn [fil_path fil_ptr]. rewrite Hf. reflexivity.
Qed.

(** A read that stays inside the file returns all it was asked for. *)
Lemma f_read_inside (path : string) (p : nat) (n : Z) (v : volume) (f : file) :
  lookup_file path (files v) = Some f ->
  0 <= n -> Z.of_nat p + n <= Z.of_nat (length (file_data f)) ->
  f_read (mkFIL path p) n v =
  (FR_OK, firstn (Z.to_nat n) (skipn p (file_data f)),
   mkFIL path (p + Z.to_nat n)) /\
  Z.of_nat (length (firstn (Z.to_nat n) (skipn p (file_data f)))) = n.
Proof.
  intros Hf Hn Hp.
  assert (L : length (firstn (Z.to_nat n) (skipn p (file_data f))) = Z.to_nat n).
  { rewrite length_firstn, length_skipn. lia. }
  split; [|lia].
  rewrite (f_read_at _ _ _ _ _ Hf), L. reflexivity.
Qed.

Lemma f_lseek_inside (path : string) (p : nat) (ofs : Z) (v : volume) (f : file) :
  lookup_file path (files v) = Some f ->
  0 <= ofs <= Z.of_nat (length (file_data f)) ->
  f_lseek (mkFIL path p) ofs v = mkFIL path (Z.to_nat ofs).
Proof.
  intros Hf Ho. unfold f_lseek. cbn [fil_path]. rewrite Hf.
  f_equal. lia.
Qed.

Lemma firstn_chunks (A : Type) (l : list A) (n r : nat) :
  (n <= r)%nat ->
  firstn n l ++ firstn (r - n) (skipn n l) = firstn r l.
Proof.
  intros H. rewrite <- (firstn_skipn n (firstn r l)).
  rewrite firstn_firstn, Nat.min_l by exact H.
  rewrite skipn_firstn_comm. reflexivity.
Qed.

(** The first pass of restore over a payload that is all there computes its
    CRC-32, whatever the chunk size. *)
Lemma restore_crc_loop_ok (path : string) (v : volume) (f : file) (chunk : Z) :
  lookup_file path (files v) = Some f ->
  0 < chunk ->
  forall (k : nat) (p : nat) (crc remain : Z),
    in_u32 crc -> 0 <= remain < 2 ^ 32 ->
    Z.of_nat p + remain <= Z.of_nat (length (file_data f)) ->
    remain <= Z.of_nat k * chunk ->
    restore_crc_loop k (mkFIL path p) chunk crc remain v =
    Some (0,
          crc32_update crc (firstn (Z.to_nat remain) (skipn p (file_data f))),
          mkFIL path (p + Z.to_nat remain)).
Proof.
  intros Hf Hc. induction k as [|k IH]; intros p crc remain Hcrc Hr Hp Hk.
  - assert (remain = 0) by lia. subst remain. cbn.
    rewrite crc32_update_nil by exact Hcrc. rewrite Nat.add_0_r. reflexivity.
  - cbn [restore_crc_loop].
    destruct (Z.eqb_spec remain 0) as [->|Hne].
    { cbn. rewrite crc32_update_nil by exact Hcrc.
      rewrite Nat.add_0_r. reflexivity. }
    set (n := if remain >? chunk then chunk else remain).
    assert (Hn : 0 < n <= remain /\ n <= chunk).
    { subst n. destruct (Z.gtb_spec remain chunk); lia. }
    destruct (f_read_inside path p n v f Hf ltac:(lia) ltac:(lia)) as [-> L].
    rewrite L, Z.eqb_refl. cbn [fr_ok negb orb].
    assert (Hu : u32 (remain - n) = remain - n) by (apply u32_small; lia32).
    rewrite Hu, IH.
    + rewrite crc32_update_app.
      replace (Z.to_nat (remain - n)) with (Z.to_nat remain - Z.to_nat n)%nat
        by lia.
      rewrite <- (firstn_chunks _ (skipn p (file_data f)) (Z.to_nat n)
                    (Z.to_nat remain)) by lia.
      rewrite skipn_skipn.
      replace (Z.to_nat n + p)%nat with (p + Z.to_nat n)%nat by lia.
      do 3 f_equal. lia.
    + apply crc32_update_range.
    + lia32.
    + lia.
    + subst n. destruct (Z.gtb_spec remain chunk); nia.
Qed.

(* ================================================================= *)
(** ** Restore: the aborts before the chip is erased *)

Lemma bytes_eqb_refl (a : list byte) : bytes_eqb a a = true.
Proof.
  induction a as [|x a IH]; simpl; [reflexivity|].
  unfold byte_eqb. rewrite Byte.byte_dec_lb by reflexivity. exact IH.
Qed.

Lemma bytes_eqb_eq (a b : list byte) : bytes_eqb a b = true -> a = b.
Proof.
  revert b. induction a as [|x a IH]; intros [|y b] H; simpl in H;
    try discriminate; [reflexivity|].
  apply andb_true_iff in H as [H1 H2].
  apply Byte.byte_dec_bl in H1. rewrite H1, (IH _ H2). reflexivity.
Qed.

Lemma fit_exact (n : nat) (l : list byte) : length l = n -> fit n l = l.
Proof.
  intros <-. unfold fit. rewrite firstn_app, Nat.sub_diag, firstn_all.
  simpl. apply app_nil_r.
Qed.

Lemma rd32_range (bs : list byte) : in_u32 (rd32 bs).
Proof.
  unfold rd32.
  pose proof (b2z_range (nth 0 bs x00)). pose proof (b2z_range (nth 1 bs x00)).
  pose proof (b2z_range (nth 2 bs x00)). pose proof (b2z_range (nth 3 bs x00)).
  lia32.
Qed.

Lemma destructive_significant (f : list byte) :
  destructive f = true -> negb (byte_eqb (opcode f) CMD_RDSR1) = true.
Proof.
  unfold destructive, byte_eqb. intros H.
  apply orb_true_iff in H as [H|H]; apply Byte.byte_dec_bl in H; rewrite H;
    reflexivity.
Qed.

Section RestoreAborts.

Variable B : Board.
Variable fuel : nat.

Local Abbreviation state := (state (hw B)).

Lemma fs_mount_once_ready (s : state) :
  card_ready (st_vol s) = true -> fs_mount_once B s = (true, mounted s).
Proof.
  intros Hc. unfold fs_mount_once, mounted, f_mount. rewrite Hc.
  destruct s as [h b v [|]]; reflexivity.
Qed.

(** Nothing destructive among the frames of a run whose frames, polls
    apart, are harmless. *)
Lemma runs_harmless (s s' : state) (G : list (list byte)) :
  runs s s' G ->
  forallb (fun f => negb (destructive f)) G = true ->
  forallb (fun f => negb (destructive f)) (frames (bus_since s s')) = true.
Proof.
  intros R HG. apply runs_bus_since in R. subst G.
  apply forallb_forall. intros f Hf.
  destruct (destructive f) eqn:D; [|reflexivity].
  rewrite forallb_forall in HG.
  assert (Hs : In f (significant (frames (bus_since s s')))).
  { unfold significant. apply filter_In. split; [exact Hf|].
    apply destructive_significant, D. }
  apply HG in Hs. rewrite D in Hs. discriminate Hs.
Qed.

(** Up to the header checks, restore has only initialised the flash. *)
Lemma restore_header_step (name : option string) (s si : state)
  (path : string) (f : file) :
  restore_reaches_header B fuel name s si path f ->
  let h := img_header (file_data f) in
  restore_flash_from_sd B fuel name s =
    (if negb (bytes_eqb (magic h) FIMG_MAGIC) then Some (-5, si)
     else if (image_size h =? 0) || (chunk_size h =? 0) then Some (-6, si)
     else restore_checked B fuel h (mkFIL path (Z.to_nat HDR_SIZE)) si) /\
  st_vol si = st_vol s /\
  commands (bus_since s si)
    = [CMD_RSTEN; CMD_RST; CMD_ULBPR; CMD_WREN; CMD_WRSR; CMD_RDSR2] /\
  forallb (fun fr => negb (destructive fr)) (frames (bus_since s si)) = true.
Proof.
  intros (Hc & (ok & Hi) & Ht & Hf & Hl) h.
  destruct (runs_init _ _ _ _ _ Hi) as [-> R].
  assert (Hv : st_vol si = st_vol s) by (destruct R as (V & _); exact V).
  split; [|split; [exact Hv|split]].
  - unfold restore_flash_from_sd.
    rewrite (fs_mount_once_ready _ Hc). cbn [negb].
    rewrite Hi. cbn [negb]. rewrite Hv, Ht. cbn [Z.eqb negb].
    rewrite (f_open_read _ _ f Hc Hf). cbn [fr_ok negb].
    unfold HDR_SIZE in *.
    destruct (f_read_inside path 0 28 (st_vol s) f Hf ltac:(lia) ltac:(lia))
      as [E L].
    cbn [skipn] in E, L. rewrite E, L. cbn [fr_ok negb Z.eqb orb Pos.eqb].
    rewrite fit_exact by lia. reflexivity.
  - apply (runs_commands _ _ _ _ R).
  - apply (runs_harmless _ _ _ R). reflexivity.
Qed.

(** C6, as the code has it. A restore target whose header has a wrong magic
    tag, image size 0 or chunk size 0 makes restore fail with status -5
    (magic) or -6 (sizes) before any erase or program command; the flash
    has by then received the commands of [flash_dut_init] (soft reset and
    global unprotect) and no others. *)
Theorem restore_format_abort (name : option string) (s si : state)
  (path : string) (f : file) :
  restore_reaches_header B fuel name s si path f ->
  let h := img_header (file_data f) in
  magic h <> FIMG_MAGIC \/ image_size h = 0 \/ chunk_size h = 0 ->
  restore_flash_from_sd B fuel name s
    = Some (if bytes_eqb (magic h) FIMG_MAGIC then -6 else -5, si) /\
  commands (bus_since s si)
    = [CMD_RSTEN; CMD_RST; CMD_ULBPR; CMD_WREN; CMD_WRSR; CMD_RDSR2] /\
  forallb (fun fr => negb (destructive fr)) (frames (bus_since s si)) = true.
Proof.
  intros Hreach h Hbad.
  destruct (restore_header_step _ _ _ _ _ Hreach) as (E & _ & C & D).
  fold h in E. split; [|split; assumption].
  rewrite E.
  destruct (bytes_eqb (magic h) FIMG_MAGIC) eqn:M; cbn [negb]; [|reflexivity].
  apply bytes_eqb_eq in M.
  destruct Hbad as [Hm | [Hz | Hz]]; [congruence | |]; rewrite Hz.
  - reflexivity.
  - rewrite orb_true_r. reflexivity.
Qed.

(** C1. An image file with a well-formed header, its payload and its
    trailer, in which the header checksum, the trailer checksum and the
    checksum recomputed over the payload do not all agree, makes restore
    return status -10 in the state it had after initialising the flash: the
    bus has seen the initialisation commands only, and no sector erase and
    no page program. *)
Theorem restore_integrity_abort (name : option string) (s si : state)
  (path : string) (f : file) :
  restore_reaches_header B fuel name s si path f ->
  let data := file_data f in
  let h := img_header data in
  HDR_SIZE + image_size h + 4 <= Z.of_nat (length data) ->
  magic h = FIMG_MAGIC -> image_size h <> 0 -> chunk_size h <> 0 ->
  malloc B (chunk_size h) si = true ->
  ~ (crc32_update 0 (img_payload data) = rd32 (img_trailer data) /\
     crc32_update 0 (img_payload data) = crc32_all h) ->
  restore_flash_from_sd B fuel name s = Some (-10, si) /\
  commands (bus_since s si)
    = [CMD_RSTEN; CMD_RST; CMD_ULBPR; CMD_WREN; CMD_WRSR; CMD_RDSR2] /\
  forallb (fun fr => negb (destructive fr)) (frames (bus_since s si)) = true.
Proof.
  intros Hreach data h Hlen Hmagic Hsz Hch Hmalloc Hcrc.
  destruct (restore_header_step _ _ _ _ _ Hreach) as (E & Hv & C & D).
  destruct Hreach as (Hc & _ & Ht & Hf & Hl).
  fold data in E. fold h in E. split; [|split; assumption].
  subst data.
  rewrite E, Hmagic, bytes_eqb_refl. cbn [negb].
  destruct (Z.eqb_spec (image_size h) 0); [contradiction|].
  destruct (Z.eqb_spec (chunk_size h) 0); [contradiction|]. cbn [orb].
  unfold restore_checked. rewrite Hmalloc. cbn [negb]. rewrite Hv.
  pose proof (rd32_range (skipn 20 (firstn (Z.to_nat HDR_SIZE) (file_data f))))
    as Hi.
  pose proof (rd32_range (skipn 16 (firstn (Z.to_nat HDR_SIZE) (file_data f))))
    as Hk.
  change (rd32 (skipn 20 (firstn (Z.to_nat HDR_SIZE) (file_data f))))
    with (image_size h) in Hi.
  change (rd32 (skipn 16 (firstn (Z.to_nat HDR_SIZE) (file_data f))))
    with (chunk_size h) in Hk.
  unfold HDR_SIZE in *.
  rewrite (f_lseek_inside path _ 28 _ f Hf) by lia.
  rewrite (restore_crc_loop_ok path (st_vol s) f (chunk_size h) Hf)
    with (remain := image_size h).
  2: lia32. 2: lia32. 2: lia32. 2: lia32.
  2:{ assert (0 < chunk_size h) by lia32.
      rewrite Z2Nat.id by (apply Z.add_nonneg_nonneg;
                           [apply Z.div_pos; lia32 | lia]).
      pose proof (Z.mul_succ_div_gt (image_size h) (chunk_size h) H).
      unfold in_u32 in *. nia. }
  cbn [Z.eqb negb].
  destruct (f_read_inside path (Z.to_nat 28 + Z.to_nat (image_size h)) 4
              (st_vol s) f Hf ltac:(lia) ltac:(lia32)) as [E4 L4].
  rewrite E4, L4. cbn [fr_ok negb Z.eqb Pos.eqb orb].
  change (firstn (Z.to_nat 4)
            (skipn (Z.to_nat 28 + Z.to_nat (image_size h)) (file_data f)))
    with (img_trailer (file_data f)).
  change (firstn (Z.to_nat (image_size h)) (skipn (Z.to_nat 28) (file_data f)))
    with (img_payload (file_data f)).
  destruct (Z.eqb_spec (crc32_update 0 (img_payload (file_data f)))
              (rd32 (img_trailer (file_data f)))) as [E1|E1]; [|reflexivity].
  destruct (Z.eqb_spec (crc32_update 0 (img_payload (file_data f)))
              (crc32_all h)) as [E2|E2]; [|reflexivity].
  exfalso. apply Hcrc. split; assumption.
Qed.

End RestoreAborts.

(* ================================================================= *)
(** ** The synthetic chip: memory, addresses, files *)

Lemma frame_addr_cmd (op : byte) (a : Z) (d : list byte) :
  0 <= a < 2 ^ 24 -> frame_addr (cmd_addr op a ++ d) = a.
Proof.
  intros Ha. unfold frame_addr, cmd_addr. cbn [app nth].
  rewrite !b2z_low8, !Z.shiftr_div_pow2 by lia.
  change (2 ^ 16) with 65536. change (2 ^ 8) with 256.
  change (2 ^ 24) with 16777216 in Ha.
  Z.div_mod_to_equations. lia.
Qed.

Lemma read_from_inside (m cur : list byte) (n : nat) :
  (n <= length cur)%nat -> Sim.read_from m cur n = firstn n cur.
Proof.
  revert cur. induction n as [|n IH]; intros cur H; [reflexivity|].
  destruct cur as [|b r]; [simpl in H; lia|].
  cbn [Sim.read_from firstn]. rewrite IH by (simpl in H; lia). reflexivity.
Qed.

Lemma read_bytes_inside (m : list byte) (a n : nat) :
  (a + n <= length m)%nat -> Sim.read_bytes m a n = firstn n (skipn a m).
Proof.
  intros H. unfold Sim.read_bytes. apply read_from_inside.
  rewrite length_skipn. lia.
Qed.

Lemma band_ff (x : byte) : Sim.band xff x = x.
Proof.
  unfold Sim.band. change (b2z xff) with 255.
  rewrite Z.land_comm, land_255.
  rewrite Z.mod_small by apply b2z_range. apply z2b_b2z.
Qed.

Lemma upd_middle (P R : list byte) (x y : byte) :
  Sim.upd (P ++ x :: R) (length P) y = P ++ y :: R.
Proof.
  induction P as [|p P IH]; [reflexivity|].
  cbn [app length Sim.upd]. rewrite IH. reflexivity.
Qed.

Lemma program_bytes_fresh (d : list byte) :
  forall (P : list byte) (k base off : nat),
    (base + off = length P)%nat -> (off + length d <= 256)%nat ->
    (length d <= k)%nat ->
    Sim.program_bytes (P ++ repeat xff k) base off d
    = P ++ d ++ repeat xff (k - length d).
Proof.
  induction d as [|x r IH]; intros P k base off HP Hoff Hk.
  - cbn [Sim.program_bytes length app]. rewrite Nat.sub_0_r. reflexivity.
  - cbn [Sim.program_bytes]. cbn [length] in Hoff, Hk.
    rewrite Nat.mod_small by lia. rewrite HP.
    destruct k as [|k]; [lia|]. cbn [repeat].
    rewrite nth_middle, band_ff, upd_middle.
    change (P ++ x :: repeat xff k) with (P ++ [x] ++ repeat xff k).
    rewrite app_assoc.
    rewrite (IH (P ++ [x]) k base (S off)).
    + rewrite <- app_assoc. reflexivity.
    + rewrite length_app. simpl. lia.
    + lia.
    + lia.
Qed.

(** Programming fresh (erased) memory inside one page stores the data. *)
Lemma program_fresh (P d : list byte) (k a : nat) :
  length P = a -> (a mod 256 + length d <= 256)%nat -> (length d <= k)%nat ->
  Sim.program (P ++ repeat xff k) a d = P ++ d ++ repeat xff (k - length d).
Proof.
  intros HP Hpage Hk. unfold Sim.program.
  apply program_bytes_fresh; [|exact Hpage|exact Hk].
  pose proof (Nat.Div0.mod_le a 256). lia.
Qed.

(** Erasing an aligned sector of a memory whose lower part is erased
    already. *)
Lemma erase_next (m : list byte) (a : nat) :
  (a mod 4096 = 0)%nat -> (a + 4096 <= length m)%nat ->
  Sim.erase (repeat xff a ++ skipn a m) a
  = repeat xff (a + 4096) ++ skipn (a + 4096) m.
Proof.
  intros Ha Hl. unfold Sim.erase. rewrite Ha, Nat.sub_0_r.
  rewrite firstn_app, firstn_all2 by (rewrite repeat_length; lia).
  rewrite repeat_length, Nat.sub_diag. cbn [firstn]. rewrite app_nil_r.
  rewrite length_app, repeat_length, length_skipn.
  rewrite Nat.min_l by lia.
  rewrite skipn_app, repeat_length.
  rewrite skipn_all2 by (rewrite repeat_length; lia). cbn [app].
  rewrite skipn_skipn.
  replace (a + 4096 - a + a)%nat with (a + 4096)%nat by lia.
  rewrite app_assoc, <- repeat_app. reflexivity.
Qed.

Lemma f_write_has (v : volume) (path : string) (dt tm : Z)
  (data buf : list byte) (p : nat) :
  vol_has v path dt tm data ->
  exists v',
    f_write (mkFIL path p) buf v
    = (FR_OK, Z.of_nat (length buf), mkFIL path (p + length buf), v') /\
    vol_has v' path dt tm
      (firstn p data ++ buf ++ skipn (p + length buf) data).
Proof.
  intros [Hc Hf]. unfold f_write. cbn [fil_path fil_ptr]. rewrite Hf.
  cbn [file_data file_date file_time].
  eexists. split; [reflexivity|].
  split; [exact Hc|]. cbn [set_files files]. apply lookup_store_same.
Qed.

(** Appending at the end of the file. *)
Lemma f_write_append (v : volume) (path : string) (dt tm : Z)
  (data buf : list byte) :
  vol_has v path dt tm data ->
  exists v',
    f_write (mkFIL path (length data)) buf v
    = (FR_OK, Z.of_nat (length buf),
       mkFIL path (length data + length buf), v') /\
    vol_has v' path dt tm (data ++ buf).
Proof.
  intros H. destruct (f_write_has v path dt tm data buf (length data) H)
    as (v' & E & H').
  exists v'. split; [exact E|].
  rewrite firstn_all, skipn_all2, app_nil_r in H' by lia. exact H'.
Qed.

Lemma f_open_create (v : volume) (path : string) :
  card_ready v = true -> has_folder v = true ->
  exists v' dt tm,
    f_open path FA_CREATE_ALWAYS_WRITE v = (FR_OK, mkFIL path 0, v') /\
    vol_has v' path dt tm [].
Proof.
  intros Hc Hd. unfold f_open, FA_CREATE_ALWAYS_WRITE. rewrite Hc, Hd.
  cbn [negb].
  destruct (lookup_file path (files v)) as [old|];
    do 3 eexists; (split; [reflexivity|]);
    (split; [exact Hc | cbn [set_files files]; apply lookup_store_same]).
Qed.



Lemma length_fit (n : nat) (x : list byte) : length (fit n x) = n.
Proof.
  unfold fit. rewrite length_firstn, length_app, repeat_length. lia.
Qed.

Lemma hdr_bytes_length (h : flashimg_hdr_t) : length (hdr_bytes h) = 28%nat.
Proof.
  unfold hdr_bytes. rewrite !length_app, length_fit. reflexivity.
Qed.

Lemma to_nat_mod_256 (a : Z) :
  0 <= a -> (Z.to_nat a mod 256)%nat = Z.to_nat (a mod 256).
Proof. intros H. rewrite Z2Nat.inj_mod by lia. reflexivity. Qed.

Lemma to_nat_mod_4096 (a : Z) :
  0 <= a -> (Z.to_nat a mod 4096)%nat = Z.to_nat (a mod 4096).
Proof. intros H. rewrite Z2Nat.inj_mod by lia. reflexivity. Qed.

Lemma rd32_le32 (x : Z) (r : list byte) : in_u32 x -> rd32 (le32 x ++ r) = x.
Proof.
  intros Hx. unfold rd32, le32. cbn [app nth].
  rewrite !b2z_low8, !Z.shiftr_div_pow2 by lia.
  change (2 ^ 8) with 256. change (2 ^ 16) with 65536.
  change (2 ^ 24) with 16777216.
  unfold in_u32 in Hx. change (2 ^ 32) with 4294967296 in Hx.
  Z.div_mod_to_equations. lia.
Qed.

Lemma rd32_le32_cons (x : Z) (r : list byte) :
  in_u32 x ->
  rd32 (low8 x :: low8 (Z.shiftr x 8) :: low8 (Z.shiftr x 16)
          :: low8 (Z.shiftr x 24) :: r) = x.
Proof. apply (rd32_le32 x r). Qed.

Lemma hdr_roundtrip (h : flashimg_hdr_t) (rest : list byte) :
  magic h = FIMG_MAGIC ->
  in_u32 (flash_size h) -> in_u32 (chunk_size h) ->
  in_u32 (image_size h) -> in_u32 (crc32_all h) ->
  img_header (hdr_bytes h ++ rest) = h.
Proof.
  intros H0 H1 H2 H3 H4. unfold img_header.
  rewrite firstn_app, hdr_bytes_length.
  cbn [Z.to_nat HDR_SIZE Pos.to_nat Pos.iter_op Nat.add Nat.sub firstn].
  rewrite app_nil_r.
  rewrite firstn_all2 by (rewrite hdr_bytes_length; apply Nat.le_refl).
  destruct h as [mg [a b c] r fs cs isz crc].
  cbn [magic flash_size chunk_size image_size crc32_all] in *. subst mg.
  unfold hdr_of_bytes, hdr_bytes.
  cbn [magic jedec reserved flash_size chunk_size image_size crc32_all
       manuf_id mem_type capacity_id fit FIMG_MAGIC app firstn nth skipn
       repeat].
  unfold le32. cbn [app].
  rewrite !rd32_le32_cons by assumption.
  reflexivity.
Qed.

Lemma detected_size_facts (i : jedec_info_t) :
  0 < detected_size i < 2 ^ 32 /\ detected_size i mod 4096 = 0.
Proof.
  unfold detected_size. destruct (capacity_id i); vm_compute;
    repeat split; reflexivity.
Qed.

(* ================================================================= *)
(** ** The driver and the pipelines on the synthetic chip *)

Section Synthetic.

Variable fuel : nat.
Variable i : jedec_info_t.
Variable l : nat.
Variables tk hp : Z.

Hypothesis Hfuel : (l < fuel)%nat.
Hypothesis Htk : 0 <= tk.
Hypothesis Hlat : Z.of_nat l * tk <= 200.
Hypothesis Hhp : CHUNK_BYTES <= hp.

Local Abbreviation state := (state (hw Sim.board)).
Local Abbreviation at_ := (sim_at i l tk hp).

Ltac sim_open H :=
  let b := fresh "b" in let re := fresh "re" in
  let t := fresh "t" in let bus := fresh "bus" in
  let Hb := fresh "Hb" in
  destruct H as (b & re & t & bus & -> & Hb).

Tactic Notation "sim_close" constr(b) constr(re) constr(t) :=
  exists b, re, t; eexists; split; [reflexivity | try lia].

Lemma sim_wren m w v mtd (s : state) :
  at_ m w v mtd s -> at_ m true v mtd (flash_wren Sim.board s).
Proof. intros H. sim_open H. sim_close b re t. Qed.

Lemma sim_read_sr1 m w v mtd (s : state) :
  at_ m w v mtd s -> at_ m w v mtd (snd (flash_read_sr1 Sim.board s)).
Proof. intros H. sim_open H. sim_close (Nat.pred b) re t. Qed.

Lemma sim_read_sr2 m w v mtd (s : state) :
  at_ m w v mtd s -> at_ m w v mtd (snd (flash_read_sr2 Sim.board s)).
Proof. intros H. sim_open H. sim_close b re t. Qed.

Lemma sim_soft_reset m w v mtd (s : state) :
  at_ m w v mtd s -> at_ m false v mtd (flash_soft_reset Sim.board s).
Proof. intros H. sim_open H. sim_close 0%nat false (t + 1 + 10). Qed.

Lemma sim_poll m w v mtd (b : nat) (re : bool) (t : Z) (bus : list bus_event) :
  exists sr bus',
    flash_read_sr1 Sim.board
      (mkState (W := hw Sim.board) (rest_chip i l tk hp m w b re t) bus v mtd)
    = (sr, mkState (W := hw Sim.board)
             (rest_chip i l tk hp m w (Nat.pred b) re t) bus' v mtd) /\
    (Z.land (b2z sr) 1 =? 0) = (b =? 0)%nat.
Proof.
  destruct w, b; do 2 eexists; split; reflexivity.
Qed.

Lemma u32_sub_u32 (x y : Z) : u32 (u32 x - u32 y) = u32 (x - y).
Proof. unfold u32. rewrite <- Zminus_mod. reflexivity. Qed.

(** The polling loop on a chip that is busy for [b] more polls. *)
Lemma sim_wait_loop m w v mtd (timeout : Z) :
  200 <= timeout < 2 ^ 32 ->
  forall (b k : nat) (j now : Z) (re : bool) (bus : list bus_event),
    (b < k)%nat -> 1 <= j -> (j + Z.of_nat b - 1) * tk <= 200 ->
    (b <= l)%nat ->
    exists s',
      wait_busy_loop Sim.board k timeout (u32 now)
        (mkState (W := hw Sim.board)
           (rest_chip i l tk hp m w b re (now + j * tk)) bus v mtd)
      = Some (true, s') /\ at_ m w v mtd s'.
Proof.
  intros Ht. induction b as [|b IH]; intros k j now re bus Hk Hj Hjb Hbl.
  - destruct k as [|k]; [lia|].
    cbn [wait_busy_loop].
    destruct (sim_poll m w v mtd 0 re (now + j * tk) bus)
      as (sr & bus' & -> & ->).
    cbn [Nat.eqb]. eexists. split; [reflexivity|].
    sim_close 0%nat re (now + j * tk).
  - destruct k as [|k]; [lia|].
    cbn [wait_busy_loop].
    destruct (sim_poll m w v mtd (S b) re (now + j * tk) bus)
      as (sr & bus' & -> & ->).
    cbn [Nat.eqb Nat.pred].
    change (to_ms_since_boot Sim.board
              (mkState (W := hw Sim.board)
                 (rest_chip i l tk hp m w b re (now + j * tk)) bus' v mtd))
      with (u32 (now + j * tk),
            mkState (W := hw Sim.board)
              (rest_chip i l tk hp m w b re (now + j * tk + tk)) bus' v mtd).
    cbv beta iota.
    rewrite u32_sub_u32.
    replace (now + j * tk - now) with (j * tk) by lia.
    assert (Hs : u32 (j * tk) = j * tk).
    { apply u32_small. lia32. }
    rewrite Hs.
    destruct (Z.gtb_spec (j * tk) timeout) as [Hgt|Hle]; [nia|].
    replace (now + j * tk + tk) with (now + (j + 1) * tk) by lia.
    apply IH; lia.
Qed.

Lemma sim_wait m w v mtd (timeout : Z) (s : state) :
  200 <= timeout < 2 ^ 32 ->
  at_ m w v mtd s ->
  exists s',
    flash_wait_busy_timeout Sim.board fuel timeout s = Some (true, s') /\
    at_ m w v mtd s'.
Proof.
  intros Ht H. sim_open H. unfold flash_wait_busy_timeout.
  change (to_ms_since_boot Sim.board
            (mkState (W := hw Sim.board) (rest_chip i l tk hp m w b re t) bus v mtd))
    with (u32 t,
          mkState (W := hw Sim.board)
            (rest_chip i l tk hp m w b re (t + tk)) bus v mtd).
  cbv beta iota.
  replace (t + tk) with (t + 1 * tk) by lia.
  apply sim_wait_loop; try lia. nia.
Qed.


Lemma sim_unprotect m w v mtd (s : state) :
  at_ m w v mtd s ->
  exists s',
    flash_global_unprotect Sim.board fuel s = Some (tt, s') /\
    at_ m false v mtd s'.
Proof.
  intros H. sim_open H. unfold flash_global_unprotect.
  match goal with
  | |- context [flash_wait_busy_timeout _ _ _ ?x] =>
      set (sA := x);
      assert (HA : at_ m false v mtd sA)
        by (subst sA; sim_close l re (t + 1))
  end.
  destruct (sim_wait m false v mtd 200 sA ltac:(lia32) HA) as (s1 & -> & H1).
  pose proof (sim_read_sr1 _ _ _ _ _ H1) as H2.
  destruct (flash_read_sr1 Sim.board s1) as [x s2]. cbn [snd] in H2.
  pose proof (sim_read_sr2 _ _ _ _ _ H2) as H3.
  destruct (flash_read_sr2 Sim.board s2) as [y s3]. cbn [snd] in H3.
  eexists. split; [reflexivity|exact H3].
Qed.

Lemma sim_init m w v mtd (s : state) :
  at_ m w v mtd s ->
  exists s',
    flash_dut_init Sim.board fuel s = Some (true, s') /\
    at_ m false v mtd s'.
Proof.
  intros H. sim_open H. unfold flash_dut_init.
  match goal with
  | |- context [flash_global_unprotect _ _ ?x] =>
      set (sA := x);
      assert (HA : at_ m false v mtd sA)
        by (subst sA; sim_close 0%nat false (t + 1 + 10))
  end.
  destruct (sim_unprotect _ _ _ _ _ HA) as (s1 & -> & H1).
  eexists. split; [reflexivity|exact H1].
Qed.

Lemma sim_read_jedec m w v mtd (s : state) :
  at_ m w v mtd s ->
  exists s',
    flash_dut_read_jedec Sim.board s = (true, i, s') /\ at_ m w v mtd s'.
Proof.
  intros H. sim_open H. eexists. split.
  - destruct i as [x y z]. reflexivity.
  - sim_close b re t.
Qed.

Lemma sim_read m w v mtd (addr : Z) (len : nat) (s : state) :
  at_ m w v mtd s ->
  0 <= addr < 2 ^ 24 -> (0 < len)%nat ->
  (Z.to_nat addr + len <= length m)%nat ->
  exists s',
    flash_dut_read Sim.board addr len s
    = (true, firstn len (skipn (Z.to_nat addr) m), s') /\
    at_ m w v mtd s'.
Proof.
  intros H Ha Hlen Hm. sim_open H.
  destruct len as [|n]; [lia|].
  assert (E : exists bus',
    flash_dut_read Sim.board addr (S n)
      (mkState (W := hw Sim.board) (rest_chip i l tk hp m w b re t) bus v mtd)
    = (true,
       fit (S n) (Sim.read_bytes m
          (Z.to_nat (frame_addr (cmd_addr CMD_READ addr ++ [])) mod length m)
          (S n)),
       mkState (W := hw Sim.board) (rest_chip i l tk hp m w b re t) bus' v mtd)).
  { eexists. reflexivity. }
  destruct E as (bus' & E). rewrite E.
  rewrite frame_addr_cmd by exact Ha.
  rewrite Nat.mod_small by lia.
  rewrite read_bytes_inside by lia.
  rewrite fit_exact by (rewrite length_firstn, length_skipn; lia).
  eexists. split; [reflexivity|]. sim_close b re t.
Qed.

Lemma sim_program_page m w v mtd (addr : Z) (d : list byte) (s : state) :
  at_ m w v mtd s ->
  0 <= addr < 2 ^ 24 ->
  1 <= Z.of_nat (length d) <= FLASH_PAGE_SIZE ->
  (Z.to_nat addr < length m)%nat ->
  exists s',
    flash_dut_program_page Sim.board fuel addr (Some d) s = Some (true, s') /\
    at_ (Sim.program m (Z.to_nat addr) d) false v mtd s'.
Proof.
  intros H Ha Hd Hm. sim_open H.
  rewrite program_page_valid by exact Hd.
  destruct d as [|x r]; [simpl in Hd; lia|].
  assert (HA : at_ (Sim.program m
                      (Z.to_nat (frame_addr (cmd_addr CMD_PP addr ++ []))
                         mod length m) (x :: r)) false v mtd
                 (pp_issue Sim.board addr (x :: r)
                    (mkState (W := hw Sim.board)
                       (rest_chip i l tk hp m w b re t) bus v mtd)))
    by (sim_close l re t).
  rewrite frame_addr_cmd in HA by exact Ha.
  rewrite Nat.mod_small in HA by lia.
  apply sim_wait; [lia32|exact HA].
Qed.

Lemma sim_erase_4k m w v mtd (addr : Z) (s : state) :
  at_ m w v mtd s ->
  0 <= addr < 2 ^ 24 ->
  (Z.to_nat addr < length m)%nat ->
  exists s',
    flash_dut_erase_4k Sim.board fuel addr s = Some (true, s') /\
    at_ (Sim.erase m (Z.to_nat addr)) false v mtd s'.
Proof.
  intros H Ha Hm.
  rewrite erase_4k_stages. unfold erase_first.
  destruct (sim_unprotect _ _ _ _ _ H) as (s1 & -> & H1).
  sim_open H1.
  match goal with
  | |- context [flash_wait_busy_timeout _ _ 2000 ?x] =>
      set (sA := x);
      assert (HA : at_ (Sim.erase m
                          (Z.to_nat (frame_addr (cmd_addr CMD_SE_4K addr ++ []))
                             mod length m)) false v mtd sA)
        by (subst sA; sim_close l re t)
  end.
  rewrite frame_addr_cmd in HA by exact Ha.
  rewrite Nat.mod_small in HA by lia.
  destruct (sim_wait _ _ _ _ 2000 sA ltac:(lia32) HA) as (s2 & -> & H2).
  eexists. split; [reflexivity|exact H2].
Qed.


Lemma sim_now m w v mtd (s : state) :
  at_ m w v mtd s -> at_ m w v mtd (snd (to_ms_since_boot Sim.board s)).
Proof. intros H. sim_open H. sim_close b re (t + tk). Qed.

Lemma sim_set_vol m w v v' mtd (s : state) :
  at_ m w v mtd s -> at_ m w v' mtd (set_vol Sim.board s v').
Proof. intros H. sim_open H. sim_close b re t. Qed.

Lemma sim_mounted m w v mtd (s : state) :
  at_ m w v mtd s -> at_ m w v true (mounted s).
Proof. intros H. sim_open H. sim_close b re t. Qed.

Lemma sim_vol m w v mtd (s : state) : at_ m w v mtd s -> st_vol s = v.
Proof. intros H. sim_open H. reflexivity. Qed.

Lemma sim_mem m w v mtd (s : state) : at_ m w v mtd s -> Sim.mem (st_hw s) = m.
Proof. intros H. sim_open H. reflexivity. Qed.

Lemma sim_malloc m w v mtd (n : Z) (s : state) :
  at_ m w v mtd s -> n <= hp -> malloc Sim.board n s = true.
Proof.
  intros H Hn. sim_open H. unfold malloc. cbn. apply Z.leb_le. exact Hn.
Qed.


Lemma skipn_split (A : Type) (n a : nat) (m : list A) :
  firstn n (skipn a m) ++ skipn (a + n) m = skipn a m.
Proof.
  rewrite <- (firstn_skipn n (skipn a m)) at 2.
  rewrite skipn_skipn. do 2 f_equal. lia.
Qed.

Lemma sim_backup_loop (name : string) (dt tm : Z) (m : list byte)
  (w mtd : bool) :
  Z.of_nat (length m) <= 2 ^ 24 ->
  forall (k : nat) (addr total crc : Z) (data : list byte) (v : volume)
         (s : state),
    at_ m w v mtd s -> vol_has v name dt tm data -> in_u32 crc ->
    0 <= addr -> 0 <= total -> addr + total = Z.of_nat (length m) ->
    total <= Z.of_nat k * CHUNK_BYTES ->
    exists s' v',
      backup_loop Sim.board k (mkFIL name (length data)) crc addr total s
      = Some (0, crc32_update crc (skipn (Z.to_nat addr) m),
              mkFIL name (length data + Z.to_nat total), s') /\
      at_ m w v' mtd s' /\
      vol_has v' name dt tm (data ++ skipn (Z.to_nat addr) m).
Proof.
  intros HS. unfold CHUNK_BYTES.
  induction k as [|k IH]; intros addr total crc data v s Hat Hv Hcrc Ha Ht Hsum Hk.
  - assert (total = 0) by lia. subst total.
    cbn [backup_loop Z.eqb].
    rewrite skipn_all2 by lia.
    rewrite crc32_update_nil by exact Hcrc.
    rewrite app_nil_r, Nat.add_0_r.
    exists s, v. auto.
  - cbn [backup_loop].
    destruct (Z.eqb_spec total 0) as [->|Hne].
    { rewrite skipn_all2 by lia.
      rewrite crc32_update_nil by exact Hcrc.
      rewrite app_nil_r, Nat.add_0_r.
      exists s, v. auto. }
    unfold CHUNK_BYTES.
    set (n := if total >? 4096 then 4096 else total).
    assert (Hn : 0 < n <= total /\ n <= 4096
                 /\ total - n <= Z.of_nat k * 4096).
    { subst n. destruct (Z.gtb_spec total 4096); lia. }
    destruct (sim_read m w v mtd addr (Z.to_nat n) s Hat
                ltac:(lia32) ltac:(lia) ltac:(lia)) as (s1 & E1 & H1).
    rewrite E1. cbn [negb].
    set (buf := firstn (Z.to_nat n) (skipn (Z.to_nat addr) m)) in *.
    assert (Lb : length buf = Z.to_nat n).
    { subst buf. rewrite length_firstn, length_skipn. lia. }
    rewrite (sim_vol _ _ _ _ _ H1).
    destruct (f_write_append v name dt tm data buf Hv) as (v' & E2 & H2).
    rewrite E2. cbn [fr_ok negb orb].
    rewrite Lb, Z2Nat.id, Z.eqb_refl by lia. cbn [negb].
    pose proof (sim_set_vol _ _ _ v' _ _ H1) as H1'.
    assert (Hu1 : u32 (addr + n) = addr + n) by (apply u32_small; lia32).
    assert (Hu2 : u32 (total - n) = total - n) by (apply u32_small; lia32).
    rewrite Hu1, Hu2.
    replace (length data + Z.to_nat n)%nat with (length (data ++ buf))
      by (rewrite length_app; lia).
    destruct (IH (addr + n) (total - n) (crc32_update crc buf) (data ++ buf)
                v' _ H1' H2 (crc32_update_range _ _) ltac:(lia) ltac:(lia)
                ltac:(lia) ltac:(lia)) as (s' & v'' & E3 & H3 & H4).
    rewrite E3. exists s', v''.
    rewrite crc32_update_app in *.
    replace (Z.to_nat (addr + n)) with (Z.to_nat addr + Z.to_nat n)%nat in *
      by lia.
    subst buf. rewrite <- app_assoc in H4. rewrite skipn_split in *.
    rewrite length_app, Lb.
    replace (length data + Z.to_nat n + Z.to_nat (total - n))%nat
      with (length data + Z.to_nat total)%nat by lia.
    auto.
Qed.


Lemma sim_ensure_folder m w v mtd (s : state) :
  at_ m w v mtd s -> card_ready v = true ->
  exists v',
    at_ m w v' mtd (ensure_folder Sim.board s) /\
    card_ready v' = true /\ has_folder v' = true.
Proof.
  intros H Hc. pose proof (sim_vol _ _ _ _ _ H) as Hv.
  unfold ensure_folder, f_opendir. rewrite Hv, Hc. cbn [negb].
  destruct (has_folder v) eqn:Hd; cbn [fr_ok negb].
  - exists v. auto.
  - exists (f_mkdir v). split; [apply (sim_set_vol _ _ _ _ _ _ H)|].
    unfold f_mkdir. rewrite Hc. auto.
Qed.


Lemma sim_backup m w v mtd (s : state) :
  at_ m w v mtd s -> card_ready v = true ->
  Z.of_nat (length m) = detected_size i -> detected_size i <= 2 ^ 24 ->
  let crc := crc32_update 0 m in
  let h := mkHdr FIMG_MAGIC i x00 (detected_size i) CHUNK_BYTES
             (detected_size i) crc in
  exists s1 v1 name dt tm,
    backup_flash_to_sd Sim.board fuel s = Some (0, s1) /\
    at_ m false v1 true s1 /\
    vol_has v1 name dt tm (hdr_bytes h ++ m ++ le32 crc) /\
    string_nonempty name = true.
Proof.
  intros H Hc HS HS24 crc h.
  pose proof (sim_vol _ _ _ _ _ H) as Hv.
  unfold backup_flash_to_sd.
  rewrite fs_mount_once_ready by (rewrite Hv; exact Hc). cbn [negb].
  destruct (sim_init _ _ _ _ _ (sim_mounted _ _ _ _ _ H)) as (s1 & -> & H1).
  cbn [negb].
  destruct (sim_read_jedec _ _ _ _ _ H1) as (s2 & -> & H2). cbn [negb].
  unfold flash_dut_probe_capacity_sfdp. cbn [andb].
  change (if negb (flash_calculate_capacity (capacity_id i) =? 0)
          then flash_calculate_capacity (capacity_id i)
          else 16 * 1024 * 1024) with (detected_size i).
  destruct (sim_ensure_folder _ _ _ _ _ H2 Hc) as (v3 & H3 & Hc3 & Hd3).
  unfold fmt_time.
  pose proof (sim_now _ _ _ _ _ H3) as H4.
  destruct (to_ms_since_boot Sim.board (ensure_folder Sim.board s2))
    as [ms s4]. cbn [snd] in H4.
  rewrite (sim_vol _ _ _ _ _ H4).
  set (name := backup_name (snprintf_s 32 (fmt_stamp ms)) i).
  destruct (f_open_create v3 name Hc3 Hd3) as (v5 & dt & tm & E5 & H5).
  rewrite E5. cbn [fr_ok negb].
  pose proof (sim_set_vol _ _ _ v5 _ _ H4) as H5'.
  rewrite (sim_vol _ _ _ _ _ H5').
  set (h0 := mkHdr FIMG_MAGIC i x00 (detected_size i) CHUNK_BYTES
               (detected_size i) 0).
  destruct (f_write_append v5 name dt tm [] (hdr_bytes h0) H5)
    as (v6 & E6 & H6).
  cbn [length app Nat.add] in E6, H6. rewrite E6. cbn [fr_ok negb orb].
  rewrite hdr_bytes_length. cbn [Z.of_nat Pos.of_succ_nat Z.eqb HDR_SIZE
                                  Pos.succ Pos.eqb negb].
  pose proof (sim_set_vol _ _ _ v6 _ _ H5') as H6'.
  rewrite (sim_malloc _ _ _ _ _ _ H6' Hhp). cbn [negb].
  assert (Hpos : 0 <= detected_size i) by lia.
  destruct (sim_backup_loop name dt tm m false true ltac:(lia)
              (Z.to_nat (detected_size i / CHUNK_BYTES + 1)) 0
              (detected_size i) 0 (hdr_bytes h0) v6 _ H6' H6)
    as (s7 & v7 & E7 & H7 & V7).
  { lia32. } { lia. } { exact Hpos. } { lia. }
  { unfold CHUNK_BYTES. rewrite Z2Nat.id.
    - pose proof (Z.mul_succ_div_gt (detected_size i) 4096 ltac:(lia)). lia.
    - pose proof (Z.div_pos (detected_size i) 4096 Hpos ltac:(lia)). lia. }
  rewrite hdr_bytes_length in E7. rewrite E7. cbn [Z.eqb negb].
  cbn [Z.to_nat skipn] in V7 |- *. fold crc in V7 |- *.
  rewrite (sim_vol _ _ _ _ _ H7).
  destruct (f_write_append v7 name dt tm (hdr_bytes h0 ++ m) (le32 crc) V7)
    as (v8 & E8 & V8).
  rewrite length_app, hdr_bytes_length in E8.
  replace (length m) with (Z.to_nat (detected_size i)) in E8 by lia.
  rewrite E8. cbn [fr_ok negb orb length le32 Z.of_nat Pos.of_succ_nat
                   Pos.succ Z.eqb Pos.eqb].
  pose proof (sim_set_vol _ _ _ v8 _ _ H7) as H8.
  rewrite (sim_vol _ _ _ _ _ H8).
  destruct V8 as [Hc8 Hf8].
  rewrite (f_lseek_inside name _ 0 v8 _ Hf8) by (cbn [file_data]; lia).
  destruct (f_write_has v8 name dt tm _ (hdr_bytes h) 0 (conj Hc8 Hf8))
    as (v9 & E9 & V9).
  cbn [magic jedec reserved flash_size chunk_size image_size h0].
  fold h. cbn [Z.to_nat]. rewrite E9.
  exists (set_vol Sim.board (set_vol Sim.board s7 v8) v9), v9, name, dt, tm.
  split; [reflexivity|]. split; [|split].
  - apply sim_set_vol with (v := v8). exact H8.
  - cbn [firstn app Nat.add] in V9. rewrite hdr_bytes_length in V9.
    rewrite <- app_assoc in V9.
    rewrite skipn_app, hdr_bytes_length in V9.
    rewrite skipn_all2 in V9 by (rewrite hdr_bytes_length; lia).
    cbn [Nat.sub skipn app] in V9. exact V9.
  - reflexivity.
Qed.


(** The erase loop, the sectors below [a] being erased already. *)
Lemma sim_erase_loop (m0 : list byte) (v : volume) (mtd : bool) :
  Z.of_nat (length m0) <= 2 ^ 24 ->
  Z.of_nat (length m0) mod 4096 = 0 ->
  forall (k : nat) (a : Z) (w : bool) (s : state),
    0 <= a <= Z.of_nat (length m0) -> a mod 4096 = 0 ->
    Z.of_nat (length m0) - a <= Z.of_nat k * 4096 ->
    at_ (repeat xff (Z.to_nat a) ++ skipn (Z.to_nat a) m0) w v mtd s ->
    exists w' s',
      restore_erase_loop Sim.board fuel k a (Z.of_nat (length m0)) s
      = Some (true, s') /\
      at_ (repeat xff (length m0)) w' v mtd s'.
Proof.
  intros HS Hal. induction k as [|k IH]; intros a w s Ha Hma Hk Hat.
  - assert (a = Z.of_nat (length m0)) by lia. subst a.
    cbn [restore_erase_loop]. rewrite Z.ltb_irrefl.
    rewrite Nat2Z.id, skipn_all, app_nil_r in Hat. eauto.
  - cbn [restore_erase_loop].
    destruct (Z.ltb_spec a (Z.of_nat (length m0))) as [Hlt|Hge].
    2:{ assert (a = Z.of_nat (length m0)) by lia. subst a.
        rewrite Nat2Z.id, skipn_all, app_nil_r in Hat. eauto. }
    assert (Hnext : a + 4096 <= Z.of_nat (length m0)).
    { Z.div_mod_to_equations. lia. }
    destruct (sim_erase_4k _ _ _ _ a s Hat) as (s1 & -> & H1).
    { lia32. }
    { rewrite length_app, repeat_length, length_skipn. lia. }
    cbn [negb].
    rewrite erase_next in H1.
    2:{ rewrite to_nat_mod_4096 by lia. rewrite Hma. reflexivity. }
    2:{ lia. }
    unfold FLASH_SECTOR_SIZE.
    assert (Hu : u32 (a + 4096) = a + 4096) by (apply u32_small; lia32).
    rewrite Hu.
    apply (IH (a + 4096) false s1).
    + lia.
    + Z.div_mod_to_equations. lia.
    + lia.
    + replace (Z.to_nat (a + 4096)) with (Z.to_nat a + 4096)%nat by lia.
      exact H1.
Qed.

(** The page programs of the reference splitter on erased memory. *)
Lemma sim_program_calls (v : volume) (mtd : bool) :
  forall (addr : Z) (buf : list byte) (P : list byte) (k : nat) (w : bool)
         (s : state),
    Z.of_nat (length P) = addr -> (length buf <= k)%nat ->
    addr + Z.of_nat (length buf) <= 2 ^ 24 ->
    at_ (P ++ repeat xff k) w v mtd s ->
    exists w' s',
      program_calls Sim.board fuel (ref_split addr buf) s = Some (true, s') /\
      at_ (P ++ buf ++ repeat xff (k - length buf)) w' v mtd s'.
Proof.
  apply (ref_split_ind (fun addr buf =>
    forall (P : list byte) (k : nat) (w : bool) (s : state),
      Z.of_nat (length P) = addr -> (length buf <= k)%nat ->
      addr + Z.of_nat (length buf) <= 2 ^ 24 ->
      at_ (P ++ repeat xff k) w v mtd s ->
      exists w' s',
        program_calls Sim.board fuel (ref_split addr buf) s = Some (true, s') /\
        at_ (P ++ buf ++ repeat xff (k - length buf)) w' v mtd s')).
  - intros addr P k w s HP Hk Ha Hat. rewrite ref_split_nil.
    cbn [program_calls length app]. rewrite Nat.sub_0_r. eauto.
  - intros addr data Hd w0 Hw IH P k w s HP Hk Ha Hat.
    rewrite (ref_split_cons _ _ Hd). fold w0. cbn [program_calls].
    pose proof (Z.mod_pos_bound addr 256 ltac:(lia)) as Hm.
    assert (Hw0 : w0 <= 256 - addr mod 256).
    { subst w0. unfold FLASH_PAGE_SIZE. lia. }
    set (piece := firstn (Z.to_nat w0) data).
    assert (Lp : length piece = Z.to_nat w0).
    { subst piece. rewrite length_firstn. lia. }
    destruct (sim_program_page _ _ _ _ addr piece s Hat) as (s1 & -> & H1).
    { lia32. }
    { unfold FLASH_PAGE_SIZE. lia. }
    { rewrite length_app, repeat_length. lia. }
    cbn [negb].
    rewrite program_fresh in H1.
    2:{ lia. }
    2:{ rewrite to_nat_mod_256 by lia. lia. }
    2:{ lia. }
    rewrite app_assoc in H1.
    destruct (IH (P ++ piece) (k - length piece)%nat false s1)
      as (w' & s' & E & H').
    + rewrite length_app. lia.
    + rewrite length_skipn. lia.
    + rewrite length_skipn. lia.
    + exact H1.
    + exists w', s'. split; [exact E|].
      rewrite <- app_assoc in H'. rewrite app_assoc in H'.
      rewrite <- app_assoc in H'.
      replace (piece ++ skipn (Z.to_nat w0) data ++
               repeat xff (k - length piece - length (skipn (Z.to_nat w0) data)))
        with (data ++ repeat xff (k - length data)) in H'.
      * exact H'.
      * rewrite app_assoc. subst piece. rewrite firstn_skipn.
        do 2 f_equal. rewrite length_firstn, length_skipn. lia.
Qed.


(** Reading a chunk of the payload of an image file. *)
Lemma payload_chunk (hdr m trailer : list byte) (a n : nat) :
  length hdr = 28%nat -> (a + n <= length m)%nat ->
  firstn n (skipn (28 + a) (hdr ++ m ++ trailer)) = firstn n (skipn a m).
Proof.
  intros Hh Ha.
  rewrite skipn_app, Hh.
  rewrite skipn_all2 by lia. cbn [app].
  replace (28 + a - 28)%nat with a by lia.
  rewrite skipn_app, firstn_app.
  rewrite length_skipn.
  replace (n - (length m - a))%nat with 0%nat by lia.
  cbn [firstn]. apply app_nil_r.
Qed.

(** The programming loop of restore, the chip being erased from [addr]
    on and holding the payload below. *)
Lemma sim_program_loop (name : string) (dt tm : Z)
  (hdr m trailer : list byte) (v : volume) (mtd : bool) (chunk : Z) :
  vol_has v name dt tm (hdr ++ m ++ trailer) ->
  length hdr = 28%nat ->
  Z.of_nat (length m) <= 2 ^ 24 -> 0 < chunk ->
  forall (k : nat) (addr remain : Z) (w : bool) (s : state),
    0 <= addr -> 0 <= remain -> addr + remain = Z.of_nat (length m) ->
    remain <= Z.of_nat k * chunk ->
    at_ (firstn (Z.to_nat addr) m ++ repeat xff (Z.to_nat remain)) w v mtd s ->
    exists w' s',
      restore_program_loop Sim.board fuel k
        (mkFIL name (28 + Z.to_nat addr)) chunk addr remain s
      = Some (0, s') /\
      at_ m w' v mtd s'.
Proof.
  intros [Hc Hf] Hh HS Hch.
  induction k as [|k IH]; intros addr remain w s Ha Hr Hsum Hk Hat.
  - assert (remain = 0) by lia. subst remain.
    cbn [restore_program_loop Z.eqb].
    cbn [Z.to_nat repeat] in Hat.
    rewrite app_nil_r, firstn_all2 in Hat by lia. eauto.
  - cbn [restore_program_loop].
    destruct (Z.eqb_spec remain 0) as [->|Hne].
    { cbn [Z.to_nat repeat] in Hat.
      rewrite app_nil_r, firstn_all2 in Hat by lia. eauto. }
    set (n := if remain >? chunk then chunk else remain).
    assert (Hn : 0 < n <= remain /\ n <= chunk
                 /\ remain - n <= Z.of_nat k * chunk).
    { subst n. destruct (Z.gtb_spec remain chunk); nia. }
    rewrite (sim_vol _ _ _ _ _ Hat).
    destruct (f_read_inside name (28 + Z.to_nat addr) n v _ Hf)
      as [E L].
    { lia. }
    { cbn [file_data]. rewrite !length_app. lia. }
    cbn [file_data] in E, L.
    rewrite payload_chunk in E, L by lia.
    rewrite E, L, Z.eqb_refl. cbn [fr_ok negb orb].
    set (buf := firstn (Z.to_nat n) (skipn (Z.to_nat addr) m)) in *.
    assert (Lb : length buf = Z.to_nat n) by lia.
    replace (program_pages Sim.board fuel (Z.to_nat n) addr buf n 0 s)
      with (program_pages Sim.board fuel (Z.to_nat n) addr buf
              (Z.of_nat (length buf)) 0 s) by (rewrite L; reflexivity).
    rewrite program_pages_ref_aux; [| lia | lia32 | lia32 | lia | lia].
    rewrite Z.add_0_r. cbn [Z.to_nat skipn].
    destruct (sim_program_calls v mtd addr buf (firstn (Z.to_nat addr) m)
                (Z.to_nat remain) w s) as (w1 & s1 & -> & H1).
    { rewrite length_firstn. lia. }
    { lia. }
    { lia32. }
    { exact Hat. }
    cbn [negb].
    assert (Hu1 : u32 (addr + n) = addr + n) by (apply u32_small; lia32).
    assert (Hu2 : u32 (remain - n) = remain - n) by (apply u32_small; lia32).
    rewrite Hu1, Hu2.
    replace (28 + Z.to_nat addr + Z.to_nat n)%nat
      with (28 + Z.to_nat (addr + n))%nat by lia.
    apply (IH (addr + n) (remain - n) w1 s1); try lia.
    rewrite app_assoc in H1. subst buf.
    replace (firstn (Z.to_nat addr) m
             ++ firstn (Z.to_nat n) (skipn (Z.to_nat addr) m))
      with (firstn (Z.to_nat (addr + n)) m) in H1.
    + rewrite Lb in H1.
      replace (Z.to_nat remain - Z.to_nat n)%nat
        with (Z.to_nat (remain - n)) in H1 by lia.
      exact H1.
    + replace (Z.to_nat (addr + n)) with (Z.to_nat addr + Z.to_nat n)%nat
        by lia.
      rewrite <- (firstn_chunks _ m (Z.to_nat addr)
                    (Z.to_nat addr + Z.to_nat n)) by lia.
      do 2 f_equal. lia.
Qed.

(** The checksum of the live chip. *)
Lemma sim_crc_flash_loop (m : list byte) (w : bool) (v : volume) (mtd : bool)
  (chunk : Z) :
  Z.of_nat (length m) <= 2 ^ 24 -> 0 < chunk ->
  forall (k : nat) (addr remain crc : Z) (s : state),
    in_u32 crc -> 0 <= addr -> 0 <= remain ->
    addr + remain = Z.of_nat (length m) ->
    remain <= Z.of_nat k * chunk ->
    at_ m w v mtd s ->
    exists s',
      crc32_flash_loop Sim.board k chunk crc addr remain s
      = Some (0, crc32_update crc (skipn (Z.to_nat addr) m), s') /\
      at_ m w v mtd s'.
Proof.
  intros HS Hch.
  induction k as [|k IH]; intros addr remain crc s Hcrc Ha Hr Hsum Hk Hat.
  - assert (remain = 0) by lia. subst remain.
    cbn [crc32_flash_loop Z.eqb].
    rewrite skipn_all2 by lia.
    rewrite crc32_update_nil by exact Hcrc. eauto.
  - cbn [crc32_flash_loop].
    destruct (Z.eqb_spec remain 0) as [->|Hne].
    { rewrite skipn_all2 by lia.
      rewrite crc32_update_nil by exact Hcrc. eauto. }
    set (n := if remain >? chunk then chunk else remain).
    assert (Hn : 0 < n <= remain /\ n <= chunk
                 /\ remain - n <= Z.of_nat k * chunk).
    { subst n. destruct (Z.gtb_spec remain chunk); nia. }
    destruct (sim_read m w v mtd addr (Z.to_nat n) s Hat
                ltac:(lia32) ltac:(lia) ltac:(lia)) as (s1 & E1 & H1).
    rewrite E1. cbn [negb].
    assert (Hu1 : u32 (addr + n) = addr + n) by (apply u32_small; lia32).
    assert (Hu2 : u32 (remain - n) = remain - n) by (apply u32_small; lia32).
    rewrite Hu1, Hu2.
    destruct (IH (addr + n) (remain - n)
                (crc32_update crc
                   (firstn (Z.to_nat n) (skipn (Z.to_nat addr) m)))
                s1 (crc32_update_range _ _)
                ltac:(lia) ltac:(lia) ltac:(lia) ltac:(lia) H1)
      as (s' & E & H').
    rewrite E. exists s'. split; [|exact H'].
    rewrite crc32_update_app.
    replace (Z.to_nat (addr + n)) with (Z.to_nat addr + Z.to_nat n)%nat by lia.
    rewrite skipn_split. reflexivity.
Qed.


(** Restore of an image produced by backup, onto a chip of the same size
    holding anything. *)
Lemma sim_restore (name : string) (dt tm : Z) (m m2 : list byte)
  (w2 mtd2 : bool) (v : volume) (s2 : state) :
  let crc := crc32_update 0 m in
  let h := mkHdr FIMG_MAGIC i x00 (detected_size i) CHUNK_BYTES
             (detected_size i) crc in
  vol_has v name dt tm (hdr_bytes h ++ m ++ le32 crc) ->
  string_nonempty name = true ->
  Z.of_nat (length m) = detected_size i -> detected_size i <= 2 ^ 24 ->
  length m2 = length m ->
  at_ m2 w2 v mtd2 s2 ->
  exists w3 s3,
    restore_flash_from_sd Sim.board fuel (Some name) s2 = Some (0, s3) /\
    at_ m w3 v true s3.
Proof.
  intros crc h [Hc Hf] Hname HS HS24 Hlen Hat.
  destruct (detected_size_facts i) as [Hpos Hal].
  pose proof (sim_vol _ _ _ _ _ Hat) as Hv.
  destruct (sim_init _ _ _ _ _ (sim_mounted _ _ _ _ _ Hat)) as (si & Ei & Hi).
  assert (Hcrc : in_u32 crc) by apply crc32_update_range.
  assert (Hreach : restore_reaches_header Sim.board fuel (Some name) s2 si name
                     (mkFile dt tm (hdr_bytes h ++ m ++ le32 crc))).
  { unfold restore_reaches_header. rewrite Hv.
    split; [exact Hc|]. split; [eauto|]. split; [|split; [exact Hf|]].
    - destruct name; [discriminate|reflexivity].
    - cbn [file_data]. rewrite length_app, hdr_bytes_length.
      unfold HDR_SIZE. lia. }
  destruct (restore_header_step _ _ _ _ _ _ _ Hreach) as (E & _ & _ & _).
  cbn [file_data] in E.
  rewrite hdr_roundtrip in E
    by (try reflexivity; cbn [h flash_size chunk_size image_size crc32_all];
        unfold CHUNK_BYTES; lia32).
  rewrite E. clear E.
  change (magic h) with FIMG_MAGIC. rewrite bytes_eqb_refl. cbn [negb].
  unfold restore_checked, restore_write.
  change (image_size h) with (detected_size i).
  change (flash_size h) with (detected_size i).
  change (chunk_size h) with 4096.
  change (crc32_all h) with crc.
  destruct (Z.eqb_spec (detected_size i) 0); [lia|].
  cbn [orb Z.eqb].
  assert (Hhp' : 4096 <= hp) by exact Hhp.
  (* the checks on the image *)
  rewrite (sim_malloc _ _ _ _ _ _ Hi Hhp'). cbn [negb].
  rewrite (sim_vol _ _ _ _ _ Hi).
  unfold HDR_SIZE, CHUNK_BYTES in *.
  rewrite (f_lseek_inside name _ 28 v _ Hf)
    by (cbn [file_data]; rewrite length_app, hdr_bytes_length; lia).
  rewrite (restore_crc_loop_ok name v _ 4096 Hf ltac:(lia))
    with (remain := detected_size i).
  2:{ lia32. } 2:{ lia. }
  2:{ cbn [file_data]. rewrite !length_app, hdr_bytes_length. lia. }
  2:{ rewrite Z2Nat.id.
      - pose proof (Z.mul_succ_div_gt (detected_size i) 4096 ltac:(lia)). lia.
      - pose proof (Z.div_pos (detected_size i) 4096 ltac:(lia) ltac:(lia)).
        lia. }
  cbn [Z.eqb negb file_data].
  assert (Epay : firstn (Z.to_nat (detected_size i))
                   (skipn (Z.to_nat 28) (hdr_bytes h ++ m ++ le32 crc)) = m).
  { change (Z.to_nat 28) with (28 + 0)%nat.
    rewrite payload_chunk by (rewrite ?hdr_bytes_length; lia).
    cbn [skipn]. apply firstn_all2. lia. }
  rewrite Epay. fold crc.
  destruct (f_read_inside name (Z.to_nat 28 + Z.to_nat (detected_size i)) 4
              v _ Hf ltac:(lia)) as [E4 L4].
  { cbn [file_data]. rewrite !length_app, hdr_bytes_length.
    cbn [le32 length]. lia. }
  cbn [file_data] in E4, L4.
  assert (Etr : firstn (Z.to_nat 4)
                  (skipn (Z.to_nat 28 + Z.to_nat (detected_size i))
                     (hdr_bytes h ++ m ++ le32 crc)) = le32 crc).
  { rewrite app_assoc, skipn_app.
    rewrite skipn_all2 by (rewrite length_app, hdr_bytes_length; lia).
    rewrite length_app, hdr_bytes_length.
    replace (Z.to_nat 28 + Z.to_nat (detected_size i) - (28 + length m))%nat
      with 0%nat by lia.
    reflexivity. }
  rewrite Etr in E4. rewrite E4. cbn [fr_ok negb orb le32 length Z.of_nat
    Pos.of_succ_nat Pos.succ Z.eqb Pos.eqb].
  change (rd32 (le32 crc)) with (rd32 (le32 crc ++ [])).
  rewrite (rd32_le32 crc [] Hcrc).
  rewrite Z.eqb_refl. cbn [negb orb].
  (* erase, program, verify *)
  unfold FLASH_SECTOR_SIZE.
  rewrite <- HS, <- Hlen.
  destruct (sim_erase_loop m2 v true ltac:(lia) ltac:(rewrite Hlen, HS; exact Hal)
              (Z.to_nat (Z.of_nat (length m2) / 4096 + 1)) 0 false si)
    as (w4 & s4 & -> & H4).
  { lia. } { reflexivity. }
  { rewrite Z2Nat.id.
    - pose proof (Z.mul_succ_div_gt (Z.of_nat (length m2)) 4096 ltac:(lia)).
      lia.
    - pose proof (Z.div_pos (Z.of_nat (length m2)) 4096 ltac:(lia) ltac:(lia)).
      lia. }
  { cbn [Z.to_nat repeat skipn app]. exact Hi. }
  cbn [negb]. rewrite (sim_vol _ _ _ _ _ H4).
  rewrite (f_lseek_inside name _ 28 v _ Hf)
    by (cbn [file_data]; rewrite length_app, hdr_bytes_length; lia).
  destruct (sim_program_loop name dt tm (hdr_bytes h) m (le32 crc) v true 4096
              (conj Hc Hf) (hdr_bytes_length h) ltac:(lia) ltac:(lia)
              (Z.to_nat (Z.of_nat (length m2) / 4096 + 1)) 0
              (Z.of_nat (length m2)) w4 s4)
    as (w5 & s5 & E5 & H5).
  { lia. } { lia. } { lia. }
  { rewrite Z2Nat.id.
    - pose proof (Z.mul_succ_div_gt (Z.of_nat (length m2)) 4096 ltac:(lia)).
      lia.
    - pose proof (Z.div_pos (Z.of_nat (length m2)) 4096 ltac:(lia) ltac:(lia)).
      lia. }
  { cbn [Z.to_nat firstn app]. rewrite Nat2Z.id. exact H4. }
  change (mkFIL name (28 + Z.to_nat 0)) with (mkFIL name (Z.to_nat 28)) in E5.
  rewrite E5. cbn [Z.eqb negb].
  unfold crc32_over_flash.
  destruct (Z.eqb_spec 4096 0); [lia|].
  rewrite (sim_malloc _ _ _ _ _ _ H5 Hhp'). cbn [negb].
  destruct (sim_crc_flash_loop m w5 v true 4096 ltac:(lia) ltac:(lia)
              (Z.to_nat (Z.of_nat (length m2) / 4096 + 1)) 0
              (Z.of_nat (length m2)) 0 s5)
    as (s6 & E6 & H6).
  { lia32. } { lia. } { lia. } { lia. }
  { rewrite Z2Nat.id.
    - pose proof (Z.mul_succ_div_gt (Z.of_nat (length m2)) 4096 ltac:(lia)).
      lia.
    - pose proof (Z.div_pos (Z.of_nat (length m2)) 4096 ltac:(lia) ltac:(lia)).
      lia. }
  { exact H5. }
  rewrite E6. cbn [Z.to_nat skipn Z.eqb negb]. fold crc.
  rewrite Z.eqb_refl. cbn [negb].
  exists w5, s6. split; [reflexivity|exact H6].
Qed.


End Synthetic.

(* ================================================================= *)
(** ** Further properties: the driver and the pipelines on any board *)

Lemma forallb_app_true (A : Type) (p : A -> bool) (a b : list A) :
  forallb p a = true -> forallb p b = true -> forallb p (a ++ b) = true.
Proof. intros Ha Hb. rewrite forallb_app, Ha, Hb. reflexivity. Qed.

Lemma emits_refl (W : Type) (s : state W) : emits s s [].
Proof.
  exists []. rewrite app_nil_r.
  split; [reflexivity|]. split; [apply balanced_nil|reflexivity].
Qed.

Lemma emits_trans (W : Type) (s s1 s2 : state W) (G1 G2 : list (list byte)) :
  emits s s1 G1 -> emits s1 s2 G2 -> emits s s2 (G1 ++ G2).
Proof.
  intros (a1 & E1 & B1 & H1) (a2 & E2 & B2 & H2).
  exists (a1 ++ a2). split; [|split].
  - rewrite E2, E1, app_assoc. reflexivity.
  - apply balanced_app; assumption.
  - rewrite (frames_balanced_app a1 a2 B1), significant_app, H1, H2.
    reflexivity.
Qed.

Lemma emits_same_bus (W : Type) (s s1 s2 : state W) (G : list (list byte)) :
  emits s s1 G -> st_bus s2 = st_bus s1 -> emits s s2 G.
Proof.
  intros (a & E & Ba & H) E2. exists a. rewrite E2. auto.
Qed.

Lemma runs_emits (W : Type) (s s' : state W) (G : list (list byte)) :
  runs s s' G -> emits s s' G.
Proof. intros (_ & _ & H). exact H. Qed.

Lemma emits_bus_since (W : Type) (s s' : state W) (G : list (list byte)) :
  emits s s' G -> significant (frames (bus_since s s')) = G.
Proof.
  intros (a & E & _ & H). unfold bus_since.
  rewrite E, skipn_app, skipn_all, Nat.sub_diag. exact H.
Qed.

(** A destructive frame is never a poll, so what holds of the frames polls
    apart holds of all. *)
Lemma significant_harmless (F : list (list byte)) :
  forallb (fun f => negb (destructive f)) (significant F) = true ->
  forallb (fun f => negb (destructive f)) F = true.
Proof.
  intros HG. apply forallb_forall. intros f Hf.
  destruct (destructive f) eqn:D; [|reflexivity].
  rewrite forallb_forall in HG.
  assert (Hs : In f (significant F)).
  { unfold significant. apply filter_In. split; [exact Hf|].
    apply destructive_significant, D. }
  apply HG in Hs. rewrite D in Hs. discriminate Hs.
Qed.

Section BusFacts.

Variable B : Board.
Variable fuel : nat.

Local Abbreviation state := (state (hw B)).

(** *** flash_dut_read *)

Lemma runs_read (addr : Z) (len : nat) (s : state) :
  (0 < len)%nat ->
  runs s (snd (flash_dut_read B addr len s))
    (significant [cmd_addr CMD_READ addr ++ repeat x00 len]).
Proof.
  intros H. unfold flash_dut_read.
  destruct (Nat.eqb_spec len 0) as [->|_]; [lia|].
  unfold flash_cs_low, flash_cs_high, gpio_put_cs, spi_write_blocking,
    spi_read_blocking, on_bus.
  cbn [st_hw st_bus st_vol st_mounted].
  destruct (bd_read B len _) as [rx h].
  cbn [fst snd st_hw st_bus st_vol st_mounted].
  split; [reflexivity|]. split; [reflexivity|].
  eexists. split; [rewrite <- ?app_assoc; cbn [app]; reflexivity|].
  split; [intros k; reflexivity | reflexivity].
Qed.

(** X1. A read of length 0 returns failure and leaves the state, bus log
    included, as it was. A read of a positive length returns success with
    exactly that many bytes and puts one frame on the bus: the read opcode,
    three address bytes and a zero for every byte read; the address in the
    frame is the low 24 bits of the address passed. *)
Theorem flash_dut_read_frame (addr : Z) (len : nat) (s : state) :
  flash_dut_read B addr 0 s = (false, [], s) /\
  ((0 < len)%nat ->
   fst (fst (flash_dut_read B addr len s)) = true /\
   length (snd (fst (flash_dut_read B addr len s))) = len /\
   frames (bus_since s (snd (flash_dut_read B addr len s)))
     = [cmd_addr CMD_READ addr ++ repeat x00 len] /\
   (0 <= addr ->
    frame_addr (cmd_addr CMD_READ addr ++ repeat x00 len) = addr mod 2 ^ 24)).
Proof.
  split; [reflexivity|]. intros H.
  unfold flash_dut_read.
  destruct (Nat.eqb_spec len 0) as [->|_]; [lia|].
  unfold flash_cs_low, flash_cs_high, gpio_put_cs, spi_write_blocking,
    spi_read_blocking, on_bus, bus_since.
  cbn [st_hw st_bus st_vol st_mounted].
  destruct (bd_read B len _) as [rx h].
  cbn [fst snd st_hw st_bus st_vol st_mounted].
  split; [reflexivity|]. split; [apply length_fit|]. split.
  - rewrite <- !app_assoc. rewrite skipn_app, skipn_all, Nat.sub_diag.
    reflexivity.
  - apply frame_addr_mod.
Qed.


(** *** flash_wait_busy_timeout *)

Lemma wait_busy_loop_polls (k : nat) (t t0 : Z) (s s' : state) (r : bool) :
  wait_busy_loop B k t t0 s = Some (r, s') ->
  exists n, (1 <= n <= k)%nat /\
    exists added, st_bus s' = st_bus s ++ added /\ balanced added /\
      frames added = repeat [CMD_RDSR1; x00] n.
Proof.
  revert s. induction k as [|k IH]; intros s H; simpl in H; [discriminate|].
  assert (P : exists a, st_bus (snd (flash_read_sr1 B s)) = st_bus s ++ a /\
                balanced a /\ frames a = [[CMD_RDSR1; x00]]).
  { unfold flash_read_sr1, flash_cs_low, flash_cs_high, gpio_put_cs,
      spi_write_read_blocking, on_bus.
    cbn [st_hw st_bus]. destruct (bd_write_read B _ _) as [rx h].
    cbn [snd st_bus]. eexists. split; [rewrite <- !app_assoc; reflexivity|].
    split; [intros q; reflexivity|reflexivity]. }
  destruct (flash_read_sr1 B s) as [sr s1]. cbn [snd] in P.
  destruct P as (a & Ea & Ba & Fa).
  destruct (Z.land (b2z sr) 1 =? 0).
  - injection H as <- <-. exists 1%nat. split; [lia|].
    exists a. auto.
  - assert (N : st_bus (snd (to_ms_since_boot B s1)) = st_bus s1).
    { unfold to_ms_since_boot. destruct (bd_now B _). reflexivity. }
    destruct (to_ms_since_boot B s1) as [now s2]. cbn [snd] in N.
    destruct (u32 (now - t0) >? t).
    + injection H as <- <-. exists 1%nat. split; [lia|].
      exists a. rewrite N. auto.
    + destruct (IH _ H) as (n & Hn & a' & Ea' & Ba' & Fa').
      exists (S n). split; [lia|].
      exists (a ++ a'). split; [|split].
      * rewrite Ea', N, Ea, app_assoc. reflexivity.
      * apply balanced_app; assumption.
      * rewrite (frames_balanced_app _ _ Ba), Fa, Fa'. reflexivity.
Qed.

(** X2. A busy-wait that returns has put on the bus polls of status register
    1 and nothing else, at least one of them even with a time-out of 0, and
    has left the card and the mount flag alone. *)
Theorem wait_busy_polls_only (t : Z) (s s' : state) (r : bool) :
  flash_wait_busy_timeout B fuel t s = Some (r, s') ->
  exists n, (1 <= n <= fuel)%nat /\
    frames (bus_since s s') = repeat [CMD_RDSR1; x00] n /\
    st_vol s' = st_vol s /\ st_mounted s' = st_mounted s.
Proof.
  unfold flash_wait_busy_timeout. intros H.
  assert (N : st_bus (snd (to_ms_since_boot B s)) = st_bus s).
  { unfold to_ms_since_boot. destruct (bd_now B _). reflexivity. }
  pose proof (runs_now B s) as R0.
  destruct (to_ms_since_boot B s) as [t0 s1]. cbn [snd] in N, R0.
  pose proof (runs_wait_loop _ _ _ _ _ _ _ H) as R1.
  destruct (wait_busy_loop_polls _ _ _ _ _ _ H) as (n & Hn & a & Ea & _ & Fa).
  exists n. split; [exact Hn|]. split.
  - unfold bus_since. rewrite Ea, N, skipn_app, skipn_all, Nat.sub_diag.
    exact Fa.
  - destruct R0 as (V0 & M0 & _), R1 as (V1 & M1 & _). split; congruence.
Qed.


(** X3. Whenever a sector erase returns, the frames it put on the bus, polls
    apart, are one of three sequences: the unprotect and one erase command
    (success); those, the recovery and a second erase command for the same
    address (success); or all these and a last read of status register 2
    (failure). There is never a third erase command, and no failure before
    the second. *)
Theorem erase_4k_frames (addr : Z) (s s' : state) (r : bool) :
  flash_dut_erase_4k B fuel addr s = Some (r, s') ->
  let once := unprotect_frames ++ [[CMD_WREN]; cmd_addr CMD_SE_4K addr] in
  let again :=
    [[CMD_RDSR2; x00]; [CMD_RESUME]; [CMD_RSTEN]; [CMD_RST]] ++ once in
  (r = true /\ significant (frames (bus_since s s')) = once) \/
  (r = true /\ significant (frames (bus_since s s')) = once ++ again) \/
  (r = false /\
   significant (frames (bus_since s s')) = once ++ again ++ [[CMD_RDSR2; x00]]).
Proof.
  intros H once again. rewrite erase_4k_stages in H.
  destruct (erase_first B fuel addr s) as [s1|] eqn:H1; [|discriminate].
  pose proof (runs_erase_first _ _ _ _ _ H1) as R1.
  destruct (flash_wait_busy_timeout B fuel 2000 s1) as [[[|] s2]|] eqn:W1;
    [| |discriminate].
  { injection H as <- <-. left. split; [reflexivity|].
    apply runs_bus_since.
    eapply runs_eq;
      [eapply runs_trans; [exact R1|apply (runs_wait _ _ _ _ _ _ W1)]|].
    apply app_nil_r. }
  assert (R2 : runs s s2 once).
  { eapply runs_eq;
      [eapply runs_trans; [exact R1|apply (runs_wait _ _ _ _ _ _ W1)]|].
    apply app_nil_r. }
  destruct (erase_retry B fuel addr s2) as [s3|] eqn:H2; [|discriminate].
  pose proof (runs_erase_retry _ _ _ _ _ H2) as R3.
  destruct (flash_wait_busy_timeout B fuel 3000 s3) as [[[|] s4]|] eqn:W2;
    [| |discriminate].
  - injection H as <- <-. right. left. split; [reflexivity|].
    apply runs_bus_since.
    eapply runs_eq.
    + eapply runs_trans; [exact R2|].
      eapply runs_trans; [exact R3|apply (runs_wait _ _ _ _ _ _ W2)].
    + rewrite app_nil_r. reflexivity.
  - injection H as <- <-. right. right. split; [reflexivity|].
    apply runs_bus_since.
    eapply runs_eq.
    + eapply runs_trans; [exact R2|].
      eapply runs_trans; [exact R3|].
      eapply runs_trans; [apply (runs_wait _ _ _ _ _ _ W2)|].
      apply runs_erase_give_up.
    + reflexivity.
Qed.


(** *** The stages of the write of a restore *)

Lemma runs_within_refl (P : list byte -> bool) (s : state) :
  runs_within P s s.
Proof. exists []. split; [apply runs_refl|reflexivity]. Qed.

Lemma runs_within_trans (P : list byte -> bool) (s s1 s2 : state) :
  runs_within P s s1 -> runs_within P s1 s2 -> runs_within P s s2.
Proof.
  intros (G1 & R1 & F1) (G2 & R2 & F2). exists (G1 ++ G2).
  split; [apply (runs_trans _ _ _ _ _ _ R1 R2)|].
  apply forallb_app_true; assumption.
Qed.

Lemma runs_within_of (P : list byte -> bool) (s s' : state)
  (G : list (list byte)) :
  runs s s' G -> forallb P G = true -> runs_within P s s'.
Proof. intros R F. exists G. auto. Qed.

Lemma erase_4k_runs (addr : Z) (s s' : state) (r : bool) :
  flash_dut_erase_4k B fuel addr s = Some (r, s') ->
  runs_within erase_stage s s'.
Proof.
  intros H. rewrite erase_4k_stages in H.
  destruct (erase_first B fuel addr s) as [s1|] eqn:H1; [|discriminate].
  assert (R1 : runs_within erase_stage s s1).
  { apply (runs_within_of _ _ _ _ (runs_erase_first _ _ _ _ _ H1)).
    reflexivity. }
  assert (W : forall t sa sb rb,
             flash_wait_busy_timeout B fuel t sa = Some (rb, sb) ->
             runs_within erase_stage sa sb).
  { intros t sa sb rb Hw.
    apply (runs_within_of _ _ _ _ (runs_wait _ _ _ _ _ _ Hw)). reflexivity. }
  destruct (flash_wait_busy_timeout B fuel 2000 s1) as [[[|] s2]|] eqn:W1;
    [| |discriminate].
  { injection H as <- <-. apply (runs_within_trans _ _ _ _ R1 (W _ _ _ _ W1)). }
  destruct (erase_retry B fuel addr s2) as [s3|] eqn:H2; [|discriminate].
  assert (R3 : runs_within erase_stage s s3).
  { apply (runs_within_trans _ _ _ _ R1).
    apply (runs_within_trans _ _ _ _ (W _ _ _ _ W1)).
    apply (runs_within_of _ _ _ _ (runs_erase_retry _ _ _ _ _ H2)).
    reflexivity. }
  destruct (flash_wait_busy_timeout B fuel 3000 s3) as [[[|] s4]|] eqn:W2;
    [| |discriminate]; injection H as <- <-.
  - apply (runs_within_trans _ _ _ _ R3 (W _ _ _ _ W2)).
  - apply (runs_within_trans _ _ _ _ R3).
    apply (runs_within_trans _ _ _ _ (W _ _ _ _ W2)).
    apply (runs_within_of _ _ _ _ (runs_erase_give_up _ s4)). reflexivity.
Qed.

Lemma program_page_runs (addr : Z) (data : option (list byte))
  (s s' : state) (r : bool) :
  flash_dut_program_page B fuel addr data s = Some (r, s') ->
  runs_within program_stage s s'.
Proof.
  intros H. destruct data as [d|].
  - unfold flash_dut_program_page in H.
    destruct ((Z.of_nat (length d) =? 0)
              || (Z.of_nat (length d) >? FLASH_PAGE_SIZE)) eqn:E.
    + injection H as <- <-. apply runs_within_refl.
    + apply (runs_within_of _ _ _
               ([[CMD_WREN]; cmd_addr CMD_PP addr ++ d] ++ [])).
      * eapply runs_trans;
          [apply (runs_pp_issue B addr d s)|apply (runs_wait _ _ _ _ _ _ H)].
      * reflexivity.
  - injection H as <- <-. apply runs_within_refl.
Qed.

Lemma restore_erase_loop_runs (k : nat) (a fs : Z) (s s' : state) (r : bool) :
  restore_erase_loop B fuel k a fs s = Some (r, s') ->
  runs_within erase_stage s s'.
Proof.
  revert a s. induction k as [|k IH]; intros a s H;
    cbn [restore_erase_loop] in H.
  - destruct (a <? fs); [discriminate|]. injection H as <- <-.
    apply runs_within_refl.
  - destruct (a <? fs).
    + destruct (flash_dut_erase_4k B fuel a s) as [[ok s1]|] eqn:E;
        [|discriminate].
      pose proof (erase_4k_runs _ _ _ _ E) as R1.
      destruct ok; cbn [negb] in H.
      * apply (runs_within_trans _ _ _ _ R1 (IH _ _ H)).
      * injection H as <- <-. exact R1.
    + injection H as <- <-. apply runs_within_refl.
Qed.

Lemma program_pages_runs (k : nat) (addr : Z) (buf : list byte) (n off : Z)
  (s s' : state) (r : bool) :
  program_pages B fuel k addr buf n off s = Some (r, s') ->
  runs_within program_stage s s'.
Proof.
  revert off s. induction k as [|k IH]; intros off s H;
    cbn [program_pages] in H.
  - destruct (off <? n); [discriminate|]. injection H as <- <-.
    apply runs_within_refl.
  - destruct (off <? n).
    + match type of H with
      | context [flash_dut_program_page _ _ ?a ?d s] =>
          destruct (flash_dut_program_page B fuel a d s) as [[ok s1]|] eqn:E;
            [|discriminate]
      end.
      pose proof (program_page_runs _ _ _ _ _ E) as R1.
      destruct ok; cbn [negb] in H.
      * apply (runs_within_trans _ _ _ _ R1 (IH _ _ H)).
      * injection H as <- <-. exact R1.
    + injection H as <- <-. apply runs_within_refl.
Qed.

Lemma restore_program_loop_runs (k : nat) (fp : FIL) (c addr remain : Z)
  (s s' : state) (rc : Z) :
  restore_program_loop B fuel k fp c addr remain s = Some (rc, s') ->
  (rc = 0 \/ rc = -12 \/ rc = -13) /\ runs_within program_stage s s'.
Proof.
  revert fp addr remain s.
  induction k as [|k IH]; intros fp addr remain s H;
    cbn [restore_program_loop] in H.
  - destruct (remain =? 0); [|discriminate]. injection H as <- <-.
    split; [auto|]. apply runs_within_refl.
  - destruct (remain =? 0).
    { injection H as <- <-. split; [auto|]. apply runs_within_refl. }
    set (n := if remain >? c then c else remain) in H.
    destruct (f_read fp n (st_vol s)) as [[fr buf] fp1] eqn:F.
    destruct (negb (fr_ok fr) || negb (Z.of_nat (length buf) =? n)).
    { injection H as <- <-. split; [auto|]. apply runs_within_refl. }
    destruct (program_pages B fuel (Z.to_nat n) addr buf n 0 s)
      as [[ok s1]|] eqn:P; [|discriminate].
    pose proof (program_pages_runs _ _ _ _ _ _ _ _ P) as R1.
    destruct ok; cbn [negb] in H.
    + destruct (IH _ _ _ _ H) as (St & R2).
      split; [exact St|]. apply (runs_within_trans _ _ _ _ R1 R2).
    + injection H as <- <-. split; [auto|]. exact R1.
Qed.

Lemma crc32_flash_loop_runs (k : nat) (c crc addr remain : Z)
  (s s' : state) (rc crc' : Z) :
  crc32_flash_loop B k c crc addr remain s = Some (rc, crc', s') ->
  runs_within read_stage s s'.
Proof.
  revert crc addr remain s.
  induction k as [|k IH]; intros crc addr remain s H;
    cbn [crc32_flash_loop] in H.
  - destruct (remain =? 0); [|discriminate]. injection H as <- <- <-.
    apply runs_within_refl.
  - destruct (remain =? 0).
    { injection H as <- <- <-. apply runs_within_refl. }
    set (n := if remain >? c then c else remain) in H.
    destruct (Nat.eq_dec (Z.to_nat n) 0) as [E0|E0].
    + unfold flash_dut_read in H. rewrite E0 in H. cbn in H.
      injection H as <- <- <-. apply runs_within_refl.
    + assert (R1 : runs_within read_stage s
                     (snd (flash_dut_read B addr (Z.to_nat n) s))).
      { apply (runs_within_of _ _ _ _
                 (runs_read addr (Z.to_nat n) s ltac:(lia))). reflexivity. }
      destruct (flash_dut_read B addr (Z.to_nat n) s) as [[ok buf] s1].
      cbn [snd] in R1. destruct ok; cbn [negb] in H.
      * apply (runs_within_trans _ _ _ _ R1 (IH _ _ _ _ H)).
      * injection H as <- <- <-. exact R1.
Qed.

(** The write of a restore goes through its stages in order: erases, then
    page programs, then the reads of the verification. *)
Lemma restore_write_stages (h : flashimg_hdr_t) (fp : FIL) (s s' : state)
  (rc : Z) :
  restore_write B fuel h fp s = Some (rc, s') ->
  (rc = 0 \/ -15 <= rc <= -11) /\
  exists s1 s2,
    runs_within erase_stage s s1 /\
    runs_within program_stage s1 s2 /\
    runs_within read_stage s2 s' /\
    (rc = -11 -> s2 = s1) /\ (rc = -11 \/ rc = -12 \/ rc = -13 -> s' = s2).
Proof.
  unfold restore_write. intros H.
  destruct (restore_erase_loop B fuel _ 0 (flash_size h) s)
    as [[ok s1]|] eqn:E; [|discriminate].
  pose proof (restore_erase_loop_runs _ _ _ _ _ _ E) as R1.
  destruct ok; cbn [negb] in H.
  2:{ injection H as <- <-. split; [lia|]. exists s1, s1.
      split; [exact R1|]. split; [apply runs_within_refl|].
      split; [apply runs_within_refl|]. auto. }
  destruct (restore_program_loop B fuel _ _ (chunk_size h) 0 (image_size h) s1)
    as [[rc1 s2]|] eqn:P; [|discriminate].
  destruct (restore_program_loop_runs _ _ _ _ _ _ _ _ P) as (St & R2).
  destruct (Z.eqb_spec rc1 0) as [->|N]; cbn [negb] in H.
  2:{ injection H as <- <-. split; [lia|]. exists s1, s2.
      split; [exact R1|]. split; [exact R2|].
      split; [apply runs_within_refl|]. split; [lia|auto]. }
  destruct (crc32_over_flash B (image_size h) (chunk_size h) s2)
    as [[[crc_rc crc_flash] s3]|] eqn:C; [|discriminate].
  assert (R3 : runs_within read_stage s2 s3).
  { unfold crc32_over_flash in C.
    destruct (chunk_size h =? 0).
    { injection C as _ _ <-. apply runs_within_refl. }
    destruct (negb (malloc B (chunk_size h) s2)).
    { injection C as _ _ <-. apply runs_within_refl. }
    apply (crc32_flash_loop_runs _ _ _ _ _ _ _ _ _ C). }
  assert (Done : forall rc0, rc0 = 0 \/ rc0 = -14 \/ rc0 = -15 ->
             (rc0 = 0 \/ -15 <= rc0 <= -11) /\
             exists sa sb,
               runs_within erase_stage s sa /\
               runs_within program_stage sa sb /\
               runs_within read_stage sb s3 /\
               (rc0 = -11 -> sb = sa) /\
               (rc0 = -11 \/ rc0 = -12 \/ rc0 = -13 -> s3 = sb)).
  { intros rc0 Hr. split; [lia|]. exists s1, s2.
    split; [exact R1|]. split; [exact R2|]. split; [exact R3|].
    split; intros; lia. }
  destruct (negb (crc_rc =? 0)).
  { injection H as <- <-. apply Done. auto. }
  destruct (negb (crc_flash =? crc32_all h)); injection H as <- <-;
    apply Done; auto.
Qed.

Lemma runs_within_card (P : list byte -> bool) (s s' : state) :
  runs_within P s s' ->
  st_vol s' = st_vol s /\ st_mounted s' = st_mounted s.
Proof. intros (G & (V & M & _) & _). auto. Qed.

Lemma restore_write_runs (h : flashimg_hdr_t) (fp : FIL) (s s' : state)
  (rc : Z) :
  restore_write B fuel h fp s = Some (rc, s') ->
  (rc = 0 \/ -15 <= rc <= -11) /\ exists G, runs s s' G.
Proof.
  intros H.
  destruct (restore_write_stages _ _ _ _ _ H)
    as (St & s1 & s2 & (G1 & R1 & _) & (G2 & R2 & _) & (G3 & R3 & _) & _).
  split; [exact St|]. eexists.
  eapply runs_trans; [exact R1|]. eapply runs_trans; [exact R2|exact R3].
Qed.

(** X4. Whenever the write of a restore returns, the frames it put on the
    bus, polls apart, fall into three consecutive stretches: first frames
    that are neither page programs nor reads, then write-enables and page
    programs only, then reads only. A failed erase (-11) ends it before
    anything is programmed, a failed program pass (-12, -13) before
    anything is read back. *)
Theorem restore_write_phases (h : flashimg_hdr_t) (fp : FIL) (s s' : state)
  (rc : Z) :
  restore_write B fuel h fp s = Some (rc, s') ->
  exists GE GP GR,
    significant (frames (bus_since s s')) = GE ++ GP ++ GR /\
    forallb erase_stage GE = true /\
    forallb program_stage GP = true /\
    forallb read_stage GR = true /\
    (rc = -11 -> GP = [] /\ GR = []) /\
    (rc = -12 \/ rc = -13 -> GR = []).
Proof.
  intros H.
  destruct (restore_write_stages _ _ _ _ _ H)
    as (St & s1 & s2 & (G1 & R1 & F1) & (G2 & R2 & F2) & (G3 & R3 & F3)
        & E1 & E2).
  assert (Same : forall (sa : state) G, runs sa sa G -> G = []).
  { intros sa G R. apply runs_bus_since in R. rewrite <- R.
    unfold bus_since. rewrite skipn_all. reflexivity. }
  exists G1, G2, G3. split; [|split; [exact F1|split; [exact F2|split;
                                       [exact F3|split]]]].
  - apply runs_bus_since.
    eapply runs_trans; [exact R1|]. eapply runs_trans; [exact R2|exact R3].
  - intros ->. specialize (E1 eq_refl). specialize (E2 (or_introl eq_refl)).
    subst s2 s'. split; [apply (Same _ _ R2)|apply (Same _ _ R3)].
  - intros Hr. assert (E : s' = s2) by (apply E2; tauto).
    subst s'. apply (Same _ _ R3).
Qed.

Lemma restore_crc_loop_status (k : nat) (fp fp' : FIL) (c crc remain : Z)
  (v : volume) (rc crc' : Z) :
  restore_crc_loop k fp c crc remain v = Some (rc, crc', fp') ->
  rc = 0 \/ rc = -8.
Proof.
  revert fp crc remain.
  induction k as [|k IH]; intros fp crc remain H; cbn [restore_crc_loop] in H.
  - destruct (remain =? 0); [|discriminate]. injection H as <- _ _. auto.
  - destruct (remain =? 0); [injection H as <- _ _; auto|].
    destruct (f_read fp _ v) as [[fr buf] fp1].
    destruct (negb (fr_ok fr) || negb (Z.of_nat (length buf) =? _)).
    + injection H as <- _ _. auto.
    + apply (IH _ _ _ H).
Qed.

Lemma restore_checked_cases (h : flashimg_hdr_t) (fp : FIL) (s s' : state)
  (rc : Z) :
  restore_checked B fuel h fp s = Some (rc, s') ->
  (-10 <= rc <= -7 /\ s' = s) \/
  ((rc = 0 \/ -15 <= rc <= -11) /\ exists G, runs s s' G).
Proof.
  unfold restore_checked. intros H.
  destruct (negb (malloc B (chunk_size h) s)).
  { injection H as <- <-. left. split; [lia|reflexivity]. }
  destruct (restore_crc_loop _ _ (chunk_size h) 0 (image_size h) (st_vol s))
    as [[[rc1 crc_calc] fp1]|] eqn:C; [|discriminate].
  destruct (restore_crc_loop_status _ _ _ _ _ _ _ _ _ C) as [-> | ->];
    cbn [Z.eqb negb] in H.
  2:{ injection H as <- <-. left. split; [lia|reflexivity]. }
  destruct (f_read fp1 4 (st_vol s)) as [[fr tb] fp2].
  destruct (negb (fr_ok fr) || negb (Z.of_nat (length tb) =? 4)).
  { injection H as <- <-. left. split; [lia|reflexivity]. }
  destruct (negb (crc_calc =? rd32 tb) || negb (crc_calc =? crc32_all h)).
  { injection H as <- <-. left. split; [lia|reflexivity]. }
  right. apply (restore_write_runs _ _ _ _ _ H).
Qed.

Lemma fs_mount_once_cases (s : state) :
  (fs_mount_once B s = (false, s) /\
   st_mounted s = false /\ card_ready (st_vol s) = false) \/
  fs_mount_once B s = (true, mounted s).
Proof.
  unfold fs_mount_once, mounted, f_mount. destruct s as [h b v m]. cbn.
  destruct m; [right; reflexivity|].
  destruct (card_ready v); [right|left]; auto.
Qed.

(** The outcomes of [restore_flash_from_sd]: an early abort at [s] itself,
    an abort after the initialisation at [si], or a write that went on from
    [si]. *)
Lemma restore_outcomes (name : option string) (s s' : state) (rc : Z) :
  restore_flash_from_sd B fuel name s = Some (rc, s') ->
  (rc = -1 /\ s' = s /\
   st_mounted s = false /\ card_ready (st_vol s) = false) \/
  exists si, flash_dut_init B fuel (mounted s) = Some (true, si) /\
    ((-10 <= rc <= -3 /\ s' = si) \/
     ((rc = 0 \/ -15 <= rc <= -11) /\ exists G, runs si s' G)).
Proof.
  unfold restore_flash_from_sd. intros H.
  destruct (fs_mount_once_cases s) as [[M Mf]|M]; rewrite M in H;
    cbn [negb] in H.
  { injection H as <- <-. left. tauto. }
  right.
  destruct (flash_dut_init B fuel (mounted s)) as [[ok si]|] eqn:I;
    [|discriminate].
  destruct (runs_init _ _ _ _ _ I) as (-> & RI). cbn [negb] in H.
  exists si. split; [reflexivity|].
  destruct (restore_target name (st_vol si)) as [rc0 nm].
  destruct (negb (rc0 =? 0)).
  { injection H as <- <-. left. split; [lia|reflexivity]. }
  destruct (f_open nm FA_READ (st_vol si)) as [[fr fp] v0].
  destruct (negb (fr_ok fr)).
  { injection H as <- <-. left. split; [lia|reflexivity]. }
  destruct (f_read fp HDR_SIZE (st_vol si)) as [[fr1 hb] fp1].
  match type of H with
  | (if ?c then _ else _) = _ => destruct c
  end.
  { injection H as <- <-. left. split; [lia|reflexivity]. }
  match type of H with
  | (if ?c then _ else _) = _ => destruct c
  end.
  { injection H as <- <-. left. split; [lia|reflexivity]. }
  destruct (restore_checked_cases _ _ _ _ _ H) as [[St ->]|[St R]].
  - left. split; [lia|reflexivity].
  - right. auto.
Qed.

(** X5. Whenever restore returns, its status lies between -15 and 0 and is
    never -2 (the initialisation of the flash cannot fail); the card holds
    what it held before; and unless the status is -1 the mount flag is
    set. *)
Theorem restore_keeps_card (name : option string) (s s' : state) (rc : Z) :
  restore_flash_from_sd B fuel name s = Some (rc, s') ->
  (-15 <= rc <= 0 /\ rc <> -2) /\
  st_vol s' = st_vol s /\
  (rc <> -1 -> st_mounted s' = true).
Proof.
  intros H.
  destruct (restore_outcomes _ _ _ _ H)
    as [(-> & -> & _)|(si & I & [[St ->]|[St (G & R)]])].
  - split; [lia|]. split; [reflexivity|]. intros N. lia.
  - destruct (runs_init _ _ _ _ _ I) as (_ & V & M & _).
    split; [lia|]. split; [exact V|]. intros _. exact M.
  - destruct (runs_init _ _ _ _ _ I) as (_ & V & M & _).
    destruct R as (V' & M' & _).
    split; [lia|]. split; [rewrite V'; exact V|]. intros _.
    rewrite M'. exact M.
Qed.

(** X6. A restore that returns a status from -1 to -10 has put on the bus,
    polls apart, nothing (status -1) or the frames of the initialisation
    and no others: no sector erase and no page program, whatever the board
    and the card. *)
Theorem restore_early_abort_bus (name : option string) (s s' : state)
  (rc : Z) :
  restore_flash_from_sd B fuel name s = Some (rc, s') ->
  -10 <= rc <= -1 ->
  significant (frames (bus_since s s'))
    = (if rc =? -1 then [] else init_frames) /\
  forallb (fun f => negb (destructive f)) (frames (bus_since s s')) = true.
Proof.
  intros H St.
  destruct (restore_outcomes _ _ _ _ H)
    as [(-> & -> & _)|(si & I & [[St' ->]|[St' _]])].
  - unfold bus_since. rewrite skipn_all. split; reflexivity.
  - destruct (runs_init _ _ _ _ _ I) as (_ & R).
    destruct (Z.eqb_spec rc (-1)); [lia|].
    change (bus_since s si) with (bus_since (mounted s) si).
    split; [apply (runs_bus_since _ _ _ _ R)|].
    apply significant_harmless.
    rewrite (runs_bus_since _ _ _ _ R). reflexivity.
  - lia.
Qed.


(** *** Backup *)

Lemma lookup_store_other (p q : string) (f : file) (fs : list (string * file)) :
  q <> p -> lookup_file q (store_file p f fs) = lookup_file q fs.
Proof.
  intros N. induction fs as [|[r g] fs IH]; cbn [store_file lookup_file].
  - destruct (String.eqb_spec p q); [congruence|reflexivity].
  - destruct (String.eqb_spec r p) as [->|Np]; cbn [lookup_file].
    + destruct (String.eqb_spec p q); [congruence|reflexivity].
    + destruct (String.eqb r q); [reflexivity|exact IH].
Qed.

Lemma same_but_refl (p : string) (v : volume) : same_but p v v.
Proof. repeat split; auto. Qed.

Lemma same_but_trans (p : string) (v1 v2 v3 : volume) :
  same_but p v1 v2 -> same_but p v2 v3 -> same_but p v1 v3.
Proof.
  intros (C1 & T1 & F1 & L1) (C2 & T2 & F2 & L2).
  split; [congruence|]. split; [congruence|]. split; [auto|].
  intros q N. rewrite (L2 q N). apply (L1 q N).
Qed.

Lemma f_write_same_but (fp : FIL) (buf : list byte) (v : volume) :
  same_but (fil_path fp) v (snd (f_write fp buf v)) /\
  fil_path (snd (fst (f_write fp buf v))) = fil_path fp.
Proof.
  unfold f_write.
  destruct (lookup_file (fil_path fp) (files v)) as [f|]; cbn [fst snd].
  - split; [|reflexivity].
    split; [reflexivity|]. split; [reflexivity|]. split; [auto|].
    intros q N. cbn [set_files files]. apply lookup_store_other, N.
  - split; [apply same_but_refl|reflexivity].
Qed.

Lemma f_open_same_but (path : string) (m : bool) (v : volume) :
  same_but path v (snd (f_open path m v)) /\
  fil_path (snd (fst (f_open path m v))) = path.
Proof.
  unfold f_open.
  destruct (negb (card_ready v)); [split; [apply same_but_refl|reflexivity]|].
  destruct m.
  - destruct (has_folder v) eqn:F; cbn [fst snd].
    + split; [|reflexivity].
      split; [reflexivity|]. split; [reflexivity|]. split; [auto|].
      intros q N. cbn [set_files files]. apply lookup_store_other, N.
    + split; [apply same_but_refl|reflexivity].
  - destruct (lookup_file path (files v));
      (split; [apply same_but_refl|reflexivity]).
Qed.

Lemma f_lseek_path (fp : FIL) (ofs : Z) (v : volume) :
  fil_path (f_lseek fp ofs v) = fil_path fp.
Proof.
  unfold f_lseek. destruct (lookup_file (fil_path fp) (files v)); reflexivity.
Qed.

Lemma read_length (addr : Z) (len : nat) (s : state) :
  length (snd (fst (flash_dut_read B addr len s))) = len /\
  st_vol (snd (flash_dut_read B addr len s)) = st_vol s /\
  ((0 < len)%nat -> fst (fst (flash_dut_read B addr len s)) = true).
Proof.
  unfold flash_dut_read. destruct (Nat.eqb_spec len 0) as [->|N].
  - cbn. split; [reflexivity|]. split; [reflexivity|]. lia.
  - unfold flash_cs_low, flash_cs_high, gpio_put_cs, spi_write_blocking,
      spi_read_blocking, on_bus.
    cbn [st_hw st_bus st_vol st_mounted].
    destruct (bd_read B len _) as [rx h].
    cbn [fst snd st_vol]. split; [apply length_fit|]. auto.
Qed.

Lemma emits_read (addr : Z) (len : nat) (s : state) :
  let r := flash_dut_read B addr len s in
  st_vol (snd r) = st_vol s /\ st_mounted (snd r) = st_mounted s /\
  emits s (snd r)
    (if fst (fst r) then [cmd_addr CMD_READ addr ++ repeat x00 len] else []).
Proof.
  destruct (Nat.eq_dec len 0) as [->|N].
  - cbn. split; [reflexivity|]. split; [reflexivity|]. apply emits_refl.
  - pose proof (runs_read addr len s ltac:(lia)) as R.
    destruct (read_length addr len s) as (_ & _ & F).
    cbn zeta. rewrite (F ltac:(lia)). destruct R as (V & M & E). auto.
Qed.

(** The chunk loop of a backup reads and does nothing else on the bus, and
    writes to its file only. *)
Lemma backup_loop_emits (k : nat) (fp fp' : FIL) (crc addr total : Z)
  (s s' : state) (rc crc' : Z) :
  backup_loop B k fp crc addr total s = Some (rc, crc', fp', s') ->
  (rc = 0 \/ rc = -7 \/ rc = -8) /\
  (0 <= total < 2 ^ 32 -> rc <> -7) /\
  fil_path fp' = fil_path fp /\
  same_but (fil_path fp) (st_vol s) (st_vol s') /\
  st_mounted s' = st_mounted s /\
  exists G, emits s s' G /\
    forallb (fun f => byte_eqb (opcode f) CMD_READ) G = true.
Proof.
  revert fp crc addr total s.
  induction k as [|k IH]; intros fp crc addr total s H; cbn [backup_loop] in H.
  - destruct (total =? 0); [|discriminate]. injection H as <- _ <- <-.
    split; [auto|]. split; [intros _; lia|].
    split; [reflexivity|]. split; [apply same_but_refl|].
    split; [reflexivity|]. exists []. split; [apply emits_refl|reflexivity].
  - destruct (Z.eqb_spec total 0) as [E0|N0].
    { injection H as <- _ <- <-.
      split; [auto|]. split; [intros _; lia|].
      split; [reflexivity|]. split; [apply same_but_refl|].
      split; [reflexivity|]. exists []. split; [apply emits_refl|reflexivity]. }
    set (n := if total >? CHUNK_BYTES then CHUNK_BYTES else total) in H.
    pose proof (emits_read addr (Z.to_nat n) s) as R. cbn zeta in R.
    destruct (read_length addr (Z.to_nat n) s) as (_ & _ & Ok).
    destruct (flash_dut_read B addr (Z.to_nat n) s) as [[ok buf] s1].
    cbn [fst snd] in R, Ok. destruct R as (V1 & M1 & E1).
    destruct ok; cbn [negb] in H.
    2:{ injection H as <- _ <- <-.
        split; [auto|]. split.
        { intros Ht. exfalso.
          assert (0 < n).
          { subst n. unfold CHUNK_BYTES.
            destruct (Z.gtb_spec total 4096); lia. }
          assert (false = true) by (apply Ok; lia). discriminate. }
        split; [reflexivity|].
        split; [rewrite V1; apply same_but_refl|].
        split; [exact M1|]. exists []. split; [exact E1|reflexivity]. }
    pose proof (f_write_same_but fp buf (st_vol s1)) as W.
    destruct (f_write fp buf (st_vol s1)) as [[[fr bw] fp1] v1].
    cbn [fst snd] in W. destruct W as (SB & P1). rewrite V1 in SB.
    destruct (negb (fr_ok fr) || negb (bw =? n)).
    { injection H as <- _ <- <-.
      split; [auto|]. split; [intros _; lia|].
      split; [exact P1|]. split; [exact SB|].
      split; [exact M1|]. eexists. split.
      - apply (emits_same_bus _ _ _ _ _ E1). reflexivity.
      - reflexivity. }
    destruct (IH _ _ _ _ _ H) as (St & N7 & P2 & SB2 & M2 & G2 & E2 & F2).
    split; [exact St|]. split.
    { intros _. apply N7. apply u32_range. }
    split; [congruence|].
    split.
    { apply (same_but_trans _ _ _ _ SB). rewrite <- P1. exact SB2. }
    split; [rewrite M2; exact M1|].
    eexists. split.
    + eapply emits_trans; [|exact E2].
      apply (emits_same_bus _ _ _ _ _ E1). reflexivity.
    + cbn [app forallb]. rewrite F2. reflexivity.
Qed.


Lemma emits_jedec (s : state) :
  let r := flash_dut_read_jedec B s in
  fst (fst r) = true /\
  runs s (snd r) [[CMD_JEDEC_ID; x00; x00; x00]].
Proof.
  unfold flash_dut_read_jedec, flash_cs_low, flash_cs_high, gpio_put_cs,
    spi_write_blocking, spi_read_blocking, on_bus.
  cbn [st_hw st_bus st_vol st_mounted].
  destruct (bd_read B 3 _) as [rx h].
  cbn [fst snd st_hw st_bus st_vol st_mounted].
  split; [reflexivity|].
  split; [reflexivity|]. split; [reflexivity|].
  eexists. split; [rewrite <- ?app_assoc; cbn [app]; reflexivity|].
  split; [intros k; reflexivity | reflexivity].
Qed.

Lemma ensure_folder_same_but (p : string) (s : state) :
  st_bus (ensure_folder B s) = st_bus s /\
  st_mounted (ensure_folder B s) = st_mounted s /\
  same_but p (st_vol s) (st_vol (ensure_folder B s)).
Proof.
  unfold ensure_folder, set_vol, f_mkdir.
  destruct (negb (fr_ok (f_opendir (st_vol s)))); cbn [st_bus st_vol st_mounted].
  - split; [reflexivity|]. split; [reflexivity|].
    destruct (card_ready (st_vol s)); [|apply same_but_refl].
    repeat split; auto.
  - split; [reflexivity|]. split; [reflexivity|]. apply same_but_refl.
Qed.

(** The outcomes of [backup_flash_to_sd]: nothing at all when the card does
    not mount; otherwise the initialisation, one identification and reads on
    the bus, and on the card a change to the image file only. *)
Lemma backup_outcomes (s s' : state) (rc : Z) :
  backup_flash_to_sd B fuel s = Some (rc, s') ->
  (rc = -1 /\ s' = s /\
   st_mounted s = false /\ card_ready (st_vol s) = false) \/
  ((rc = 0 \/ -9 <= rc <= -4) /\ rc <> -7 /\
   st_mounted s' = true /\
   (exists stamp id,
      same_but (backup_name stamp id) (st_vol s) (st_vol s')) /\
   exists G,
     emits s s' (init_frames ++ [[CMD_JEDEC_ID; x00; x00; x00]] ++ G) /\
     forallb (fun f => byte_eqb (opcode f) CMD_READ) G = true).
Proof.
  unfold backup_flash_to_sd. intros H.
  destruct (fs_mount_once_cases s) as [[M Mf]|M]; rewrite M in H;
    cbn [negb] in H.
  { injection H as <- <-. left. tauto. }
  right.
  destruct (flash_dut_init B fuel (mounted s)) as [[ok si]|] eqn:I;
    [|discriminate].
  destruct (runs_init _ _ _ _ _ I) as (-> & VI & MI & EI). cbn [negb] in H.
  pose proof (emits_jedec si) as J. cbn zeta in J.
  destruct (flash_dut_read_jedec B si) as [[ok id] sj].
  cbn [fst snd] in J. destruct J as (-> & VJ & MJ & EJ). cbn [negb] in H.
  cbn [flash_dut_probe_capacity_sfdp andb] in H.
  set (sz := if negb (flash_calculate_capacity (capacity_id id) =? 0)
             then flash_calculate_capacity (capacity_id id)
             else 16 * 1024 * 1024) in H.
  assert (N0 : st_bus (snd (fmt_time B (ensure_folder B sj)))
               = st_bus (ensure_folder B sj) /\
               st_vol (snd (fmt_time B (ensure_folder B sj)))
               = st_vol (ensure_folder B sj) /\
               st_mounted (snd (fmt_time B (ensure_folder B sj)))
               = st_mounted (ensure_folder B sj)).
  { unfold fmt_time, to_ms_since_boot. destruct (bd_now B _). auto. }
  destruct (fmt_time B (ensure_folder B sj)) as [stamp st]. cbn [snd] in N0.
  destruct N0 as (Bt & Vt & Mt).
  set (name := backup_name stamp id) in H.
  destruct (ensure_folder_same_but name sj) as (Be & Me & Se).
  assert (Ej : emits s st (init_frames ++ [[CMD_JEDEC_ID; x00; x00; x00]])).
  { apply (emits_same_bus _ s sj st); [|congruence].
    apply (emits_trans _ s si sj); [exact EI|exact EJ]. }
  assert (Mj : st_mounted st = true).
  { rewrite Mt, Me, MJ. exact MI. }
  assert (Sj : same_but name (st_vol s) (st_vol st)).
  { rewrite Vt. rewrite VJ, VI in Se. exact Se. }
  clear Se Be Me Bt Vt Mt EI EJ VI MI VJ MJ I M.
  assert (Done : forall (rc0 : Z) (s0 : state) (G : list (list byte)),
             (rc0 = 0 \/ -9 <= rc0 <= -4) /\ rc0 <> -7 ->
             st_mounted s0 = true ->
             same_but name (st_vol s) (st_vol s0) ->
             emits s s0 (init_frames ++ [[CMD_JEDEC_ID; x00; x00; x00]] ++ G) ->
             forallb (fun f => byte_eqb (opcode f) CMD_READ) G = true ->
             (rc0 = 0 \/ -9 <= rc0 <= -4) /\ rc0 <> -7 /\
             st_mounted s0 = true /\
             (exists stamp id,
                same_but (backup_name stamp id) (st_vol s) (st_vol s0)) /\
             exists G,
               emits s s0 (init_frames ++ [[CMD_JEDEC_ID; x00; x00; x00]] ++ G) /\
               forallb (fun f => byte_eqb (opcode f) CMD_READ) G = true).
  { intros rc0 s0 G [A1 A1'] A2 A3 A4 A5.
    split; [exact A1|]. split; [exact A1'|]. split; [exact A2|].
    split; [exists stamp, id; exact A3|exists G; auto]. }
  pose proof (f_open_same_but name FA_CREATE_ALWAYS_WRITE (st_vol st)) as O.
  destruct (f_open name FA_CREATE_ALWAYS_WRITE (st_vol st)) as [[fr fp] v1].
  cbn [fst snd] in O. destruct O as (S1 & P1).
  pose proof (same_but_trans _ _ _ _ Sj S1) as T1.
  destruct (negb (fr_ok fr)).
  { injection H as <- <-.
    apply (Done _ _ []);
      [lia | exact Mj | exact T1
      | apply (emits_same_bus _ s st); [exact Ej|reflexivity]
      | reflexivity]. }
  cbn [set_vol st_vol st_hw st_bus st_mounted] in H.
  match type of H with
  | context [f_write fp ?b v1] =>
      pose proof (f_write_same_but fp b v1) as W2;
      destruct (f_write fp b v1) as [[[fr2 bw2] fp2] v2]
  end.
  cbn [fst snd] in W2. destruct W2 as (S2 & P2). rewrite P1 in S2.
  pose proof (same_but_trans _ _ _ _ T1 S2) as T2.
  destruct (negb (fr_ok fr2) || negb (bw2 =? HDR_SIZE)).
  { injection H as <- <-.
    apply (Done _ _ []);
      [lia | exact Mj | exact T2
      | apply (emits_same_bus _ s st); [exact Ej|reflexivity]
      | reflexivity]. }
  match type of H with
  | (if negb (malloc _ _ ?x) then _ else _) = _ => set (sb := x) in *
  end.
  destruct (negb (malloc B CHUNK_BYTES sb)).
  { injection H as <- <-.
    apply (Done _ _ []);
      [lia | exact Mj | exact T2
      | apply (emits_same_bus _ s st); [exact Ej|reflexivity]
      | reflexivity]. }
  destruct (backup_loop B _ fp2 0 0 sz sb) as [[[[rc1 crc] fp3] s3]|] eqn:L;
    [|discriminate].
  destruct (backup_loop_emits _ _ _ _ _ _ _ _ _ _ L)
    as (St & N7 & P3 & S3 & M3 & G & E3 & F3).
  assert (Hsz : 0 <= sz < 2 ^ 32).
  { pose proof (detected_size_facts id) as (Hd & _).
    unfold detected_size in Hd. fold sz in Hd. lia. }
  specialize (N7 Hsz).
  rewrite P2, P1 in S3. cbn [sb st_vol] in S3.
  pose proof (same_but_trans _ _ _ _ T2 S3) as T3.
  assert (E : emits s s3
                (init_frames ++ [[CMD_JEDEC_ID; x00; x00; x00]] ++ G)).
  { rewrite app_assoc. apply (emits_trans _ s sb s3); [|exact E3].
    apply (emits_same_bus _ s st sb); [exact Ej|reflexivity]. }
  assert (M : st_mounted s3 = true) by (rewrite M3; exact Mj).
  destruct (Z.eqb_spec rc1 0) as [->|N]; cbn [negb] in H.
  2:{ injection H as <- <-.
      apply (Done _ _ G); [lia | exact M | exact T3 | exact E | exact F3]. }
  match type of H with
  | context [f_write fp3 ?b ?v] =>
      pose proof (f_write_same_but fp3 b v) as W4;
      destruct (f_write fp3 b v) as [[[fr4 bw4] fp4] v4]
  end.
  cbn [fst snd] in W4. destruct W4 as (S4 & P4). rewrite P3, P2, P1 in S4.
  pose proof (same_but_trans _ _ _ _ T3 S4) as T4.
  destruct (negb (fr_ok fr4) || negb (bw4 =? 4)).
  { injection H as <- <-.
    apply (Done _ _ G);
      [lia | exact M | exact T4
      | apply (emits_same_bus _ s s3); [exact E|reflexivity]
      | exact F3]. }
  cbn [set_vol st_vol st_hw st_bus st_mounted] in H.
  match type of H with
  | context [f_write ?p ?b v4] =>
      pose proof (f_write_same_but p b v4) as W5;
      destruct (f_write p b v4) as [[[fr5 bw5] fp5] v5]
  end.
  cbn [fst snd] in W5. destruct W5 as (S5 & _).
  rewrite f_lseek_path, P4, P3, P2, P1 in S5.
  injection H as <- <-.
  apply (Done _ _ G);
    [lia | exact M | apply (same_but_trans _ _ _ _ T4 S5)
    | apply (emits_same_bus _ s s3); [exact E|reflexivity]
    | exact F3].
Qed.

(** X7. Whenever a backup returns, its status lies between -9 and 0 and is
    none of -2, -3 and -7 (the initialisation, the identification and a
    chunk read cannot fail). With status -1 nothing has changed; otherwise
    the bus has carried, polls apart, the initialisation, one
    identification and then reads only. In no case has it carried a sector
    erase or a page program. *)
Theorem backup_read_only (s s' : state) (rc : Z) :
  backup_flash_to_sd B fuel s = Some (rc, s') ->
  (-9 <= rc <= 0 /\ rc <> -2 /\ rc <> -3 /\ rc <> -7) /\
  (rc = -1 -> s' = s) /\
  (rc <> -1 ->
   exists G,
     significant (frames (bus_since s s'))
       = init_frames ++ [[CMD_JEDEC_ID; x00; x00; x00]] ++ G /\
     forallb (fun f => byte_eqb (opcode f) CMD_READ) G = true) /\
  forallb (fun f => negb (destructive f)) (frames (bus_since s s')) = true.
Proof.
  intros H.
  destruct (backup_outcomes _ _ _ H)
    as [(-> & -> & _)|(St & N7 & _ & _ & G & E & F)].
  - split; [lia|]. split; [reflexivity|]. split; [intros N; lia|].
    unfold bus_since. rewrite skipn_all. reflexivity.
  - split; [lia|]. split; [intros N; lia|].
    pose proof (emits_bus_since _ _ _ _ E) as Eb.
    split; [intros _; exists G; auto|].
    apply significant_harmless. rewrite Eb.
    rewrite !forallb_app. cbn [forallb init_frames].
    apply andb_true_iff. split; [reflexivity|].
    apply andb_true_iff. split; [reflexivity|].
    apply forallb_forall. intros f Hf.
    rewrite forallb_forall in F. specialize (F f Hf).
    unfold destructive, byte_eqb in *. apply Byte.byte_dec_bl in F.
    rewrite F. reflexivity.
Qed.

(** X8. A backup changes at most one file of the card, the image it names:
    every other path holds what it held, the card answers as before and
    keeps its clock, and the dump folder, if it existed, still exists. *)
Theorem backup_one_file (s s' : state) (rc : Z) :
  backup_flash_to_sd B fuel s = Some (rc, s') ->
  exists stamp id,
    same_but (backup_name stamp id) (st_vol s) (st_vol s').
Proof.
  intros H.
  destruct (backup_outcomes _ _ _ H) as [(-> & -> & _)|(_ & _ & _ & S & _)].
  - exists EmptyString, (mkJedec x00 x00 x00). apply same_but_refl.
  - exact S.
Qed.


(** *** The erase loop of the restore *)

(** With [flash_size] above 0xFFFFF000 the sector address wraps to 0 before
    it reaches the size: the loop leaves only through a failed erase. *)
Lemma restore_erase_loop_wraps (fs : Z) :
  0xFFFFF000 < fs ->
  forall (k : nat) (a : Z) (s s' : state) (r : bool),
    0 <= a <= 0xFFFFF000 -> a mod FLASH_SECTOR_SIZE = 0 ->
    restore_erase_loop B fuel k a fs s = Some (r, s') -> r = false.
Proof.
  intros Hfs. induction k as [|k IH]; intros a s s' r Ha Hm H;
    cbn [restore_erase_loop] in H.
  - destruct (Z.ltb_spec a fs); [discriminate|lia].
  - destruct (Z.ltb_spec a fs); [|lia].
    destruct (flash_dut_erase_4k B fuel a s) as [[ok s1]|]; [|discriminate].
    destruct ok; cbn [negb] in H.
    + apply (IH (u32 (a + FLASH_SECTOR_SIZE)) s1 s' r); [| |exact H];
        unfold u32, FLASH_SECTOR_SIZE in *;
        change (2 ^ 32) with 4294967296;
        Z.div_mod_to_equations; lia.
    + injection H as <- _. reflexivity.
Qed.

(** X9. With a header whose [flash_size] exceeds 0xFFFFF000 the sector
    address of the erase loop wraps to 0 before it reaches the size: the
    loop cannot end well, however many turns it takes, and the write
    returns -11 if it returns at all. *)
Theorem restore_write_oversize (h : flashimg_hdr_t) (fp : FIL)
  (s s' : state) (rc : Z) :
  0xFFFFF000 < flash_size h ->
  restore_write B fuel h fp s = Some (rc, s') ->
  rc = -11 /\
  forall (k : nat) (s0 s1 : state),
    restore_erase_loop B fuel k 0 (flash_size h) s0 <> Some (true, s1).
Proof.
  intros Hfs H. split.
  - unfold restore_write in H.
    destruct (restore_erase_loop B fuel _ 0 (flash_size h) s)
      as [[ok s1]|] eqn:E; [|discriminate].
    rewrite (restore_erase_loop_wraps _ Hfs _ 0 _ _ _ ltac:(lia) eq_refl E) in H.
    cbn [negb] in H. injection H as <- _. reflexivity.
  - intros k s0 s1 E.
    pose proof (restore_erase_loop_wraps _ Hfs _ 0 _ _ _ ltac:(lia) eq_refl E).
    discriminate.
Qed.

End BusFacts.

(* ================================================================= *)
(** ** Further properties: checksum, capacity, header *)

(** *** CRC-32 tells a changed byte *)

Lemma crc32_bit_cases (c : Z) :
  in_u32 c ->
  0 <= c / 2 < 2 ^ 31 /\
  ((c mod 2 = 0 /\ crc32_bit c = c / 2) \/
   (c mod 2 = 1 /\ crc32_bit c = Z.lxor (c / 2) 0xEDB88320)).
Proof.
  unfold in_u32. intros Hc.
  assert (Hq : 0 <= c / 2 < 2 ^ 31).
  { change (2 ^ 32) with 4294967296 in Hc. change (2 ^ 31) with 2147483648.
    Z.div_mod_to_equations. lia. }
  split; [exact Hq|].
  unfold crc32_bit.
  assert (L : Z.land c 1 = c mod 2) by exact (Z.land_ones c 1 ltac:(lia)).
  rewrite L, Z.shiftr_div_pow2 by lia. change (2 ^ 1) with 2.
  assert (Hm : c mod 2 = 0 \/ c mod 2 = 1) by (Z.div_mod_to_equations; lia).
  destruct Hm as [E|E]; rewrite E.
  - left. split; [reflexivity|]. change (u32 (- 0)) with 0.
    rewrite Z.land_0_r, Z.lxor_0_r. reflexivity.
  - right. split; [reflexivity|].
    change (u32 (- (1))) with (Z.ones 32).
    rewrite Z.land_ones by lia. reflexivity.
Qed.

Lemma testbit_31_small (q : Z) : 0 <= q < 2 ^ 31 -> Z.testbit q 31 = false.
Proof.
  intros H. destruct (Z.eq_dec q 0) as [->|N]; [reflexivity|].
  apply Z.bits_above_log2; [lia|].
  apply Z.log2_lt_pow2; lia.
Qed.

Lemma lxor_cancel_r (a b c : Z) : Z.lxor a c = Z.lxor b c -> a = b.
Proof.
  intros H. apply (f_equal (fun z => Z.lxor z c)) in H.
  rewrite !Z.lxor_assoc, Z.lxor_nilpotent, !Z.lxor_0_r in H. exact H.
Qed.

Lemma lxor_cancel_l (a b c : Z) : Z.lxor c a = Z.lxor c b -> a = b.
Proof.
  rewrite (Z.lxor_comm c a), (Z.lxor_comm c b). apply lxor_cancel_r.
Qed.

Lemma crc32_bit_inj (a b : Z) :
  in_u32 a -> in_u32 b -> crc32_bit a = crc32_bit b -> a = b.
Proof.
  intros Ha Hb H.
  destruct (crc32_bit_cases a Ha) as (Qa & [[Ma Ea]|[Ma Ea]]);
  destruct (crc32_bit_cases b Hb) as (Qb & [[Mb Eb]|[Mb Eb]]);
    rewrite Ea, Eb in H.
  - Z.div_mod_to_equations. lia.
  - exfalso. apply (f_equal (fun z => Z.testbit z 31)) in H.
    rewrite Z.lxor_spec, (testbit_31_small _ Qa), (testbit_31_small _ Qb) in H.
    change (Z.testbit 3988292384 31) with true in H. discriminate H.
  - exfalso. apply (f_equal (fun z => Z.testbit z 31)) in H.
    rewrite Z.lxor_spec, (testbit_31_small _ Qa), (testbit_31_small _ Qb) in H.
    change (Z.testbit 3988292384 31) with true in H. discriminate H.
  - apply lxor_cancel_r in H. Z.div_mod_to_equations. lia.
Qed.

Lemma crc32_iter_range (n : nat) (c : Z) :
  in_u32 c -> in_u32 (Nat.iter n crc32_bit c).
Proof.
  intros Hc. induction n as [|n IH]; [exact Hc|].
  cbn [Nat.iter]. apply crc32_bit_range, IH.
Qed.

Lemma crc32_iter_inj (n : nat) (a b : Z) :
  in_u32 a -> in_u32 b ->
  Nat.iter n crc32_bit a = Nat.iter n crc32_bit b -> a = b.
Proof.
  intros Ha Hb. induction n as [|n IH]; cbn [Nat.iter]; intros H; [exact H|].
  apply IH. apply crc32_bit_inj; [apply crc32_iter_range, Ha
                                  |apply crc32_iter_range, Hb|exact H].
Qed.

Lemma b2z_u32 (x : byte) : in_u32 (b2z x).
Proof. pose proof (b2z_range x). lia32. Qed.

Lemma b2z_inj (x y : byte) : b2z x = b2z y -> x = y.
Proof. intros H. rewrite <- (z2b_b2z x), <- (z2b_b2z y), H. reflexivity. Qed.

Lemma crc32_byte_eq (c : Z) (b : byte) :
  crc32_byte c b = Nat.iter 8 crc32_bit (Z.lxor c (b2z b)).
Proof. reflexivity. Qed.

Lemma fold_left_step (A C : Type) (f : A -> C -> A) (x : C) (l : list C)
  (a : A) :
  fold_left f (x :: l) a = fold_left f l (f a x).
Proof. reflexivity. Qed.

Lemma crc32_byte_inj_state (a b : Z) (x : byte) :
  in_u32 a -> in_u32 b -> crc32_byte a x = crc32_byte b x -> a = b.
Proof.
  intros Ha Hb H. rewrite !crc32_byte_eq in H.
  apply crc32_iter_inj in H;
    [|apply lxor_u32; [exact Ha|apply b2z_u32]
     |apply lxor_u32; [exact Hb|apply b2z_u32]].
  apply (lxor_cancel_r _ _ _ H).
Qed.

Lemma crc32_byte_inj_data (c : Z) (x y : byte) :
  in_u32 c -> crc32_byte c x = crc32_byte c y -> x = y.
Proof.
  intros Hc H. rewrite !crc32_byte_eq in H.
  apply crc32_iter_inj in H;
    [|apply lxor_u32; [exact Hc|apply b2z_u32]
     |apply lxor_u32; [exact Hc|apply b2z_u32]].
  apply b2z_inj, (lxor_cancel_l _ _ _ H).
Qed.

Lemma crc32_fold_inj (bs : list byte) (a b : Z) :
  in_u32 a -> in_u32 b ->
  fold_left crc32_byte bs a = fold_left crc32_byte bs b -> a = b.
Proof.
  revert a b. induction bs as [|x bs IH]; intros a b Ha Hb H; [exact H|].
  rewrite !fold_left_step in H.
  apply IH in H; [|apply crc32_byte_range, Ha|apply crc32_byte_range, Hb].
  apply (crc32_byte_inj_state _ _ _ Ha Hb H).
Qed.

Lemma not32_inj (a b : Z) : in_u32 a -> in_u32 b -> not32 a = not32 b -> a = b.
Proof.
  intros Ha Hb H. rewrite <- (not32_involutive a Ha), H.
  apply not32_involutive, Hb.
Qed.

Lemma crc32_update_eq (c : Z) (bs : list byte) :
  crc32_update c bs = not32 (fold_left crc32_byte bs (not32 c)).
Proof. reflexivity. Qed.

Lemma crc32_byte_change (c : Z) (a b : list byte) (x y : byte) :
  x <> y ->
  crc32_update c (a ++ x :: b) <> crc32_update c (a ++ y :: b).
Proof.
  intros N H. apply N. rewrite !crc32_update_eq in H.
  apply not32_inj in H; [|apply crc32_fold_range, not32_range
                         |apply crc32_fold_range, not32_range].
  rewrite !fold_left_app, !fold_left_step in H.
  assert (R : in_u32 (fold_left crc32_byte a (not32 c)))
    by apply crc32_fold_range, not32_range.
  apply crc32_fold_inj in H;
    [|apply crc32_byte_range, R|apply crc32_byte_range, R].
  apply (crc32_byte_inj_data _ _ _ R H).
Qed.

(** X10. Replacing one byte of the input by a different byte changes the
    checksum, whatever precedes and follows it and whatever the initial
    accumulator. *)
Theorem crc32_detects_byte_change (c : Z) (a b : list byte) (x y : byte) :
  x <> y ->
  crc32_update c (a ++ x :: b) <> crc32_update c (a ++ y :: b).
Proof. apply crc32_byte_change. Qed.


(** X11. The capacity decoder returns 2^(code - 3) bytes for the codes 0x10
    to 0x1F and 0 for every other code, 0x20 included; its result never
    exceeds 2^28. *)
Theorem capacity_decoding (code : byte) :
  (0x10 <= b2z code <= 0x1F ->
   flash_calculate_capacity code = 2 ^ (b2z code - 3)) /\
  (b2z code < 0x10 \/ 0x1F < b2z code ->
   flash_calculate_capacity code = 0) /\
  0 <= flash_calculate_capacity code <= 2 ^ 28.
Proof.
  destruct code; vm_compute; (split; [|split]);
    try (intros [H1 H2]); try (intros [H|H]);
    try reflexivity; try discriminate;
    try (exfalso; apply H1; reflexivity);
    try (exfalso; apply H2; reflexivity);
    try (split; discriminate).
Qed.

(** *** The header layout *)

Lemma low8_byte (b : byte) (hi : Z) : low8 (b2z b + 256 * hi) = b.
Proof.
  unfold low8. rewrite land_255.
  pose proof (b2z_range b).
  replace ((b2z b + 256 * hi) mod 256) with (b2z b)
    by (Z.div_mod_to_equations; lia).
  apply z2b_b2z.
Qed.

Lemma le32_rd32 (a b c d : byte) (r : list byte) :
  le32 (rd32 (a :: b :: c :: d :: r)) = [a; b; c; d].
Proof.
  unfold le32, rd32. cbn [nth].
  pose proof (b2z_range a). pose proof (b2z_range b).
  pose proof (b2z_range c). pose proof (b2z_range d).
  rewrite !Z.shiftr_div_pow2 by lia.
  change (2 ^ 8) with 256. change (2 ^ 16) with 65536.
  change (2 ^ 24) with 16777216.
  replace (b2z a + 256 * b2z b + 65536 * b2z c + 16777216 * b2z d)
    with (b2z a + 256 * (b2z b + 256 * (b2z c + 256 * (b2z d + 256 * 0))))
    by lia.
  set (x3 := b2z d + 256 * 0).
  set (x2 := b2z c + 256 * x3).
  set (x1 := b2z b + 256 * x2).
  replace ((b2z a + 256 * x1) / 256) with x1
    by (Z.div_mod_to_equations; lia).
  replace ((b2z a + 256 * x1) / 65536) with x2
    by (subst x1; Z.div_mod_to_equations; lia).
  replace ((b2z a + 256 * x1) / 16777216) with x3
    by (subst x1 x2; Z.div_mod_to_equations; lia).
  subst x1 x2 x3. rewrite !low8_byte. reflexivity.
Qed.

(** X12. The 28 bytes of a header decode to the header, and any 28 bytes
    encode back from what they decode to: the packed little-endian layout
    loses nothing. *)
Theorem hdr_layout_roundtrip :
  (forall h : flashimg_hdr_t,
     length (magic h) = 8%nat ->
     in_u32 (flash_size h) -> in_u32 (chunk_size h) ->
     in_u32 (image_size h) -> in_u32 (crc32_all h) ->
     length (hdr_bytes h) = 28%nat /\ hdr_of_bytes (hdr_bytes h) = h) /\
  (forall bs : list byte,
     length bs = 28%nat -> hdr_bytes (hdr_of_bytes bs) = bs).
Proof.
  split.
  - intros h H0 H1 H2 H3 H4. split; [apply hdr_bytes_length|].
    destruct h as [mg [a b c] r fs cs isz crc].
    cbn [magic flash_size chunk_size image_size crc32_all] in *.
    unfold hdr_of_bytes, hdr_bytes.
    cbn [magic jedec reserved flash_size chunk_size image_size crc32_all
         manuf_id mem_type capacity_id].
    rewrite (fit_exact 8 mg H0).
    do 8 (destruct mg as [|? mg]; [discriminate H0|]).
    destruct mg; [|discriminate H0].
    cbn [app firstn nth skipn]. unfold le32. cbn [app].
    rewrite !rd32_le32_cons by assumption.
    reflexivity.
  - intros bs H.
    do 28 (destruct bs as [|? bs]; [discriminate H|]).
    destruct bs; [|discriminate H].
    unfold hdr_of_bytes, hdr_bytes.
    cbn [magic jedec reserved flash_size chunk_size image_size crc32_all
         manuf_id mem_type capacity_id firstn skipn nth].
    rewrite !le32_rd32. rewrite fit_exact by reflexivity. reflexivity.
Qed.

(* ================================================================= *)
(** ** Further properties: images on the card *)

Section Images.

Variable B : Board.
Variable fuel : nat.

Local Abbreviation state := (state (hw B)).

(** *** Restore on a file that is all there *)

(** On a file that holds the header, the payload and the trailer, the checks
    of restore come down to the comparison of the three checksums. *)
Lemma restore_checked_complete (path : string) (f : file) (s : state) :
  let data := file_data f in
  let h := img_header data in
  lookup_file path (files (st_vol s)) = Some f ->
  HDR_SIZE + image_size h + 4 <= Z.of_nat (length data) ->
  image_size h <> 0 -> chunk_size h <> 0 ->
  malloc B (chunk_size h) s = true ->
  restore_checked B fuel h (mkFIL path (Z.to_nat HDR_SIZE)) s =
  if (crc32_update 0 (img_payload data) =? rd32 (img_trailer data))
     && (crc32_update 0 (img_payload data) =? crc32_all h)
  then restore_write B fuel h
         (mkFIL path (Z.to_nat HDR_SIZE + Z.to_nat (image_size h) + Z.to_nat 4))
         s
  else Some (-10, s).
Proof.
  intros data h Hf Hlen Hsz Hch Hmalloc. subst data.
  unfold restore_checked. rewrite Hmalloc. cbn [negb].
  pose proof (rd32_range (skipn 20 (firstn (Z.to_nat HDR_SIZE) (file_data f))))
    as Hi.
  pose proof (rd32_range (skipn 16 (firstn (Z.to_nat HDR_SIZE) (file_data f))))
    as Hk.
  change (rd32 (skipn 20 (firstn (Z.to_nat HDR_SIZE) (file_data f))))
    with (image_size h) in Hi.
  change (rd32 (skipn 16 (firstn (Z.to_nat HDR_SIZE) (file_data f))))
    with (chunk_size h) in Hk.
  unfold HDR_SIZE in *.
  rewrite (f_lseek_inside path _ 28 _ f Hf) by lia32.
  rewrite (restore_crc_loop_ok path (st_vol s) f (chunk_size h) Hf)
    with (remain := image_size h).
  2: lia32. 2: lia32. 2: lia32. 2: lia32.
  2:{ assert (0 < chunk_size h) by lia32.
      rewrite Z2Nat.id by (apply Z.add_nonneg_nonneg;
                           [apply Z.div_pos; lia32 | lia]).
      pose proof (Z.mul_succ_div_gt (image_size h) (chunk_size h) H).
      unfold in_u32 in *. nia. }
  cbn [Z.eqb negb].
  destruct (f_read_inside path (Z.to_nat 28 + Z.to_nat (image_size h)) 4
              (st_vol s) f Hf ltac:(lia) ltac:(lia32)) as [E4 L4].
  rewrite E4, L4. cbn [fr_ok negb Z.eqb Pos.eqb orb].
  change (firstn (Z.to_nat 4)
            (skipn (Z.to_nat 28 + Z.to_nat (image_size h)) (file_data f)))
    with (img_trailer (file_data f)).
  change (firstn (Z.to_nat (image_size h)) (skipn (Z.to_nat 28) (file_data f)))
    with (img_payload (file_data f)).
  destruct (crc32_update 0 (img_payload (file_data f))
            =? rd32 (img_trailer (file_data f)));
    destruct (crc32_update 0 (img_payload (file_data f)) =? crc32_all h);
    reflexivity.
Qed.

(** The parts of a file laid out as header, payload, trailer. *)
Lemma image_parts (h : flashimg_hdr_t) (payload : list byte) (t : Z)
  (rest : list byte) :
  magic h = FIMG_MAGIC ->
  in_u32 (flash_size h) -> in_u32 (chunk_size h) -> in_u32 (crc32_all h) ->
  image_size h = Z.of_nat (length payload) -> in_u32 (image_size h) ->
  in_u32 t ->
  let data := hdr_bytes h ++ payload ++ le32 t ++ rest in
  img_header data = h /\ img_payload data = payload /\
  rd32 (img_trailer data) = t /\
  HDR_SIZE + image_size h + 4 <= Z.of_nat (length data).
Proof.
  intros Hm H1 H2 H3 Hl H4 Ht data.
  assert (E : img_header data = h)
    by (apply hdr_roundtrip; assumption).
  split; [exact E|].
  assert (S28 : forall n x,
             skipn (28 + n) (hdr_bytes h ++ x) = skipn n x).
  { intros n x. rewrite skipn_app, hdr_bytes_length.
    rewrite skipn_all2 by (rewrite hdr_bytes_length; lia).
    replace (28 + n - 28)%nat with n by lia. reflexivity. }
  unfold img_payload, img_trailer. rewrite E. subst data.
  change (Z.to_nat HDR_SIZE) with (28 + 0)%nat at 1.
  change (Z.to_nat HDR_SIZE) with 28%nat.
  rewrite !S28. cbn [skipn]. rewrite Hl, Nat2Z.id.
  split; [|split].
  - rewrite firstn_app, Nat.sub_diag, firstn_all. cbn [firstn].
    apply app_nil_r.
  - rewrite skipn_app, Nat.sub_diag, skipn_all. cbn [skipn app].
    unfold le32. cbn [app firstn]. apply (rd32_le32 t []). exact Ht.
  - unfold HDR_SIZE. rewrite !length_app, hdr_bytes_length.
    cbn [le32 length]. lia.
Qed.

(** A well-formed image, whose three checksums agree, gets through the
    checks of restore and to the erase. *)
Lemma restore_valid_image (name : option string) (s si : state)
  (path : string) (f : file) (h : flashimg_hdr_t) (payload : list byte) :
  restore_reaches_header B fuel name s si path f ->
  file_data f = hdr_bytes h ++ payload ++ le32 (crc32_all h) ->
  magic h = FIMG_MAGIC ->
  in_u32 (flash_size h) -> in_u32 (chunk_size h) -> in_u32 (image_size h) ->
  chunk_size h <> 0 ->
  image_size h = Z.of_nat (length payload) -> payload <> [] ->
  crc32_all h = crc32_update 0 payload ->
  malloc B (chunk_size h) si = true ->
  restore_flash_from_sd B fuel name s
  = restore_write B fuel h
      (mkFIL path (Z.to_nat HDR_SIZE + length payload + 4)) si.
Proof.
  intros Hreach Hd Hm H1 H2 H3 Hch Hl Hne Hcrc Hmalloc.
  assert (H4 : in_u32 (crc32_all h))
    by (rewrite Hcrc; apply crc32_update_range).
  destruct (image_parts h payload (crc32_all h) [] Hm H1 H2 H4 Hl H3 H4)
    as (Eh & Ep & Et & Hlen).
  cbn [app] in Eh, Ep, Et, Hlen. rewrite app_nil_r in *.
  rewrite <- Hd in Eh, Ep, Et, Hlen.
  destruct (restore_header_step _ _ _ _ _ _ _ Hreach) as (E & Hv & _).
  cbv zeta in E. rewrite Eh in E. rewrite E, Hm, bytes_eqb_refl.
  cbn [negb].
  assert (Hsz : image_size h <> 0).
  { rewrite Hl. destruct payload; [congruence|]. cbn [length]. lia. }
  destruct (Z.eqb_spec (image_size h) 0); [contradiction|].
  destruct (Z.eqb_spec (chunk_size h) 0); [contradiction|]. cbn [orb].
  destruct Hreach as (_ & _ & _ & Hf & _). rewrite <- Hv in Hf.
  pose proof (restore_checked_complete path f si Hf) as C.
  cbv zeta in C. rewrite Eh, Ep, Et in C.
  rewrite (C Hlen Hsz Hch Hmalloc).
  rewrite <- Hcrc, !Z.eqb_refl. cbn [andb].
  rewrite Hl, Nat2Z.id. reflexivity.
Qed.

(** X13. A well-formed image, whose header, payload and trailer agree on the
    checksum, gets through the checks of restore: restore goes on to the
    write with the header as stored and the file read to its end. *)
Theorem restore_accepts_valid_image (name : option string) (s si : state)
  (path : string) (f : file) (h : flashimg_hdr_t) (payload : list byte) :
  restore_reaches_header B fuel name s si path f ->
  file_data f = hdr_bytes h ++ payload ++ le32 (crc32_all h) ->
  magic h = FIMG_MAGIC ->
  in_u32 (flash_size h) -> in_u32 (chunk_size h) -> in_u32 (image_size h) ->
  chunk_size h <> 0 ->
  image_size h = Z.of_nat (length payload) -> payload <> [] ->
  crc32_all h = crc32_update 0 payload ->
  malloc B (chunk_size h) si = true ->
  restore_flash_from_sd B fuel name s
  = restore_write B fuel h
      (mkFIL path (Z.to_nat HDR_SIZE + length payload + 4)) si.
Proof. exact (restore_valid_image name s si path f h payload). Qed.

(** X14. Tamper detection: an image that was well formed but for one payload
    byte that has been replaced by another is turned down with status -10
    before any erase or program command. *)
Theorem restore_rejects_changed_byte (name : option string) (s si : state)
  (path : string) (f : file) (h : flashimg_hdr_t) (a b : list byte)
  (x y : byte) :
  restore_reaches_header B fuel name s si path f ->
  file_data f = hdr_bytes h ++ (a ++ y :: b) ++ le32 (crc32_all h) ->
  magic h = FIMG_MAGIC ->
  in_u32 (flash_size h) -> in_u32 (chunk_size h) -> in_u32 (image_size h) ->
  chunk_size h <> 0 ->
  image_size h = Z.of_nat (length (a ++ x :: b)) ->
  crc32_all h = crc32_update 0 (a ++ x :: b) ->
  x <> y ->
  malloc B (chunk_size h) si = true ->
  restore_flash_from_sd B fuel name s = Some (-10, si) /\
  forallb (fun fr => negb (destructive fr)) (frames (bus_since s si)) = true.
Proof.
  intros Hreach Hd Hm H1 H2 H3 Hch Hl Hcrc Hxy Hmalloc.
  assert (H4 : in_u32 (crc32_all h))
    by (rewrite Hcrc; apply crc32_update_range).
  assert (Hl' : image_size h = Z.of_nat (length (a ++ y :: b))).
  { rewrite Hl, !length_app. reflexivity. }
  destruct (image_parts h (a ++ y :: b) (crc32_all h) [] Hm H1 H2 H4 Hl' H3 H4)
    as (Eh & Ep & Et & Hlen).
  cbn [app] in Eh, Ep, Et, Hlen. rewrite app_nil_r in *.
  rewrite <- Hd in Eh, Ep, Et, Hlen.
  destruct (restore_header_step _ _ _ _ _ _ _ Hreach) as (E & Hv & _ & D).
  split; [|exact D].
  cbv zeta in E. rewrite Eh in E. rewrite E, Hm, bytes_eqb_refl.
  cbn [negb].
  assert (Hsz : image_size h <> 0).
  { rewrite Hl, length_app. cbn [length]. lia. }
  destruct (Z.eqb_spec (image_size h) 0); [contradiction|].
  destruct (Z.eqb_spec (chunk_size h) 0); [contradiction|]. cbn [orb].
  destruct Hreach as (_ & _ & _ & Hf & _). rewrite <- Hv in Hf.
  pose proof (restore_checked_complete path f si Hf) as C.
  cbv zeta in C. rewrite Eh, Ep, Et in C.
  rewrite (C Hlen Hsz Hch Hmalloc).
  destruct (Z.eqb_spec (crc32_update 0 (a ++ y :: b)) (crc32_all h)) as [Q|Q];
    [|reflexivity].
  exfalso. rewrite Hcrc in Q.
  apply (crc32_byte_change 0 a b x y Hxy). symmetry. exact Q.
Qed.


(** *** What a backup that succeeds leaves on the card *)

Lemma f_open_created (path : string) (v v' : volume) (fp : FIL) :
  f_open path FA_CREATE_ALWAYS_WRITE v = (FR_OK, fp, v') ->
  fp = mkFIL path 0 /\ exists dt tm, vol_has v' path dt tm [].
Proof.
  unfold f_open, FA_CREATE_ALWAYS_WRITE.
  destruct (card_ready v) eqn:Hc; cbn [negb]; [|discriminate].
  destruct (has_folder v); [|discriminate].
  intros H. injection H as <- <-. split; [reflexivity|].
  destruct (lookup_file path (files v)) as [old|];
    do 2 eexists; (split; [exact Hc|]);
    cbn [set_files files]; apply lookup_store_same.
Qed.

(** The chunk loop appends what it read to the file and folds it into the
    checksum. *)
Lemma backup_loop_file (name : string) (dt tm : Z) :
  forall (k : nat) (addr total crc : Z) (data : list byte) (s s' : state)
         (crc' : Z) (fp' : FIL),
    vol_has (st_vol s) name dt tm data -> 0 <= total < 2 ^ 32 ->
    in_u32 crc ->
    backup_loop B k (mkFIL name (length data)) crc addr total s
    = Some (0, crc', fp', s') ->
    exists pay,
      Z.of_nat (length pay) = total /\
      crc' = crc32_update crc pay /\
      fp' = mkFIL name (length data + length pay) /\
      vol_has (st_vol s') name dt tm (data ++ pay).
Proof.
  assert (Base : forall (crc : Z) (data : list byte) (s : state),
             vol_has (st_vol s) name dt tm data -> in_u32 crc ->
             exists pay,
               Z.of_nat (length pay) = 0 /\
               crc = crc32_update crc pay /\
               mkFIL name (length data) = mkFIL name (length data + length pay) /\
               vol_has (st_vol s) name dt tm (data ++ pay)).
  { intros crc data s Hv Hc. exists [].
    rewrite crc32_update_nil, app_nil_r, Nat.add_0_r by exact Hc. auto. }
  induction k as [|k IH]; intros addr total crc data s s' crc' fp' Hv Ht Hc H;
    cbn [backup_loop] in H.
  - destruct (Z.eqb_spec total 0) as [->|]; [|discriminate].
    injection H as <- <- <-. apply Base; assumption.
  - destruct (Z.eqb_spec total 0) as [->|N].
    { injection H as <- <- <-. apply Base; assumption. }
    set (n := if total >? CHUNK_BYTES then CHUNK_BYTES else total) in H.
    assert (Hn : 0 < n <= total).
    { subst n. unfold CHUNK_BYTES. destruct (Z.gtb_spec total 4096); lia. }
    destruct (read_length B addr (Z.to_nat n) s) as (Lb & V1 & Ok).
    destruct (flash_dut_read B addr (Z.to_nat n) s) as [[ok buf] s1].
    cbn [fst snd] in Lb, V1, Ok. rewrite (Ok ltac:(lia)) in H.
    cbn [negb] in H. rewrite V1 in H.
    destruct (f_write_append _ name dt tm data buf Hv) as (v' & E2 & H2).
    rewrite E2 in H. cbn [fr_ok negb orb] in H.
    rewrite Lb, Z2Nat.id, Z.eqb_refl in H by lia. cbn [negb] in H.
    assert (Hu : u32 (total - n) = total - n) by (apply u32_small; lia32).
    rewrite Hu in H.
    replace (length data + Z.to_nat n)%nat with (length (data ++ buf)) in H
      by (rewrite length_app; lia).
    destruct (IH (u32 (addr + n)) (total - n) (crc32_update crc buf)
                (data ++ buf) (set_vol B s1 v') _ _ _ H2 ltac:(lia32)
                (crc32_update_range _ _) H)
      as (pay & Lp & Ec & Ef & Hv').
    exists (buf ++ pay). split; [|split; [|split]].
    + rewrite length_app. lia.
    + rewrite Ec. apply crc32_update_app.
    + rewrite Ef. f_equal. rewrite !length_app. lia.
    + rewrite app_assoc. exact Hv'.
Qed.

(** With a size that is a multiple of the chunk, the loop reads chunk
    after chunk in order. *)
Lemma backup_loop_reads :
  forall (k : nat) (fp fp' : FIL) (crc addr total : Z) (s s' : state)
         (crc' : Z),
    0 <= addr -> 0 <= total -> addr + total < 2 ^ 32 ->
    total mod CHUNK_BYTES = 0 ->
    backup_loop B k fp crc addr total s = Some (0, crc', fp', s') ->
    emits s s'
      (map (fun j => cmd_addr CMD_READ (addr + CHUNK_BYTES * Z.of_nat j)
                     ++ repeat x00 4096)
         (seq 0 (Z.to_nat (total / CHUNK_BYTES)))).
Proof.
  unfold CHUNK_BYTES.
  induction k as [|k IH]; intros fp fp' crc addr total s s' crc' Ha Ht Hs Hm H;
    cbn [backup_loop] in H.
  - destruct (Z.eqb_spec total 0) as [->|]; [|discriminate].
    injection H as _ _ <-. apply emits_refl.
  - destruct (Z.eqb_spec total 0) as [->|N].
    { injection H as _ _ <-. apply emits_refl. }
    unfold CHUNK_BYTES in H.
    assert (Hge : 4096 <= total) by (Z.div_mod_to_equations; lia).
    assert (En : (if total >? 4096 then 4096 else total) = 4096).
    { destruct (Z.gtb_spec total 4096); lia. }
    rewrite En in H.
    pose proof (runs_read B addr (Z.to_nat 4096) s ltac:(lia)) as R1.
    destruct (flash_dut_read B addr (Z.to_nat 4096) s) as [[ok buf] s1].
    cbn [snd] in R1. destruct ok; cbn [negb] in H; [|discriminate].
    destruct (f_write fp buf (st_vol s1)) as [[[fr bw] fp1] v1].
    destruct (negb (fr_ok fr) || negb (bw =? 4096)); [discriminate|].
    assert (Hu1 : u32 (addr + 4096) = addr + 4096) by (apply u32_small; lia32).
    assert (Hu2 : u32 (total - 4096) = total - 4096)
      by (apply u32_small; lia32).
    rewrite Hu1, Hu2 in H.
    assert (A1 : 0 <= addr + 4096) by lia.
    assert (A2 : 0 <= total - 4096) by lia.
    assert (A3 : addr + 4096 + (total - 4096) < 2 ^ 32) by lia.
    assert (A4 : (total - 4096) mod 4096 = 0)
      by (Z.div_mod_to_equations; lia).
    pose proof (IH _ _ _ _ _ _ _ _ A1 A2 A3 A4 H) as E2.
    assert (Hq : Z.to_nat (total / 4096)
                 = S (Z.to_nat ((total - 4096) / 4096))).
    { replace total with (total - 4096 + 1 * 4096) at 1 by lia.
      rewrite Z.div_add by lia.
      assert (0 <= (total - 4096) / 4096) by (apply Z.div_pos; lia). lia. }
    rewrite Hq. cbn [seq map]. rewrite <- seq_shift, map_map.
    change (Z.to_nat 4096) with 4096%nat in R1.
    replace (addr + 4096 * Z.of_nat 0) with addr by lia.
    apply (emits_trans _ s (set_vol B s1 v1) s'
             [cmd_addr CMD_READ addr ++ repeat x00 4096]).
    + apply (emits_same_bus _ s s1); [|reflexivity].
      apply runs_emits. exact R1.
    + erewrite map_ext; [exact E2|].
      intros j. cbv beta. do 2 f_equal. lia.
Qed.

(** A backup that returns 0 has read the whole chip in order, 4096 bytes at
    a time, and has left at the path it chose a file made of a header, the
    bytes it read and their checksum, the checksum standing in the header
    as well, whatever the chip answered. *)
Lemma backup_success_image (s s' : state) :
  backup_flash_to_sd B fuel s = Some (0, s') ->
  exists id stamp f payload,
    card_ready (st_vol s') = true /\
    significant (frames (bus_since s s'))
      = init_frames ++ [[CMD_JEDEC_ID; x00; x00; x00]]
        ++ map (fun j => cmd_addr CMD_READ (CHUNK_BYTES * Z.of_nat j)
                         ++ repeat x00 4096)
             (seq 0 (Z.to_nat (detected_size id / CHUNK_BYTES))) /\
    lookup_file (backup_name stamp id) (files (st_vol s')) = Some f /\
    Z.of_nat (length payload) = detected_size id /\
    let crc := crc32_update 0 payload in
    file_data f =
      hdr_bytes (mkHdr FIMG_MAGIC id x00 (detected_size id) CHUNK_BYTES
                   (detected_size id) crc)
      ++ payload ++ le32 crc.
Proof.
  unfold backup_flash_to_sd. intros H.
  destruct (fs_mount_once_cases B s) as [[M _]|M]; rewrite M in H;
    cbn [negb] in H; [discriminate|].
  destruct (flash_dut_init B fuel (mounted s)) as [[ok si]|] eqn:I;
    [|discriminate].
  destruct (runs_init _ _ _ _ _ I) as (-> & RI). cbn [negb] in H.
  pose proof (emits_jedec B si) as J. cbn zeta in J.
  destruct (flash_dut_read_jedec B si) as [[ok id] sj].
  cbn [fst snd] in J. destruct J as (-> & RJ). cbn [negb] in H.
  cbn [flash_dut_probe_capacity_sfdp andb] in H.
  change (if negb (flash_calculate_capacity (capacity_id id) =? 0)
          then flash_calculate_capacity (capacity_id id)
          else 16 * 1024 * 1024) with (detected_size id) in H.
  destruct (detected_size_facts id) as (Hsz & Hal).
  assert (N0 : st_bus (snd (fmt_time B (ensure_folder B sj)))
               = st_bus sj).
  { destruct (ensure_folder_same_but B EmptyString sj) as (Eb & _).
    rewrite <- Eb. unfold fmt_time, to_ms_since_boot.
    destruct (bd_now B _). reflexivity. }
  destruct (fmt_time B (ensure_folder B sj)) as [stamp st]. cbn [snd] in N0.
  assert (Ej : emits s st (init_frames ++ [[CMD_JEDEC_ID; x00; x00; x00]])).
  { apply (emits_same_bus _ s sj st); [|exact N0].
    apply (emits_trans _ s si sj);
      [exact (runs_emits _ _ _ _ RI)|exact (runs_emits _ _ _ _ RJ)]. }
  clear N0 RI RJ I M.
  set (name := backup_name stamp id) in H.
  destruct (f_open name FA_CREATE_ALWAYS_WRITE (st_vol st))
    as [[fr fp] v1] eqn:O.
  destruct fr; cbn [fr_ok negb] in H; try discriminate.
  destruct (f_open_created _ _ _ _ O) as (-> & dt & tm & V1).
  cbn [set_vol st_vol] in H.
  set (h0 := mkHdr FIMG_MAGIC id x00 (detected_size id) CHUNK_BYTES
               (detected_size id) 0) in H.
  destruct (f_write_append v1 name dt tm [] (hdr_bytes h0) V1)
    as (v2 & E2 & V2).
  cbn [length app Nat.add] in E2, V2. rewrite E2 in H.
  cbn [fr_ok negb orb] in H. rewrite hdr_bytes_length in H.
  cbn [Z.of_nat Pos.of_succ_nat Z.eqb HDR_SIZE Pos.succ Pos.eqb negb] in H.
  match type of H with
  | (if negb (malloc _ _ ?x) then _ else _) = _ => set (sb := x) in *
  end.
  destruct (negb (malloc B CHUNK_BYTES sb)); [discriminate|].
  destruct (backup_loop B _ _ 0 0 (detected_size id) sb)
    as [[[[rc1 crc] fp3] s3]|] eqn:L; [|discriminate].
  destruct (Z.eqb_spec rc1 0) as [->|N]; cbn [negb] in H.
  2:{ injection H as E _. congruence. }
  assert (B1 : 0 <= 0) by lia.
  assert (B2 : 0 <= detected_size id) by lia.
  assert (B3 : 0 + detected_size id < 2 ^ 32) by lia.
  pose proof (backup_loop_reads _ _ _ _ _ _ _ _ _ B1 B2 B3 Hal L) as EL.
  rewrite <- (hdr_bytes_length h0) in L.
  destruct (backup_loop_file name dt tm _ 0 (detected_size id) 0
              (hdr_bytes h0) sb _ _ _ V2 ltac:(lia) ltac:(lia32) L)
    as (pay & Lp & -> & -> & V3).
  destruct (f_write_append _ name dt tm _ (le32 (crc32_update 0 pay)) V3)
    as (v4 & E4 & V4).
  rewrite length_app in E4. rewrite E4 in H.
  cbn [fr_ok negb orb length le32 Z.of_nat Pos.of_succ_nat Pos.succ Z.eqb
       Pos.eqb] in H.
  cbn [set_vol st_vol] in H.
  destruct V4 as [Hc4 Hf4].
  rewrite (f_lseek_inside name _ 0 v4 _ Hf4) in H by (cbn [file_data]; lia).
  match type of H with
  | context [f_write _ (hdr_bytes ?hh) v4] => set (h := hh) in *
  end.
  destruct (f_write_has v4 name dt tm _ (hdr_bytes h) 0 (conj Hc4 Hf4))
    as (v5 & E5 & V5).
  cbn [Z.to_nat] in H. rewrite E5 in H. injection H as <-.
  cbn [st_vol set_vol].
  exists id, stamp,
         (mkFile dt tm (hdr_bytes h ++ pay ++ le32 (crc32_update 0 pay))),
         pay.
  split; [apply (proj1 V5)|].
  split; [|split; [|split; [exact Lp|reflexivity]]].
  - apply emits_bus_since. rewrite app_assoc.
    apply (emits_same_bus _ s s3); [|reflexivity].
    apply (emits_trans _ s sb s3); [|exact EL].
    apply (emits_same_bus _ s st sb); [exact Ej|reflexivity].
  - destruct V5 as [_ Hf5]. fold name. rewrite Hf5. do 2 f_equal.
Qed.


End Images.

(* ================================================================= *)
(** ** Further properties: the chooser, the listing and the console *)

(** *** The chooser and the listing *)

Lemma snprintf_path_nonempty (n : nat) (x : string) :
  (2 <= n)%nat ->
  string_nonempty (snprintf_s n (DUMP_FOLDER ++ "/" ++ x)%string) = true.
Proof.
  intros H. unfold snprintf_s. destruct n as [|[|n]]; [lia|lia|].
  reflexivity.
Qed.

(** The chooser's loop ends on the best path it started from or on the
    path of a listed image. *)
Lemma choose_loop_listed (es : list FILINFO) :
  forall (bd bt : Z) (bp : string),
    choose_loop es bd bt bp = bp \/
    exists f, In f es /\ strstr (fname f) ".fimg" = true /\
      string_nonempty (fname f) = true /\
      choose_loop es bd bt bp = image_path f.
Proof.
  induction es as [|e es IH]; intros bd bt bp; cbn [choose_loop].
  - left. reflexivity.
  - destruct (string_nonempty (fname e)) eqn:Hn; cbn [negb]; [|left; reflexivity].
    destruct (strstr (fname e) ".fimg") eqn:Hs; cbn [negb].
    + match goal with
      | |- context [if ?c then _ else _] => destruct c
      end.
      * fold (image_path e).
        destruct (IH (fdate e) (ftime e) (image_path e))
          as [E | (f & Hin & Hf & Hne & E)].
        -- right. exists e. split; [left; reflexivity|]. auto.
        -- right. exists f. split; [right; exact Hin|]. auto.
      * destruct (IH bd bt bp) as [E | (f & Hin & Hf & Hne & E)].
        -- left. exact E.
        -- right. exists f. split; [right; exact Hin|]. auto.
    + destruct (IH bd bt bp) as [E | (f & Hin & Hf & Hne & E)].
      * left. exact E.
      * right. exists f. split; [right; exact Hin|]. auto.
Qed.

(** X16. Whatever the chooser returns with status 0 is the path of a listed
    entry whose name contains ".fimg", cut to the size of the buffer; the
    card answers and the dump folder exists. *)
Theorem choose_latest_image_listed (n : nat) (v : volume) (p : string) :
  choose_latest_image n v = (0, p) ->
  card_ready v = true /\ has_folder v = true /\
  exists f, In f (dir_entries v) /\
    strstr (fname f) ".fimg" = true /\
    p = snprintf_s n (image_path f).
Proof.
  unfold choose_latest_image, f_opendir. intros H.
  destruct (card_ready v); cbn [negb] in H; [|discriminate].
  destruct (has_folder v); cbn [negb fr_ok] in H; [|discriminate].
  split; [reflexivity|]. split; [reflexivity|].
  destruct (choose_loop_listed (dir_entries v) 0 0 EmptyString)
    as [E | (f & Hin & Hf & _ & E)]; rewrite E in H.
  - discriminate.
  - destruct (string_nonempty (image_path f)); cbn [negb] in H;
      [|discriminate].
    injection H as <-. exists f. auto.
Qed.

Lemma list_loop_mono (es : list FILINFO) :
  forall (c : Z) (out : list string),
    c <= fst (list_loop es c out) /\
    fst (list_loop es c out) - c = Z.of_nat (length (snd (list_loop es c out)))
                                   - Z.of_nat (length out) /\
    forall line, In line out -> In line (snd (list_loop es c out)).
Proof.
  induction es as [|e es IH]; intros c out; cbn [list_loop].
  - cbn [fst snd]. split; [lia|]. split; [lia|auto].
  - destruct (string_nonempty (fname e)); cbn [negb].
    2:{ cbn [fst snd]. split; [lia|]. split; [lia|auto]. }
    destruct (strstr (fname e) ".fimg").
    + destruct (IH (c + 1) (out ++ [(DUMP_FOLDER ++ "/" ++ fname e)%string]))
        as (H1 & H2 & H3).
      split; [lia|]. split.
      * rewrite length_app in H2. cbn [length] in H2. lia.
      * intros line Hl. apply H3. apply in_or_app. left. exact Hl.
    + apply IH.
Qed.

Lemma snprintf_idem (n : nat) (x : string) :
  snprintf_s n (snprintf_s n x) = snprintf_s n x.
Proof.
  unfold snprintf_s. generalize (n - 1)%nat. intros k. revert x.
  induction k as [|k IH]; intros x.
  - destruct x; reflexivity.
  - destruct x as [|a x]; [reflexivity|]. cbn [substring].
    rewrite IH. reflexivity.
Qed.

(** The chooser's loop ends on the best path it started from or on one of
    the lines the listing prints, cut to 127 characters. *)
Lemma choose_loop_printed (es : list FILINFO) :
  forall (bd bt : Z) (bp : string) (c : Z) (out : list string),
    choose_loop es bd bt bp = bp \/
    exists line, In line (snd (list_loop es c out)) /\
      choose_loop es bd bt bp = snprintf_s 128 line.
Proof.
  induction es as [|e es IH]; intros bd bt bp c out;
    cbn [choose_loop list_loop].
  - left. reflexivity.
  - destruct (string_nonempty (fname e)) eqn:Hn; cbn [negb]; [|left; reflexivity].
    destruct (strstr (fname e) ".fimg") eqn:Hs; cbn [negb].
    + set (line := (DUMP_FOLDER ++ "/" ++ fname e)%string).
      match goal with
      | |- context [if ?b then choose_loop _ _ _ _ else _] => destruct b
      end.
      * destruct (IH (fdate e) (ftime e) (snprintf_s 128 line) (c + 1)
                    (out ++ [line])) as [E | (l & Hin & E)].
        -- right. exists line. split; [|exact E].
           apply list_loop_mono. apply in_or_app. right. left. reflexivity.
        -- right. exists l. auto.
      * destruct (IH bd bt bp (c + 1) (out ++ [line])) as [E | (l & Hin & E)].
        -- left. exact E.
        -- right. exists l. auto.
    + apply IH.
Qed.

(** With an empty best path the chooser finds an image exactly when the
    listing counts one. *)
Lemma choose_loop_found (es : list FILINFO) :
  Forall (fun f => 0 <= fdate f /\ 0 <= ftime f) es ->
  (string_nonempty (choose_loop es 0 0 EmptyString) = true
   <-> 0 < fst (list_loop es 0 [])).
Proof.
  induction 1 as [|e es [Hd Ht] Hes IH]; cbn [choose_loop list_loop].
  - cbn. split; [discriminate|lia].
  - destruct (string_nonempty (fname e)) eqn:Hn; cbn [negb].
    2:{ cbn. split; [discriminate|lia]. }
    destruct (strstr (fname e) ".fimg") eqn:Hs; cbn [negb]; [|exact IH].
    assert (Hnew :
              (if negb (fdate e =? 0) || negb (ftime e =? 0)
               then (fdate e >? 0) || (fdate e =? 0) && (ftime e >? 0)
               else negb (string_nonempty EmptyString)
                    || (strcmp (fname e) EmptyString >? 0)) = true).
    { destruct (Z.eqb_spec (fdate e) 0) as [E0|N0];
        destruct (Z.eqb_spec (ftime e) 0) as [E1|N1]; cbn [negb orb andb].
      - reflexivity.
      - rewrite E0. cbn [Z.gtb Z.compare orb andb Z.eqb].
        apply Z.gtb_lt. lia.
      - apply orb_true_iff. left. apply Z.gtb_lt. lia.
      - apply orb_true_iff. left. apply Z.gtb_lt. lia. }
    rewrite Hnew.
    pose proof (list_loop_mono es (0 + 1)
                  ([] ++ [(DUMP_FOLDER ++ "/" ++ fname e)%string])) as (M & _).
    split; [intros _; lia|]. intros _.
    destruct (choose_loop_listed es (fdate e) (ftime e)
                (snprintf_s 128 (DUMP_FOLDER ++ "/" ++ fname e)%string))
      as [E | (f & _ & _ & _ & E)]; rewrite E.
    + apply snprintf_path_nonempty. lia.
    + apply snprintf_path_nonempty. lia.
Qed.

Section ListingFacts.

Variable B : Board.

Local Abbreviation state := (state (hw B)).

(** X17. The listing and the chooser agree: the listing returns -1 or the
    number of lines it printed and leaves the bus alone; with timestamps
    that are not negative it counts an image exactly when the chooser then
    finds one; and the path the chooser returns is one of the printed
    lines, cut to 127 characters. *)
Theorem list_flash_images_chooser (s s' : state) (count : Z)
  (out : list string) :
  list_flash_images B s = (count, out, s') ->
  ((count = -1 /\ out = []) \/ count = Z.of_nat (length out)) /\
  st_bus s' = st_bus s /\
  (0 <= count ->
   (Forall (fun f => 0 <= fdate f /\ 0 <= ftime f) (dir_entries (st_vol s')) ->
    (0 < count <-> fst (choose_latest_image 128 (st_vol s')) = 0)) /\
   forall p, choose_latest_image 128 (st_vol s') = (0, p) ->
     exists line, In line out /\ p = snprintf_s 128 line).
Proof.
  unfold list_flash_images. intros H.
  destruct (fs_mount_once_cases B s) as [[M _]|M]; rewrite M in H;
    cbn [negb] in H.
  { injection H as <- <- <-. split; [left; auto|]. split; [reflexivity|].
    intros N. lia. }
  destruct (ensure_folder_same_but B EmptyString (mounted s)) as (Eb & _ & _).
  set (s1 := ensure_folder B (mounted s)) in *.
  destruct (fr_ok (f_opendir (st_vol s1))) eqn:O; cbn [negb] in H.
  2:{ injection H as <- <- <-. split; [left; auto|]. split; [exact Eb|].
      intros N. lia. }
  pose proof (list_loop_mono (dir_entries (st_vol s1)) 0 []) as (L1 & L2 & _).
  destruct (list_loop (dir_entries (st_vol s1)) 0 []) as [c o] eqn:L.
  cbn [fst snd length] in L1, L2. injection H as <- <- <-.
  split; [right; lia|]. split; [exact Eb|]. intros _.
  unfold choose_latest_image. rewrite O. cbn [negb]. split.
  - intros Hall. pose proof (choose_loop_found _ Hall) as F.
    rewrite L in F. cbn [fst] in F.
    destruct (string_nonempty (choose_loop (dir_entries (st_vol s1)) 0 0 ""))
      eqn:Ne; cbn [negb fst].
    + split; [reflexivity|]. intros _. apply F. reflexivity.
    + split; [|discriminate]. intros Hc. apply F in Hc. discriminate Hc.
  - intros p Hp.
    destruct (choose_loop_printed (dir_entries (st_vol s1)) 0 0 EmptyString 0 [])
      as [E | (line & Hin & E)]; rewrite E in Hp.
    + discriminate.
    + rewrite L in Hin. cbn [snd] in Hin.
      destruct (string_nonempty (snprintf_s 128 line)); cbn [negb] in Hp;
        [|discriminate].
      injection Hp as <-. exists line. split; [exact Hin|].
      apply snprintf_idem.
Qed.

End ListingFacts.

(** *** Reading a line *)

Lemma char_of_printable (c : Z) :
  32 <= c < 127 -> printable (char_of c).
Proof.
  intros H. unfold printable, char_of.
  rewrite N_ascii_embedding by lia. lia.
Qed.

Lemma length_removelast (A : Type) (l : list A) :
  length (removelast l) = Nat.pred (length l).
Proof.
  induction l as [|a l IH]; [reflexivity|].
  destruct l as [|b l]; [reflexivity|].
  cbn [removelast length] in *. rewrite IH. reflexivity.
Qed.

Lemma Forall_removelast (A : Type) (P : A -> Prop) (l : list A) :
  Forall P l -> Forall P (removelast l).
Proof.
  induction 1 as [|a l Ha Hl IH]; [constructor|].
  destruct l as [|b l]; [constructor|].
  cbn [removelast] in *. constructor; assumption.
Qed.

(** The loop never lets the line outgrow the buffer and stores printable
    characters only. *)
Lemma read_line_loop_safe (buf_len : Z) :
  1 <= buf_len < 2 ^ 32 ->
  forall (evs rest : list key_event) (buf buf' : list ascii)
         (out out' : list Z) (g : bool) (t : Z),
    Z.of_nat (length buf) <= buf_len - 1 -> Forall printable buf ->
    read_line_loop evs buf_len buf out g t = Some (buf', out', rest) ->
    Z.of_nat (length buf') <= buf_len - 1 /\ Forall printable buf'.
Proof.
  intros Hn. assert (Hu : u32 (buf_len - 1) = buf_len - 1)
    by (apply u32_small; lia32).
  induction evs as [|e evs IH]; intros rest buf buf' out out' g t Hl Hp H;
    cbn [read_line_loop] in H; [discriminate|].
  destruct e as [now|c now].
  - destruct (g && (u64 (now - t) >? 500000)).
    + injection H as <- _ _. auto.
    + apply (IH _ _ _ _ _ _ _ Hl Hp H).
  - destruct ((c =? 13) || (c =? 10)).
    { injection H as <- _ _. auto. }
    destruct ((c =? 8) || (c =? 127)).
    { destruct (0 <? Z.of_nat (length buf)).
      - apply (IH _ _ _ _ _ _ _) in H; [exact H| |].
        + rewrite length_removelast. lia.
        + apply Forall_removelast, Hp.
      - apply (IH _ _ _ _ _ _ _ Hl Hp H). }
    destruct ((c >=? 32) && (c <? 127)) eqn:Pr.
    2:{ apply (IH _ _ _ _ _ _ _ Hl Hp H). }
    rewrite Hu in H.
    destruct (Z.ltb_spec (Z.of_nat (length buf)) (buf_len - 1)).
    + apply (IH _ _ _ _ _ _ _) in H; [exact H| |].
      * rewrite length_app. cbn [length]. lia.
      * apply Forall_app. split; [exact Hp|]. constructor; [|constructor].
        apply andb_true_iff in Pr as [P1 P2].
        apply char_of_printable. apply Z.geb_le in P1. apply Z.ltb_lt in P2.
        lia.
    + apply (IH _ _ _ _ _ _ _ Hl Hp H).
Qed.

Lemma length_string_of_list (l : list ascii) :
  String.length (string_of_list_ascii l) = length l.
Proof. induction l as [|a l IH]; cbn; [reflexivity|]. rewrite IH. reflexivity. Qed.

(** X18. The line read fits the buffer with its terminator and holds
    printable characters only, whatever arrives on the console. *)
Theorem read_line_blocking_safe (t0 : Z) (evs rest : list key_event)
  (buf_len : Z) (line : string) (out : list Z) :
  1 <= buf_len < 2 ^ 32 ->
  read_line_blocking t0 evs buf_len = Some (line, out, rest) ->
  Z.of_nat (String.length line) <= buf_len - 1 /\
  Forall printable (list_ascii_of_string line).
Proof.
  intros Hn H. unfold read_line_blocking in H.
  destruct (read_line_loop evs buf_len [] [] false t0)
    as [[[buf o] r]|] eqn:E; [|discriminate].
  injection H as <- _ _.
  assert (L0 : Z.of_nat (length (@nil ascii)) <= buf_len - 1)
    by (cbn [length]; lia).
  destruct (read_line_loop_safe buf_len Hn _ _ _ _ _ _ _ _
              L0 (Forall_nil _) E) as (L & P).
  rewrite length_string_of_list, list_ascii_of_string_of_list_ascii. auto.
Qed.

Lemma read_line_loop_typed (buf_len now : Z) (tail : list key_event) :
  1 <= buf_len < 2 ^ 32 ->
  forall (l buf : list ascii) (out : list Z) (g : bool) (t : Z),
    Forall printable l ->
    Z.of_nat (length buf + length l) <= buf_len - 1 ->
    read_line_loop
      (map (fun a => KeyChar (Z.of_N (N_of_ascii a)) now) l ++ tail)
      buf_len buf out g t
    = read_line_loop tail buf_len (buf ++ l)
        (out ++ map (fun a => Z.of_N (N_of_ascii a)) l)
        (g || negb (length l =? 0)%nat) (if (length l =? 0)%nat then t else now).
Proof.
  intros Hn. assert (Hu : u32 (buf_len - 1) = buf_len - 1)
    by (apply u32_small; lia32).
  induction l as [|a l IH]; intros buf out g t Hp Hl.
  - cbn [map app length Nat.eqb negb]. rewrite !app_nil_r, orb_false_r.
    reflexivity.
  - inversion Hp as [|? ? Pa Pl]; subst.
    cbn [map app read_line_loop]. unfold printable in Pa.
    set (c := Z.of_N (N_of_ascii a)) in *.
    destruct (Z.eqb_spec c 13); [lia|]. destruct (Z.eqb_spec c 10); [lia|].
    destruct (Z.eqb_spec c 8); [lia|]. destruct (Z.eqb_spec c 127); [lia|].
    cbn [orb].
    destruct (Z.geb_spec c 32); [|lia]. destruct (Z.ltb_spec c 127); [|lia].
    cbn [andb]. rewrite Hu. cbn [length] in Hl.
    destruct (Z.ltb_spec (Z.of_nat (length buf)) (buf_len - 1)); [|lia].
    rewrite IH; [|exact Pl|rewrite length_app; cbn [length]; lia].
    assert (Ec : char_of c = a).
    { unfold char_of, c. rewrite N2Z.id. apply ascii_N_embedding. }
    rewrite Ec, <- !app_assoc. cbn [app length Nat.eqb negb].
    rewrite orb_true_r.
    destruct (length l =? 0)%nat; reflexivity.
Qed.

(** X19. A line of printable characters that fits the buffer, typed without
    corrections and ended with Enter, is returned as typed and echoed as
    typed; what follows Enter is left unread. *)
Theorem read_line_blocking_typed (t0 now now' : Z) (line : string)
  (tail : list key_event) (buf_len : Z) :
  1 <= buf_len < 2 ^ 32 ->
  Forall printable (list_ascii_of_string line) ->
  Z.of_nat (String.length line) <= buf_len - 1 ->
  read_line_blocking t0 (typed line now ++ KeyChar 13 now' :: tail) buf_len
  = Some (line,
          map (fun a => Z.of_N (N_of_ascii a)) (list_ascii_of_string line)
            ++ [10],
          tail).
Proof.
  intros Hn Hp Hl. unfold read_line_blocking, typed.
  rewrite (read_line_loop_typed buf_len now _ Hn).
  - cbn [read_line_loop Z.eqb orb app Pos.eqb].
    rewrite string_of_list_ascii_of_string. reflexivity.
  - exact Hp.
  - rewrite <- (length_string_of_list (list_ascii_of_string line)),
      string_of_list_ascii_of_string. cbn [length Nat.add]. exact Hl.
Qed.

(** X20. Before anything is typed, time-outs do not end the line, however
    long they last. *)
Theorem read_line_blocking_waits (t0 : Z) (idle : list Z)
  (evs : list key_event) (buf_len : Z) :
  read_line_blocking t0 (map KeyNone idle ++ evs) buf_len
  = read_line_blocking t0 evs buf_len.
Proof.
  unfold read_line_blocking. f_equal.
  induction idle as [|t idle IH]; [reflexivity|].
  cbn [map app read_line_loop andb]. exact IH.
Qed.

(** *** The path of menu option 4 *)

Lemma substring_all (n : nat) (x : string) :
  (String.length x <= n)%nat -> substring 0 n x = x.
Proof.
  revert x. induction n as [|n IH]; intros x H.
  - destruct x; [reflexivity|cbn in H; lia].
  - destruct x as [|a x]; [reflexivity|]. cbn [substring].
    rewrite IH; [reflexivity|]. cbn in H. lia.
Qed.

Lemma length_append (a b : string) :
  String.length (a ++ b) = (String.length a + String.length b)%nat.
Proof. induction a as [|c a IH]; cbn; [reflexivity|]. rewrite IH. reflexivity. Qed.

(** X21. A line as [read_line_blocking] returns it into the 128-byte buffer
    of menu option 4, if not empty, is never cut: a bare name is looked up
    inside the dump folder, a name with a slash or a backslash is used as
    it stands, and restore opens that very path. *)
Theorem menu_restore_path_whole (input : string) (v : volume) :
  (String.length input <= 127)%nat ->
  string_nonempty input = true ->
  let p := if negb (strchr input "/") && negb (strchr input "\")
           then (DUMP_FOLDER ++ "/" ++ input)%string else input in
  menu_restore_path input = Some p /\
  restore_target (Some p) v = (0, p).
Proof.
  intros Hl Hn p. unfold menu_restore_path. rewrite Hn. cbn [negb].
  subst p. unfold snprintf_s.
  destruct (negb (strchr input "/") && negb (strchr input "\")).
  - rewrite substring_all
      by (rewrite !length_append; cbn [String.length DUMP_FOLDER]; lia).
    split; reflexivity.
  - rewrite substring_all by lia. split; [reflexivity|].
    destruct input; [discriminate Hn|reflexivity].
Qed.



(* ================================================================= *)
(** ** Further properties: the checksum pass *)

Section Reads.

Variable B : Board.
Variable fuel : nat.

Local Abbreviation state := (state (hw B)).

Lemma read_emits (addr : Z) (len : nat) (s : state) :
  (0 < len)%nat ->
  fst (fst (flash_dut_read B addr len s)) = true /\
  runs s (snd (flash_dut_read B addr len s)) [read_frame addr len].
Proof.
  intros H. split; [apply (read_length B addr len s), H|].
  apply (runs_read B addr len s H).
Qed.

(** The chunk loop of [crc32_over_flash] reads the range it was given, in
    order and each byte once, and nothing else reaches the bus. *)
Lemma crc32_flash_loop_covers (chunk : Z) :
  0 < chunk < 2 ^ 32 ->
  forall (k : nat) (crc addr remain : Z) (s s' : state) (rc crc' : Z),
    0 <= addr -> 0 <= remain -> addr + remain <= 2 ^ 32 ->
    crc32_flash_loop B k chunk crc addr remain s = Some (rc, crc', s') ->
    rc = 0 /\
    exists plan,
      covers chunk addr plan (addr + remain) /\
      runs s s' (map (fun p => read_frame (fst p) (snd p)) plan).
Proof.
  intros Hc. induction k as [|k IH];
    intros crc addr remain s s' rc crc' Ha Hr Hs H;
    cbn [crc32_flash_loop] in H.
  - destruct (Z.eqb_spec remain 0) as [->|]; [|discriminate].
    injection H as <- _ <-. split; [reflexivity|].
    exists []. split; [cbn; lia|apply runs_refl].
  - destruct (Z.eqb_spec remain 0) as [->|N].
    { injection H as <- _ <-. split; [reflexivity|].
      exists []. split; [cbn; lia|apply runs_refl]. }
    set (n := if remain >? chunk then chunk else remain) in H.
    assert (Hn : 0 < n <= remain /\ n <= chunk).
    { subst n. destruct (Z.gtb_spec remain chunk); lia. }
    destruct (read_emits addr (Z.to_nat n) s ltac:(lia)) as (Ok & R1).
    destruct (flash_dut_read B addr (Z.to_nat n) s) as [[ok buf] s1].
    cbn [fst snd] in Ok, R1. subst ok. cbn [negb] in H.
    destruct (Z.eq_dec (addr + n) (2 ^ 32)) as [E|E].
    + assert (remain = n) by lia32.
      assert (Hu : u32 (remain - n) = 0)
        by (replace (remain - n) with 0 by lia; reflexivity).
      rewrite Hu in H. destruct k; cbn [crc32_flash_loop Z.eqb] in H;
        injection H as <- _ <-; (split; [reflexivity|]);
        exists [(addr, Z.to_nat n)];
        (split; [cbn [covers]; rewrite Z2Nat.id by lia; lia|]);
        exact R1.
    + assert (Hu1 : u32 (addr + n) = addr + n) by (apply u32_small; lia32).
      assert (Hu2 : u32 (remain - n) = remain - n) by (apply u32_small; lia32).
      rewrite Hu1, Hu2 in H.
      assert (A1 : 0 <= addr + n) by lia.
      assert (A2 : 0 <= remain - n) by lia.
      assert (A3 : addr + n + (remain - n) <= 2 ^ 32) by lia.
      destruct (IH _ _ _ _ _ _ _ A1 A2 A3 H) as (-> & plan & Cv & R2).
      split; [reflexivity|].
      exists ((addr, Z.to_nat n) :: plan). split.
      * cbn [covers]. rewrite Z2Nat.id by lia.
        replace (addr + n + (remain - n)) with (addr + remain) in Cv by lia.
        repeat split; try lia. exact Cv.
      * apply (runs_trans _ _ _ _ _ _ R1 R2).
Qed.


End Reads.

(* ================================================================= *)
(** ** Further properties: names, mounting, backup then restore *)

(** *** The name of a backup *)

Lemma length_digit (d : Z) :
  0 <= d < 10 -> String.length (substring (Z.to_nat d) 1 "0123456789") = 1%nat.
Proof.
  intros H.
  assert (C : d = 0 \/ d = 1 \/ d = 2 \/ d = 3 \/ d = 4 \/ d = 5 \/ d = 6
              \/ d = 7 \/ d = 8 \/ d = 9) by lia.
  repeat (destruct C as [->|C]; [reflexivity|]). subst d. reflexivity.
Qed.

Lemma length_dec_digits (k : nat) (x : Z) :
  String.length (dec_digits k x) = k.
Proof.
  revert x. induction k as [|k IH]; intros x; cbn [dec_digits];
    [reflexivity|].
  rewrite length_append, IH, length_digit; [lia|].
  apply Z.mod_pos_bound. lia.
Qed.

Lemma length_hex02 (b : byte) : String.length (hex02 b) = 2%nat.
Proof. destruct b; reflexivity. Qed.

Lemma strstr_self (p : string) : strstr p p = true.
Proof.
  assert (P : String.prefix p p = true).
  { induction p as [|a p IH]; [reflexivity|]. cbn [String.prefix].
    destruct (ascii_dec a a); [exact IH|congruence]. }
  destruct p; cbn [strstr]; rewrite P; reflexivity.
Qed.

Lemma strstr_append (a b p : string) :
  strstr b p = true -> strstr (a ++ b) p = true.
Proof.
  intros H. induction a as [|c a IH]; [exact H|].
  cbn [append strstr]. rewrite IH.
  destruct (String.prefix p (String c (a ++ b))); reflexivity.
Qed.

(** The name a backup gives its file is 32 characters long, so that no
    buffer cuts it; it lies in the dump folder, and the name inside the
    folder contains ".fimg", so that the listing and the chooser see it. *)
Lemma backup_name_parts (t : Z) (id : jedec_info_t) :
  let stamp := snprintf_s 32 (fmt_stamp (u32 t)) in
  let name := backup_name stamp id in
  String.length name = 32%nat /\
  exists n,
    name = (DUMP_FOLDER ++ "/" ++ n)%string /\
    strip_prefix (DUMP_FOLDER ++ "/") name = Some n /\
    string_nonempty n = true /\
    strstr n ".fimg" = true /\
    snprintf_s 128 (DUMP_FOLDER ++ "/" ++ n)%string = name.
Proof.
  intros stamp name.
  assert (Ls : String.length (fmt_stamp (u32 t)) = 11%nat).
  { unfold fmt_stamp. rewrite length_append, length_dec_digits. reflexivity. }
  assert (Es : stamp = fmt_stamp (u32 t)).
  { unfold stamp, snprintf_s. apply substring_all. lia. }
  set (n := (stamp ++ "_" ++ hex02 (manuf_id id) ++ hex02 (mem_type id)
             ++ hex02 (capacity_id id) ++ ".fimg")%string).
  assert (Ln : String.length n = 23%nat).
  { unfold n. rewrite !length_append, !length_hex02, Es, Ls. reflexivity. }
  assert (En : name = (DUMP_FOLDER ++ "/" ++ n)%string).
  { unfold name, backup_name, snprintf_s. fold n. apply substring_all.
    rewrite !length_append, Ln. cbn. lia. }
  split.
  - rewrite En, !length_append, Ln. reflexivity.
  - exists n. split; [exact En|]. split; [rewrite En; reflexivity|].
    split.
    + unfold n. rewrite Es. reflexivity.
    + split.
      * unfold n. do 5 apply strstr_append. apply strstr_self.
      * rewrite En. unfold snprintf_s. apply substring_all.
        rewrite !length_append, Ln. cbn. lia.
Qed.

(** X23. The name a backup gives its file is 32 characters long, so that no
    buffer cuts it; it lies in the dump folder, and the name inside the
    folder contains ".fimg", so that the listing and the chooser see it. *)
Theorem backup_name_shape (t : Z) (id : jedec_info_t) :
  let stamp := snprintf_s 32 (fmt_stamp (u32 t)) in
  let name := backup_name stamp id in
  String.length name = 32%nat /\
  exists n,
    name = (DUMP_FOLDER ++ "/" ++ n)%string /\
    strip_prefix (DUMP_FOLDER ++ "/") name = Some n /\
    string_nonempty n = true /\
    strstr n ".fimg" = true /\
    snprintf_s 128 (DUMP_FOLDER ++ "/" ++ n)%string = name.
Proof. exact (backup_name_parts t id). Qed.

Section Compose.

Variable B : Board.
Variable fuel : nat.

Local Abbreviation state := (state (hw B)).

(** *** Mounting *)

(** X24. Restore, backup and the listing give up with -1, leaving everything
    as it was, when the card has never been mounted and does not answer; in
    every other state restore and backup never return -1: once a mount has
    succeeded they no longer ask the card. *)
Theorem mount_failure_status (name : option string) (s : state) :
  (st_mounted s = false /\ card_ready (st_vol s) = false ->
   restore_flash_from_sd B fuel name s = Some (-1, s) /\
   backup_flash_to_sd B fuel s = Some (-1, s) /\
   list_flash_images B s = (-1, [], s)) /\
  (st_mounted s = true \/ card_ready (st_vol s) = true ->
   (forall rc s', restore_flash_from_sd B fuel name s = Some (rc, s') ->
                  rc <> -1) /\
   (forall rc s', backup_flash_to_sd B fuel s = Some (rc, s') -> rc <> -1)).
Proof.
  split.
  - intros [Hm Hc].
    assert (M : fs_mount_once B s = (false, s)).
    { unfold fs_mount_once, f_mount. rewrite Hm, Hc. reflexivity. }
    unfold restore_flash_from_sd, backup_flash_to_sd, list_flash_images.
    rewrite M. auto.
  - intros Hor.
    assert (No : ~ (st_mounted s = false /\ card_ready (st_vol s) = false)).
    { intros [A C]. destruct Hor; congruence. }
    split.
    + intros rc s' H.
      destruct (restore_outcomes _ _ _ _ _ _ H)
        as [(_ & _ & A)|(si & _ & [[St _]|[St _]])]; [tauto|lia|lia].
    + intros rc s' H.
      destruct (backup_outcomes _ _ _ _ _ H) as [(_ & _ & A)|(St & _)];
        [tauto|lia].
Qed.

(** *** Backup, then restore *)

(** X25. The file a backup that returned 0 has written gets through every
    check of a later restore of that file and to the erase, on any board,
    as long as the card is as the backup left it. *)
Theorem backup_image_passes_checks (s s1 : state) :
  backup_flash_to_sd B fuel s = Some (0, s1) ->
  exists stamp id h fp,
    flash_size h = detected_size id /\ image_size h = detected_size id /\
    forall s2 si : state,
      st_vol s2 = st_vol s1 ->
      flash_dut_init B fuel (mounted s2) = Some (true, si) ->
      malloc B CHUNK_BYTES si = true ->
      restore_flash_from_sd B fuel (Some (backup_name stamp id)) s2
      = restore_write B fuel h fp si.
Proof.
  intros H.
  destruct (backup_success_image B fuel s s1 H)
    as (id & stamp & f & payload & Hc & _ & Hf & Lp & Hd).
  cbv zeta in Hd.
  destruct (detected_size_facts id) as (Hsz & _).
  set (h := mkHdr FIMG_MAGIC id x00 (detected_size id) CHUNK_BYTES
              (detected_size id) (crc32_update 0 payload)) in *.
  exists stamp, id, h,
    (mkFIL (backup_name stamp id) (Z.to_nat HDR_SIZE + length payload + 4)).
  split; [reflexivity|]. split; [reflexivity|].
  intros s2 si Hv Hi Hm.
  apply (restore_valid_image B fuel _ s2 si _ f h payload).
  - split; [rewrite Hv; exact Hc|]. split; [exists true; exact Hi|].
    split; [reflexivity|]. split; [rewrite Hv; exact Hf|].
    rewrite Hd, !length_app, hdr_bytes_length. unfold HDR_SIZE. lia.
  - exact Hd.
  - reflexivity.
  - cbn [h flash_size]. lia32.
  - cbn [h chunk_size]. unfold CHUNK_BYTES. lia32.
  - cbn [h image_size]. lia32.
  - cbn [h chunk_size]. unfold CHUNK_BYTES. lia.
  - cbn [h image_size]. lia.
  - intros ->. cbn [length] in Lp. lia.
  - reflexivity.
  - exact Hm.
Qed.

End Compose.

(* ================================================================= *)
(** ** Further properties: the driver on the synthetic chip *)

(** *** Erase, program and read on the synthetic chip *)

Lemma program_bytes_fresh_tail (d T : list byte) :
  forall (P : list byte) (k base off : nat),
    (base + off = length P)%nat -> (off + length d <= 256)%nat ->
    (length d <= k)%nat ->
    Sim.program_bytes (P ++ repeat xff k ++ T) base off d
    = P ++ d ++ repeat xff (k - length d) ++ T.
Proof.
  induction d as [|x r IH]; intros P k base off HP Hoff Hk.
  - cbn [Sim.program_bytes length app]. rewrite Nat.sub_0_r. reflexivity.
  - cbn [Sim.program_bytes]. cbn [length] in Hoff, Hk.
    rewrite Nat.mod_small by lia. rewrite HP.
    destruct k as [|k]; [lia|]. cbn [repeat app].
    rewrite nth_middle, band_ff, upd_middle.
    change (P ++ x :: repeat xff k ++ T) with (P ++ [x] ++ repeat xff k ++ T).
    rewrite app_assoc.
    rewrite (IH (P ++ [x]) k base (S off)).
    + rewrite <- app_assoc. reflexivity.
    + rewrite length_app. simpl. lia.
    + lia.
    + lia.
Qed.

Lemma erase_aligned (m : list byte) (a : nat) :
  (a mod 4096 = 0)%nat -> (a + 4096 <= length m)%nat ->
  Sim.erase m a = firstn a m ++ repeat xff 4096 ++ skipn (a + 4096) m.
Proof.
  intros Ha Hl. unfold Sim.erase. rewrite Ha, Nat.sub_0_r.
  rewrite Nat.min_l by lia. reflexivity.
Qed.

Section SyntheticDriver.

Variable fuel : nat.
Variable i : jedec_info_t.
Variable l : nat.
Variables tk hp : Z.

Hypothesis Hfuel : (l < fuel)%nat.
Hypothesis Htk : 0 <= tk.
Hypothesis Hlat : Z.of_nat l * tk <= 200.

Local Abbreviation state := (state (hw Sim.board)).

(** X26. On the synthetic chip, erasing a sector, programming up to a page
    at its start and reading the bytes back returns what was programmed;
    the rest of the sector holds 0xFF and the memory outside the sector is
    as it was. *)
Theorem sim_erase_program_read (m : list byte) (w : bool) (v : volume)
  (mtd : bool) (s : state) (addr : Z) (d : list byte) :
  sim_at i l tk hp m w v mtd s ->
  0 <= addr -> addr mod 4096 = 0 ->
  addr + 4096 <= Z.of_nat (length m) <= 2 ^ 24 ->
  1 <= Z.of_nat (length d) <= FLASH_PAGE_SIZE ->
  exists s1 s2 s3,
    flash_dut_erase_4k Sim.board fuel addr s = Some (true, s1) /\
    flash_dut_program_page Sim.board fuel addr (Some d) s1 = Some (true, s2) /\
    flash_dut_read Sim.board addr (length d) s2 = (true, d, s3) /\
    Sim.mem (st_hw s3)
    = firstn (Z.to_nat addr) m ++ d ++ repeat xff (4096 - length d)
      ++ skipn (Z.to_nat addr + 4096) m.
Proof.
  intros Hat Ha Hal Hm Hd. unfold FLASH_PAGE_SIZE in Hd.
  assert (Ha24 : 0 <= addr < 2 ^ 24) by lia32.
  assert (Hlt : (Z.to_nat addr < length m)%nat) by lia.
  destruct (sim_erase_4k fuel i l tk hp Hfuel Htk Hlat m w v mtd addr s
              Hat Ha24 Hlt) as (s1 & E1 & H1).
  assert (Hn : (Z.to_nat addr mod 4096 = 0)%nat).
  { rewrite to_nat_mod_4096 by lia. rewrite Hal. reflexivity. }
  rewrite erase_aligned in H1 by lia.
  destruct (sim_program_page fuel i l tk hp Hfuel Htk Hlat _ _ _ _ addr d s1
              H1 Ha24 Hd) as (s2 & E2 & H2).
  { rewrite !length_app, length_firstn, repeat_length. lia. }
  assert (Hp : (Z.to_nat addr mod 256 = 0)%nat).
  { rewrite to_nat_mod_256 by lia.
    replace (addr mod 256) with 0 by (Z.div_mod_to_equations; lia).
    reflexivity. }
  unfold Sim.program in H2. rewrite Hp, Nat.sub_0_r in H2.
  rewrite program_bytes_fresh_tail in H2
    by (try rewrite length_firstn; lia).
  set (m2 := firstn (Z.to_nat addr) m ++ d ++ repeat xff (4096 - length d)
             ++ skipn (Z.to_nat addr + 4096) m) in *.
  assert (L2 : length m2 = length m).
  { unfold m2. rewrite !length_app, length_firstn, repeat_length,
      length_skipn. lia. }
  destruct (sim_read fuel i l tk hp Hfuel m2 false v mtd addr (length d) s2
              H2 Ha24)
    as (s3 & E3 & H3); [lia|lia|].
  exists s1, s2, s3. split; [exact E1|]. split; [exact E2|]. split.
  - rewrite E3. f_equal. f_equal. unfold m2.
    rewrite skipn_app, length_firstn, Nat.min_l by lia.
    rewrite skipn_all2 by (rewrite length_firstn; lia).
    rewrite Nat.sub_diag. cbn [skipn app].
    rewrite firstn_app, Nat.sub_diag, firstn_all. cbn [firstn].
    apply app_nil_r.
  - apply (sim_mem _ _ _ _ _ _ _ _ _ H3).
Qed.


(** X27. On the synthetic chip the checksum pass over the whole memory
    returns the CRC-32 of its content, whatever the chunk size, and leaves
    the memory as it was. *)
Theorem sim_crc32_over_flash (m : list byte) (w : bool) (v : volume)
  (mtd : bool) (s : state) (chunk : Z) :
  sim_at i l tk hp m w v mtd s ->
  Z.of_nat (length m) <= 2 ^ 24 -> 0 < chunk <= hp ->
  exists s',
    crc32_over_flash Sim.board (Z.of_nat (length m)) chunk s
    = Some (0, crc32_update 0 m, s') /\
    sim_at i l tk hp m w v mtd s'.
Proof.
  intros Hat Hm Hc. unfold crc32_over_flash.
  destruct (Z.eqb_spec chunk 0); [lia|].
  rewrite (sim_malloc _ _ _ _ _ _ _ _ chunk _ Hat) by lia. cbn [negb].
  assert (Z0 : in_u32 0) by lia32.
  destruct (sim_crc_flash_loop fuel i l tk hp Hfuel m w v mtd chunk Hm
              ltac:(lia) (Z.to_nat (Z.of_nat (length m) / chunk + 1)) 0
              (Z.of_nat (length m)) 0 s Z0 ltac:(lia) ltac:(lia) ltac:(lia))
    as (s' & E & H'); [|exact Hat|].
  - rewrite Z2Nat.id.
    + pose proof (Z.mul_succ_div_gt (Z.of_nat (length m)) chunk ltac:(lia)).
      lia.
    + pose proof (Z.div_pos (Z.of_nat (length m)) chunk ltac:(lia) ltac:(lia)).
      lia.
  - exists s'. split; [exact E|exact H'].
Qed.

End SyntheticDriver.

(* ================================================================= *)
(** ** Further properties: the erase loop, and restoring the latest image *)

Section EraseLoop.

Variable B : Board.
Variable fuel : nat.

Local Abbreviation state := (state (hw B)).

Lemma erase_4k_success (addr : Z) (s s' : state) :
  flash_dut_erase_4k B fuel addr s = Some (true, s') ->
  runs s s' (erase_once addr) \/ runs s s' (erase_twice addr).
Proof.
  intros H. rewrite erase_4k_stages in H.
  destruct (erase_first B fuel addr s) as [s1|] eqn:H1; [|discriminate].
  pose proof (runs_erase_first _ _ _ _ _ H1) as R1.
  destruct (flash_wait_busy_timeout B fuel 2000 s1) as [[[|] s2]|] eqn:W1;
    [| |discriminate].
  { injection H as <-. left.
    eapply runs_eq;
      [eapply runs_trans; [exact R1|apply (runs_wait _ _ _ _ _ _ W1)]|].
    apply app_nil_r. }
  destruct (erase_retry B fuel addr s2) as [s3|] eqn:H2; [|discriminate].
  pose proof (runs_erase_retry _ _ _ _ _ H2) as R3.
  destruct (flash_wait_busy_timeout B fuel 3000 s3) as [[[|] s4]|] eqn:W2;
    [| |discriminate]; [|discriminate].
  injection H as <-. right.
  eapply runs_eq.
  - eapply runs_trans; [exact R1|].
    eapply runs_trans; [apply (runs_wait _ _ _ _ _ _ W1)|].
    eapply runs_trans; [exact R3|apply (runs_wait _ _ _ _ _ _ W2)].
  - unfold erase_twice, erase_once. cbn [app]. rewrite app_nil_r.
    reflexivity.
Qed.

Lemma restore_erase_loop_sectors (fs : Z) :
  0 <= fs <= 0xFFFFF000 ->
  forall (k : nat) (a : Z) (s s' : state),
    0 <= a -> a mod FLASH_SECTOR_SIZE = 0 ->
    restore_erase_loop B fuel k a fs s = Some (true, s') ->
    exists per,
      runs s s' (concat per) /\
      Forall2 (fun j E =>
                 E = erase_once (a + FLASH_SECTOR_SIZE * Z.of_nat j) \/
                 E = erase_twice (a + FLASH_SECTOR_SIZE * Z.of_nat j))
        (seq 0 (Z.to_nat ((fs + 4095 - a) / FLASH_SECTOR_SIZE))) per.
Proof.
  unfold FLASH_SECTOR_SIZE. intros Hfs.
  induction k as [|k IH]; intros a s s' Ha Hm H;
    cbn [restore_erase_loop] in H.
  - destruct (Z.ltb_spec a fs); [discriminate|]. injection H as <-.
    exists []. split; [apply runs_refl|].
    replace (Z.to_nat ((fs + 4095 - a) / 4096)) with 0%nat.
    + constructor.
    + assert ((fs + 4095 - a) / 4096 <= 0)
        by (Z.div_mod_to_equations; lia).
      lia.
  - destruct (Z.ltb_spec a fs) as [Hlt|Hge].
    2:{ injection H as <-. exists []. split; [apply runs_refl|].
        assert ((fs + 4095 - a) / 4096 <= 0)
          by (Z.div_mod_to_equations; lia).
        replace (Z.to_nat ((fs + 4095 - a) / 4096)) with 0%nat by lia.
        constructor. }
    destruct (flash_dut_erase_4k B fuel a s) as [[ok s1]|] eqn:E;
      [|discriminate].
    destruct ok; cbn [negb] in H; [|discriminate].
    unfold FLASH_SECTOR_SIZE in H.
    assert (Hu : u32 (a + 4096) = a + 4096) by (apply u32_small; lia32).
    rewrite Hu in H.
    assert (A1 : 0 <= a + 4096) by lia.
    assert (A2 : (a + 4096) mod 4096 = 0) by (Z.div_mod_to_equations; lia).
    destruct (IH _ _ _ A1 A2 H) as (per & R2 & F2).
    assert (Hq : Z.to_nat ((fs + 4095 - a) / 4096)
                 = S (Z.to_nat ((fs + 4095 - (a + 4096)) / 4096))).
    { replace (fs + 4095 - a) with (fs + 4095 - (a + 4096) + 1 * 4096) by lia.
      rewrite Z.div_add by lia.
      assert (0 <= (fs + 4095 - (a + 4096)) / 4096)
        by (apply Z.div_pos; lia).
      lia. }
    rewrite Hq. cbn [seq]. rewrite <- seq_shift.
    assert (F3 : Forall2
                   (fun j E =>
                      E = erase_once (a + 4096 * Z.of_nat j) \/
                      E = erase_twice (a + 4096 * Z.of_nat j))
                   (map S (seq 0 (Z.to_nat ((fs + 4095 - (a + 4096)) / 4096))))
                   per).
    { clear - F2. revert F2.
      generalize (seq 0 (Z.to_nat ((fs + 4095 - (a + 4096)) / 4096))).
      intros l F2. induction F2 as [|j E l per HjE F2 IH2]; cbn [map];
        constructor; [|exact IH2].
      replace (a + 4096 * Z.of_nat (S j)) with (a + 4096 + 4096 * Z.of_nat j)
        by lia.
      exact HjE. }
    destruct (erase_4k_success _ _ _ E) as [R1|R1].
    + exists (erase_once a :: per). split.
      * cbn [concat]. apply (runs_trans _ _ _ _ _ _ R1 R2).
      * constructor; [|exact F3]. left. do 2 f_equal. lia.
    + exists (erase_twice a :: per). split.
      * cbn [concat]. apply (runs_trans _ _ _ _ _ _ R1 R2).
      * constructor; [|exact F3]. right. do 2 f_equal. lia.
Qed.


End EraseLoop.

(** *** Backup, then restore of the latest image *)

Lemma store_file_twice (p : string) (f g : file) (fs : list (string * file)) :
  store_file p g (store_file p f fs) = store_file p g fs.
Proof.
  induction fs as [|[q h] fs IH]; cbn [store_file].
  - rewrite String.eqb_refl. reflexivity.
  - destruct (String.eqb q p) eqn:E; cbn [store_file]; rewrite E;
      [reflexivity|]. rewrite IH. reflexivity.
Qed.

Lemma rewrites_refl (p : string) (v : volume) : rewrites p v v.
Proof. split; [reflexivity|]. split; [reflexivity|]. left. reflexivity. Qed.

Lemma rewrites_trans (p : string) (v1 v2 v3 : volume) :
  rewrites p v1 v2 -> rewrites p v2 v3 -> rewrites p v1 v3.
Proof.
  intros (C1 & F1 & H1) (C2 & F2 & H2).
  split; [congruence|]. split; [congruence|].
  destruct H2 as [E2|(g & E2)]; rewrite E2.
  - exact H1.
  - right. destruct H1 as [E1|(f & E1)]; rewrite E1.
    + exists g. reflexivity.
    + exists g. apply store_file_twice.
Qed.

Lemma f_write_rewrites (fp : FIL) (buf : list byte) (v : volume) :
  rewrites (fil_path fp) v (snd (f_write fp buf v)).
Proof.
  unfold f_write.
  destruct (lookup_file (fil_path fp) (files v)) as [f|]; cbn [fst snd].
  - split; [reflexivity|]. split; [reflexivity|]. right.
    eexists. reflexivity.
  - apply rewrites_refl.
Qed.

(** The listing of a card whose dump folder was empty, after a file in the
    folder has been stored. *)
Lemma dir_entries_store (name n : string) (f : file) (v v' : volume) :
  strip_prefix (DUMP_FOLDER ++ "/") name = Some n ->
  dir_entries v = [] ->
  files v' = store_file name f (files v) ->
  dir_entries v' = [mkFILINFO n (file_date f) (file_time f)].
Proof.
  unfold dir_entries. intros Hn He ->. revert He.
  induction (files v) as [|[q h] fs IH]; cbn [store_file flat_map]; intros He.
  - cbn [fst snd]. rewrite Hn. reflexivity.
  - apply app_eq_nil in He as [E1 E2]. cbn [fst snd] in E1.
    destruct (String.eqb_spec q name) as [->|N].
    + rewrite Hn in E1. discriminate E1.
    + cbn [flat_map fst snd]. rewrite E1. cbn [app]. apply (IH E2).
Qed.

Section Latest.

Variable B : Board.
Variable fuel : nat.

Local Abbreviation state := (state (hw B)).

Lemma backup_loop_rewrites (k : nat) (fp fp' : FIL) (crc addr total : Z)
  (s s' : state) (rc crc' : Z) :
  backup_loop B k fp crc addr total s = Some (rc, crc', fp', s') ->
  rewrites (fil_path fp) (st_vol s) (st_vol s').
Proof.
  revert fp crc addr total s.
  induction k as [|k IH]; intros fp crc addr total s H; cbn [backup_loop] in H.
  - destruct (total =? 0); [|discriminate]. injection H as _ _ _ <-.
    apply rewrites_refl.
  - destruct (total =? 0).
    { injection H as _ _ _ <-. apply rewrites_refl. }
    destruct (read_length B addr
                (Z.to_nat (if total >? CHUNK_BYTES then CHUNK_BYTES else total))
                s) as (_ & V1 & _).
    destruct (flash_dut_read B addr _ s) as [[ok buf] s1].
    cbn [snd] in V1. destruct ok; cbn [negb] in H.
    2:{ injection H as _ _ _ <-. rewrite V1. apply rewrites_refl. }
    pose proof (f_write_rewrites fp buf (st_vol s1)) as W.
    pose proof (f_write_same_but fp buf (st_vol s1)) as (_ & P1).
    destruct (f_write fp buf (st_vol s1)) as [[[fr bw] fp1] v1].
    cbn [fst snd] in W, P1. rewrite V1 in W.
    destruct (negb (fr_ok fr) || negb (bw =? _)).
    { injection H as _ _ _ <-. exact W. }
    apply IH in H. rewrite P1 in H. cbn [set_vol st_vol] in H.
    apply (rewrites_trans _ _ _ _ W H).
Qed.

(** The card after a backup that returned 0: the card before with the
    image stored at the name built from the clock and the chip's
    identification. *)
Lemma backup_success_files (s s1 : state) :
  backup_flash_to_sd B fuel s = Some (0, s1) ->
  exists t id f,
    files (st_vol s1)
    = store_file (backup_name (snprintf_s 32 (fmt_stamp (u32 t))) id) f
        (files (st_vol s)) /\
    card_ready (st_vol s1) = true /\ has_folder (st_vol s1) = true.
Proof.
  unfold backup_flash_to_sd. intros H.
  destruct (fs_mount_once_cases B s) as [[M _]|M]; rewrite M in H;
    cbn [negb] in H; [discriminate|].
  destruct (flash_dut_init B fuel (mounted s)) as [[ok si]|] eqn:I;
    [|discriminate].
  destruct (runs_init _ _ _ _ _ I) as (-> & VI & _). cbn [negb] in H.
  pose proof (emits_jedec B si) as J. cbn zeta in J.
  destruct (flash_dut_read_jedec B si) as [[ok id] sj].
  cbn [fst snd] in J. destruct J as (-> & VJ & _). cbn [negb] in H.
  cbn [flash_dut_probe_capacity_sfdp andb] in H.
  assert (Ve : files (st_vol (ensure_folder B sj)) = files (st_vol s)).
  { unfold ensure_folder, set_vol, f_mkdir, set_folder.
    destruct (negb (fr_ok (f_opendir (st_vol sj)))); cbn [st_vol].
    - destruct (card_ready (st_vol sj)); cbn [files]; rewrite VJ, VI;
        reflexivity.
    - rewrite VJ, VI. reflexivity. }
  unfold fmt_time, to_ms_since_boot in H.
  destruct (bd_now B (st_hw (ensure_folder B sj))) as [t hw1].
  cbn [st_vol st_hw st_bus st_mounted] in H.
  set (name := backup_name (snprintf_s 32 (fmt_stamp (u32 t))) id) in H.
  pose proof (f_open_same_but name FA_CREATE_ALWAYS_WRITE
                (st_vol (ensure_folder B sj))) as (_ & P1).
  destruct (f_open name FA_CREATE_ALWAYS_WRITE (st_vol (ensure_folder B sj)))
    as [[fr fp] v1] eqn:O.
  cbn [fst snd] in P1.
  destruct fr; cbn [fr_ok negb] in H; try discriminate.
  assert (O1 : card_ready v1 = true /\ has_folder v1 = true /\
               exists f0, files v1
                          = store_file name f0 (files (st_vol s))).
  { unfold f_open, FA_CREATE_ALWAYS_WRITE in O.
    destruct (card_ready (st_vol (ensure_folder B sj))) eqn:C;
      cbn [negb] in O; [|discriminate].
    destruct (has_folder (st_vol (ensure_folder B sj))) eqn:F;
      [|discriminate].
    injection O as _ <-. cbn [set_files card_ready has_folder files].
    rewrite Ve. split; [exact C|]. split; [exact F|]. eexists. reflexivity. }
  destruct O1 as (C1 & F1 & f0 & E1).
  assert (Fin : forall v', rewrites name v1 v' ->
                  exists f, files v' = store_file name f (files (st_vol s)) /\
                            card_ready v' = true /\ has_folder v' = true).
  { intros v' (C & F & [E|(g & E)]).
    - exists f0. rewrite E, C, F. auto.
    - exists g. rewrite E, E1, store_file_twice, C, F. auto. }
  cbn [set_vol st_vol st_hw st_bus st_mounted] in H.
  match type of H with
  | context [f_write fp ?b v1] =>
      pose proof (f_write_rewrites fp b v1) as W2;
      pose proof (f_write_same_but fp b v1) as (_ & P2);
      destruct (f_write fp b v1) as [[[fr2 bw2] fp2] v2]
  end.
  cbn [fst snd] in W2, P2. rewrite P1 in W2.
  destruct (negb (fr_ok fr2) || negb (bw2 =? HDR_SIZE)); [discriminate|].
  match type of H with
  | (if negb (malloc _ _ ?x) then _ else _) = _ => set (sb := x) in *
  end.
  destruct (negb (malloc B CHUNK_BYTES sb)); [discriminate|].
  match type of H with
  | context [backup_loop B ?k fp2 0 0 ?z sb] =>
      destruct (backup_loop B k fp2 0 0 z sb)
        as [[[[rc1 crc] fp3] s3]|] eqn:L; [|discriminate]
  end.
  pose proof (backup_loop_rewrites _ _ _ _ _ _ _ _ _ _ L) as W3.
  destruct (backup_loop_emits _ _ _ _ _ _ _ _ _ _ _ L) as (_ & _ & P3 & _).
  rewrite P2, P1 in W3. cbn [sb st_vol] in W3.
  destruct (Z.eqb_spec rc1 0) as [->|N]; cbn [negb] in H.
  2:{ injection H as E _. congruence. }
  match type of H with
  | context [f_write fp3 ?b ?v] =>
      pose proof (f_write_rewrites fp3 b v) as W4;
      pose proof (f_write_same_but fp3 b v) as (_ & P4);
      destruct (f_write fp3 b v) as [[[fr4 bw4] fp4] v4]
  end.
  cbn [fst snd] in W4, P4. rewrite P3, P2, P1 in W4.
  destruct (negb (fr_ok fr4) || negb (bw4 =? 4)); [discriminate|].
  cbn [set_vol st_vol st_hw st_bus st_mounted] in H.
  match type of H with
  | context [f_write ?p ?b v4] =>
      pose proof (f_write_rewrites p b v4) as W5;
      destruct (f_write p b v4) as [[[fr5 bw5] fp5] v5]
  end.
  cbn [fst snd] in W5. rewrite f_lseek_path, P4, P3, P2, P1 in W5.
  injection H as <-. cbn [st_vol].
  destruct (Fin v5) as (f & E & C & F).
  { apply (rewrites_trans _ _ _ _ W2).
    apply (rewrites_trans _ _ _ _ W3).
    apply (rewrites_trans _ _ _ _ W4 W5). }
  exists t, id, f. auto.
Qed.

(** X30. After a backup that returned 0 onto a card whose dump folder held
    nothing, the chooser returns the path of the file the backup wrote, and
    a restore of the latest image is a restore of that file. *)
Theorem backup_then_restore_latest (s s1 : state) :
  backup_flash_to_sd B fuel s = Some (0, s1) ->
  dir_entries (st_vol s) = [] ->
  Forall (fun e => 0 <= fdate e /\ 0 <= ftime e) (dir_entries (st_vol s1)) ->
  exists stamp id f,
    lookup_file (backup_name stamp id) (files (st_vol s1)) = Some f /\
    choose_latest_image 128 (st_vol s1) = (0, backup_name stamp id) /\
    forall s2 : state,
      st_vol s2 = st_vol s1 ->
      restore_flash_from_sd B fuel None s2
      = restore_flash_from_sd B fuel (Some (backup_name stamp id)) s2.
Proof.
  intros H He Hd.
  destruct (backup_success_files _ _ H) as (t & id & f & Ef & C & F).
  set (name := backup_name (snprintf_s 32 (fmt_stamp (u32 t))) id) in *.
  destruct (backup_name_parts t id) as (_ & n & En & Sn & Nn & Fn & Pn).
  fold name in En, Sn, Pn.
  pose proof (dir_entries_store name n f _ _ Sn He Ef) as D.
  assert (Ch : choose_latest_image 128 (st_vol s1) = (0, name)).
  { unfold choose_latest_image, f_opendir. rewrite C, F. cbn [negb fr_ok].
    rewrite D in Hd |- *.
    pose proof (choose_loop_found _ Hd) as Found.
    cbn [list_loop fname] in Found. rewrite Nn, Fn in Found.
    cbn [negb list_loop fst] in Found.
    assert (Ne : string_nonempty
                   (choose_loop [mkFILINFO n (file_date f) (file_time f)]
                      0 0 EmptyString) = true)
      by (apply Found; lia).
    rewrite Ne. cbn [negb].
    destruct (choose_loop_listed [mkFILINFO n (file_date f) (file_time f)]
                0 0 EmptyString) as [E|(e & [<-|[]] & _ & _ & E)].
    - rewrite E in Ne. discriminate Ne.
    - rewrite E. unfold image_path. cbn [fname].
      rewrite snprintf_idem, Pn. reflexivity. }
  exists (snprintf_s 32 (fmt_stamp (u32 t))), id, f. fold name.
  split; [rewrite Ef; apply lookup_store_same|]. split; [exact Ch|].
  intros s2 Hv. unfold restore_flash_from_sd.
  destruct (fs_mount_once B s2) as [ok s3] eqn:M.
  assert (V3 : st_vol s3 = st_vol s2).
  { destruct (fs_mount_once_cases B s2) as [[M' _]|M']; rewrite M' in M;
      injection M as _ <-; reflexivity. }
  destruct (negb ok); [reflexivity|].
  destruct (flash_dut_init B fuel s3) as [[ok' si]|] eqn:I; [|reflexivity].
  destruct (runs_init _ _ _ _ _ I) as (_ & VI & _).
  destruct (negb ok'); [reflexivity|].
  assert (T1 : restore_target None (st_vol si) = (0, name)).
  { cbn [restore_target]. rewrite VI, V3, Hv. exact Ch. }
  assert (T2 : restore_target (Some name) (st_vol si) = (0, name)).
  { rewrite En. reflexivity. }
  rewrite T1, T2. reflexivity.
Qed.

End Latest.

(* ================================================================= *)
(** ** The theorems on concrete inputs *)

Lemma ref_split_lengths :
  map (fun c => (fst c, length (snd c))) (ref_split 0 (repeat x00 600))
    = [(0, 256%nat); (256, 256%nat); (512, 88%nat)] /\
  map (fun c => (fst c, length (snd c))) (ref_split 255 (repeat x00 600))
    = [(255, 1%nat); (256, 256%nat); (512, 256%nat); (768, 87%nat)] /\
  map (fun c => (fst c, length (snd c))) (ref_split 256 (repeat x00 600))
    = [(256, 256%nat); (512, 256%nat); (768, 88%nat)] /\
  map (fun c => (fst c, length (snd c))) (ref_split 4095 (repeat x00 600))
    = [(4095, 1%nat); (4096, 256%nat); (4352, 256%nat); (4608, 87%nat)].
Proof. repeat split; vm_compute; reflexivity. Qed.

Lemma program_pages_page_exact_witness :
  let buf := repeat x3c 300 in
  let n := Z.of_nat (length buf) in
  program_pages Sim.board 8 (Z.to_nat n) 255 buf n 0 Ex.start
    = program_calls Sim.board 8 (ref_split 255 buf) Ex.start /\
  Forall within_page (ref_split 255 buf) /\
  concat (map snd (ref_split 255 buf)) = buf /\
  forall s',
    program_pages Sim.board 8 (Z.to_nat n) 255 buf n 0 Ex.start
      = Some (true, s') ->
    pp_calls (bus_since Ex.start s')
    = map (fun c => (fst c mod 2 ^ 24, snd c)) (ref_split 255 buf).
Proof.
  assert (H1 : 0 <= 255) by lia.
  assert (H2 : 255 + Z.of_nat (length (repeat x3c 300)) <= 2 ^ 32)
    by (vm_compute; discriminate).
  assert (H3 : Z.of_nat (length (repeat x3c 300)) < 2 ^ 32)
    by (vm_compute; reflexivity).
  exact (program_pages_page_exact Sim.board 8 255 (repeat x3c 300) Ex.start
           H1 H2 H3).
Defined.

Lemma erase_one_recovery_cycle_witness :
  flash_dut_erase_4k Sim.board 10 0 Ex.glitchy = Some (true, Ex.glitchy4) /\
  commands (bus_since Ex.glitchy Ex.glitchy4) =
    [CMD_ULBPR; CMD_WREN; CMD_WRSR; CMD_RDSR2; CMD_WREN; CMD_SE_4K]
    ++ [CMD_RDSR2; CMD_RESUME; CMD_RSTEN; CMD_RST;
        CMD_ULBPR; CMD_WREN; CMD_WRSR; CMD_RDSR2; CMD_WREN; CMD_SE_4K]
    ++ [].
Proof.
  assert (H1 : erase_first Sim.board 10 0 Ex.glitchy = Some Ex.glitchy1)
    by (vm_compute; reflexivity).
  assert (W1 : flash_wait_busy_timeout Sim.board 10 2000 Ex.glitchy1
               = Some (false, Ex.glitchy2)) by (vm_compute; reflexivity).
  assert (H2 : erase_retry Sim.board 10 0 Ex.glitchy2 = Some Ex.glitchy3)
    by (vm_compute; reflexivity).
  assert (W2 : flash_wait_busy_timeout Sim.board 10 3000 Ex.glitchy3
               = Some (true, Ex.glitchy4)) by (vm_compute; reflexivity).
  exact (erase_one_recovery_cycle Sim.board 10 0 Ex.glitchy Ex.glitchy1
           Ex.glitchy2 Ex.glitchy3 Ex.glitchy4 true H1 W1 H2 W2).
Defined.

Lemma program_page_failure_witness :
  flash_dut_program_page Sim.board 8 0 (Some []) Ex.start
  = Some (false, Ex.start).
Proof.
  refine (proj1 (program_page_failure Sim.board 8 0 (Some []) Ex.start) _).
  right. exists []. split; [reflexivity|]. left. reflexivity.
Defined.

Lemma restore_reaches_header_ex (data : list byte) :
  28 <= Z.of_nat (length data) ->
  restore_reaches_header Sim.board 8 (Some Ex.path) (Ex.with_file data)
    (Ex.initialised (Ex.with_file data)) Ex.path (mkFile 0 0 data).
Proof.
  intros Hl. split; [reflexivity|]. split; [|split; [|split]].
  - exists true. vm_compute. reflexivity.
  - reflexivity.
  - reflexivity.
  - exact Hl.
Qed.

Lemma restore_integrity_abort_witness :
  restore_flash_from_sd Sim.board 8 (Some Ex.path)
    (Ex.with_file Ex.tampered_image)
  = Some (-10, Ex.initialised (Ex.with_file Ex.tampered_image)) /\
  commands (bus_since (Ex.with_file Ex.tampered_image)
              (Ex.initialised (Ex.with_file Ex.tampered_image)))
    = [CMD_RSTEN; CMD_RST; CMD_ULBPR; CMD_WREN; CMD_WRSR; CMD_RDSR2] /\
  forallb (fun fr => negb (destructive fr))
    (frames (bus_since (Ex.with_file Ex.tampered_image)
               (Ex.initialised (Ex.with_file Ex.tampered_image)))) = true.
Proof.
  assert (H0 : 28 <= Z.of_nat (length Ex.tampered_image))
    by (vm_compute; discriminate).
  assert (H1 : HDR_SIZE
               + image_size (img_header (file_data (mkFile 0 0 Ex.tampered_image)))
               + 4
               <= Z.of_nat (length (file_data (mkFile 0 0 Ex.tampered_image))))
    by (vm_compute; discriminate).
  assert (H2 : magic (img_header (file_data (mkFile 0 0 Ex.tampered_image)))
               = FIMG_MAGIC) by (vm_compute; reflexivity).
  assert (H3 : image_size (img_header (file_data (mkFile 0 0 Ex.tampered_image)))
               <> 0) by (vm_compute; discriminate).
  assert (H4 : chunk_size (img_header (file_data (mkFile 0 0 Ex.tampered_image)))
               <> 0) by (vm_compute; discriminate).
  assert (H5 : malloc Sim.board
                 (chunk_size
                    (img_header (file_data (mkFile 0 0 Ex.tampered_image))))
                 (Ex.initialised (Ex.with_file Ex.tampered_image)) = true)
    by (vm_compute; reflexivity).
  assert (H6 : ~ (crc32_update 0
                    (img_payload (file_data (mkFile 0 0 Ex.tampered_image)))
                  = rd32 (img_trailer
                            (file_data (mkFile 0 0 Ex.tampered_image))) /\
                  crc32_update 0
                    (img_payload (file_data (mkFile 0 0 Ex.tampered_image)))
                  = crc32_all
                      (img_header
                         (file_data (mkFile 0 0 Ex.tampered_image)))))
    by (vm_compute; intros [H _]; discriminate H).
  exact (restore_integrity_abort Sim.board 8 (Some Ex.path)
           (Ex.with_file Ex.tampered_image)
           (Ex.initialised (Ex.with_file Ex.tampered_image))
           Ex.path (mkFile 0 0 Ex.tampered_image)
           (restore_reaches_header_ex Ex.tampered_image H0)
           H1 H2 H3 H4 H5 H6).
Defined.

Lemma restore_format_abort_witness :
  restore_flash_from_sd Sim.board 8 (Some Ex.path)
    (Ex.with_file Ex.empty_image)
  = Some (-6, Ex.initialised (Ex.with_file Ex.empty_image)) /\
  commands (bus_since (Ex.with_file Ex.empty_image)
              (Ex.initialised (Ex.with_file Ex.empty_image)))
    = [CMD_RSTEN; CMD_RST; CMD_ULBPR; CMD_WREN; CMD_WRSR; CMD_RDSR2] /\
  forallb (fun fr => negb (destructive fr))
    (frames (bus_since (Ex.with_file Ex.empty_image)
               (Ex.initialised (Ex.with_file Ex.empty_image)))) = true.
Proof.
  assert (H0 : 28 <= Z.of_nat (length Ex.empty_image))
    by (vm_compute; discriminate).
  assert (H1 : magic (img_header (file_data (mkFile 0 0 Ex.empty_image)))
               <> FIMG_MAGIC \/
               image_size (img_header (file_data (mkFile 0 0 Ex.empty_image)))
               = 0 \/
               chunk_size (img_header (file_data (mkFile 0 0 Ex.empty_image)))
               = 0)
    by (right; left; vm_compute; reflexivity).
  exact (restore_format_abort Sim.board 8 (Some Ex.path)
           (Ex.with_file Ex.empty_image)
           (Ex.initialised (Ex.with_file Ex.empty_image))
           Ex.path (mkFile 0 0 Ex.empty_image)
           (restore_reaches_header_ex Ex.empty_image H0) H1).
Defined.

(** Restoring a file whose header claims [image_size = 0] returns status
    -6, and the flash bus has carried the frames of the initialisation by
    then: the failing attempt is not free of flash device calls. *)
Lemma restore_zero_size_bus_traffic :
  restore_flash_from_sd Sim.board 8 (Some Ex.path)
    (Ex.with_file Ex.empty_image)
  = Some (-6, Ex.initialised (Ex.with_file Ex.empty_image)) /\
  opcodes (bus_since (Ex.with_file Ex.empty_image)
             (Ex.initialised (Ex.with_file Ex.empty_image)))
  = [CMD_RSTEN; CMD_RST; CMD_ULBPR; CMD_WREN; CMD_WRSR;
     CMD_RDSR1; CMD_RDSR1; CMD_RDSR1; CMD_RDSR1; CMD_RDSR1; CMD_RDSR2] /\
  frames (bus_since (Ex.with_file Ex.empty_image)
            (Ex.initialised (Ex.with_file Ex.empty_image))) <> [].
Proof.
  split; [|split].
  - vm_compute. reflexivity.
  - vm_compute. reflexivity.
  - vm_compute. discriminate.
Qed.


(* ================================================================= *)
(** ** The further properties on concrete inputs *)

Lemma flash_dut_read_frame_witness :
  fst (fst (flash_dut_read Sim.board 4096 4 Ex.start)) = true /\
  length (snd (fst (flash_dut_read Sim.board 4096 4 Ex.start))) = 4%nat /\
  frames (bus_since Ex.start (snd (flash_dut_read Sim.board 4096 4 Ex.start)))
    = [cmd_addr CMD_READ 4096 ++ repeat x00 4] /\
  frame_addr (cmd_addr CMD_READ 4096 ++ repeat x00 4) = 4096 mod 2 ^ 24.
Proof.
  assert (H1 : (0 < 4)%nat) by lia.
  assert (H2 : 0 <= 4096) by lia.
  destruct (proj2 (flash_dut_read_frame Sim.board 4096 4 Ex.start) H1)
    as (A & L & F & D).
  exact (conj A (conj L (conj F (D H2)))).
Defined.

Lemma wait_busy_polls_only_witness :
  exists n, (1 <= n <= 10)%nat /\
    frames (bus_since Ex.glitchy1 Ex.glitchy2) = repeat [CMD_RDSR1; x00] n /\
    st_vol Ex.glitchy2 = st_vol Ex.glitchy1 /\
    st_mounted Ex.glitchy2 = st_mounted Ex.glitchy1.
Proof.
  assert (W : flash_wait_busy_timeout Sim.board 10 2000 Ex.glitchy1
              = Some (false, Ex.glitchy2)) by (vm_compute; reflexivity).
  exact (wait_busy_polls_only Sim.board 10 2000 Ex.glitchy1 Ex.glitchy2 false
           W).
Defined.

Lemma erase_4k_frames_witness :
  let once := unprotect_frames ++ [[CMD_WREN]; cmd_addr CMD_SE_4K 0] in
  let again :=
    [[CMD_RDSR2; x00]; [CMD_RESUME]; [CMD_RSTEN]; [CMD_RST]] ++ once in
  (true = true /\
   significant (frames (bus_since Ex.glitchy Ex.glitchy4)) = once) \/
  (true = true /\
   significant (frames (bus_since Ex.glitchy Ex.glitchy4)) = once ++ again) \/
  (true = false /\
   significant (frames (bus_since Ex.glitchy Ex.glitchy4))
   = once ++ again ++ [[CMD_RDSR2; x00]]).
Proof.
  assert (H : flash_dut_erase_4k Sim.board 10 0 Ex.glitchy
              = Some (true, Ex.glitchy4)) by (vm_compute; reflexivity).
  exact (erase_4k_frames Sim.board 10 0 Ex.glitchy Ex.glitchy4 true H).
Defined.

Lemma restore_keeps_card_witness :
  (-15 <= -10 <= 0 /\ -10 <> -2) /\
  st_vol (Ex.initialised (Ex.with_file Ex.tampered_image))
  = st_vol (Ex.with_file Ex.tampered_image) /\
  (-10 <> -1 ->
   st_mounted (Ex.initialised (Ex.with_file Ex.tampered_image)) = true).
Proof.
  assert (H : restore_flash_from_sd Sim.board 8 (Some Ex.path)
                (Ex.with_file Ex.tampered_image)
              = Some (-10, Ex.initialised (Ex.with_file Ex.tampered_image)))
    by (vm_compute; reflexivity).
  exact (restore_keeps_card Sim.board 8 (Some Ex.path)
           (Ex.with_file Ex.tampered_image)
           (Ex.initialised (Ex.with_file Ex.tampered_image)) (-10) H).
Defined.

Lemma restore_early_abort_bus_witness :
  significant (frames (bus_since (Ex.with_file Ex.empty_image)
                         (Ex.initialised (Ex.with_file Ex.empty_image))))
    = (if -6 =? -1 then [] else init_frames) /\
  forallb (fun f => negb (destructive f))
    (frames (bus_since (Ex.with_file Ex.empty_image)
               (Ex.initialised (Ex.with_file Ex.empty_image)))) = true.
Proof.
  assert (H : restore_flash_from_sd Sim.board 8 (Some Ex.path)
                (Ex.with_file Ex.empty_image)
              = Some (-6, Ex.initialised (Ex.with_file Ex.empty_image)))
    by (vm_compute; reflexivity).
  assert (R : -10 <= -6 <= -1) by lia.
  exact (restore_early_abort_bus Sim.board 8 (Some Ex.path)
           (Ex.with_file Ex.empty_image)
           (Ex.initialised (Ex.with_file Ex.empty_image)) (-6) H R).
Defined.

Lemma restore_write_oversize_witness :
  -11 = -11 /\
  forall (k : nat) (s0 s1 : state (hw Sim.board)),
    restore_erase_loop Sim.board 10 k 0 (flash_size Demo.oversize_hdr) s0
    <> Some (true, s1).
Proof.
  assert (H1 : 0xFFFFF000 < flash_size Demo.oversize_hdr)
    by (vm_compute; reflexivity).
  assert (H2 : restore_write Sim.board 10 Demo.oversize_hdr
                 (mkFIL Ex.path 28) Demo.slow
               = Some (-11, Demo.slow_failed)) by (vm_compute; reflexivity).
  exact (restore_write_oversize Sim.board 10 Demo.oversize_hdr
           (mkFIL Ex.path 28) Demo.slow Demo.slow_failed (-11) H1 H2).
Defined.

Lemma restore_write_phases_witness :
  exists GE GP GR,
    significant (frames (bus_since
                           (Ex.initialised (Ex.with_file Ex.good_image))
                           Demo.written)) = GE ++ GP ++ GR /\
    forallb erase_stage GE = true /\
    forallb program_stage GP = true /\
    forallb read_stage GR = true /\
    (0 = -11 -> GP = [] /\ GR = []) /\
    (0 = -12 \/ 0 = -13 -> GR = []).
Proof.
  assert (H : restore_write Sim.board 8 Ex.good_hdr (mkFIL Ex.path 36)
                (Ex.initialised (Ex.with_file Ex.good_image))
              = Some (0, Demo.written)) by (vm_compute; reflexivity).
  exact (restore_write_phases Sim.board 8 Ex.good_hdr (mkFIL Ex.path 36)
           (Ex.initialised (Ex.with_file Ex.good_image)) Demo.written 0 H).
Defined.

Lemma backup_read_only_witness :
  (-9 <= 0 <= 0 /\ 0 <> -2 /\ 0 <> -3 /\ 0 <> -7) /\
  (0 = -1 -> Demo.backed_up = Ex.start) /\
  (0 <> -1 ->
   exists G,
     significant (frames (bus_since Ex.start Demo.backed_up))
       = init_frames ++ [[CMD_JEDEC_ID; x00; x00; x00]] ++ G /\
     forallb (fun f => byte_eqb (opcode f) CMD_READ) G = true) /\
  forallb (fun f => negb (destructive f))
    (frames (bus_since Ex.start Demo.backed_up)) = true.
Proof.
  assert (H : backup_flash_to_sd Sim.board 8 Ex.start
              = Some (0, Demo.backed_up)) by (vm_compute; reflexivity).
  exact (backup_read_only Sim.board 8 Ex.start Demo.backed_up 0 H).
Defined.

Lemma backup_one_file_witness :
  exists stamp id,
    same_but (backup_name stamp id) (st_vol Ex.start) (st_vol Demo.backed_up).
Proof.
  assert (H : backup_flash_to_sd Sim.board 8 Ex.start
              = Some (0, Demo.backed_up)) by (vm_compute; reflexivity).
  exact (backup_one_file Sim.board 8 Ex.start Demo.backed_up 0 H).
Defined.


Lemma backup_image_passes_checks_witness :
  exists stamp id h fp,
    flash_size h = detected_size id /\ image_size h = detected_size id /\
    forall s2 si : state (hw Sim.board),
      st_vol s2 = st_vol Demo.backed_up ->
      flash_dut_init Sim.board 8 (mounted s2) = Some (true, si) ->
      malloc Sim.board CHUNK_BYTES si = true ->
      restore_flash_from_sd Sim.board 8 (Some (backup_name stamp id)) s2
      = restore_write Sim.board 8 h fp si.
Proof.
  assert (H : backup_flash_to_sd Sim.board 8 Ex.start
              = Some (0, Demo.backed_up)) by (vm_compute; reflexivity).
  exact (backup_image_passes_checks Sim.board 8 Ex.start Demo.backed_up H).
Defined.

Lemma restore_accepts_valid_image_witness :
  restore_flash_from_sd Sim.board 8 (Some Ex.path)
    (Ex.with_file Ex.good_image)
  = restore_write Sim.board 8 Ex.good_hdr
      (mkFIL Ex.path (Z.to_nat HDR_SIZE + length Ex.payload + 4))
      (Ex.initialised (Ex.with_file Ex.good_image)).
Proof.
  assert (H0 : 28 <= Z.of_nat (length Ex.good_image))
    by (vm_compute; discriminate).
  assert (H1 : file_data (mkFile 0 0 Ex.good_image)
               = hdr_bytes Ex.good_hdr ++ Ex.payload
                 ++ le32 (crc32_all Ex.good_hdr)) by reflexivity.
  assert (H2 : magic Ex.good_hdr = FIMG_MAGIC) by reflexivity.
  assert (H3 : in_u32 (flash_size Ex.good_hdr))
    by (vm_compute; split; [discriminate|reflexivity]).
  assert (H4 : in_u32 (chunk_size Ex.good_hdr))
    by (vm_compute; split; [discriminate|reflexivity]).
  assert (H5 : in_u32 (image_size Ex.good_hdr))
    by (vm_compute; split; [discriminate|reflexivity]).
  assert (H6 : chunk_size Ex.good_hdr <> 0) by (vm_compute; discriminate).
  assert (H7 : image_size Ex.good_hdr = Z.of_nat (length Ex.payload))
    by reflexivity.
  assert (H8 : Ex.payload <> []) by (vm_compute; discriminate).
  assert (H9 : crc32_all Ex.good_hdr = crc32_update 0 Ex.payload)
    by reflexivity.
  assert (H10 : malloc Sim.board (chunk_size Ex.good_hdr)
                  (Ex.initialised (Ex.with_file Ex.good_image)) = true)
    by (vm_compute; reflexivity).
  exact (restore_accepts_valid_image Sim.board 8 (Some Ex.path)
           (Ex.with_file Ex.good_image)
           (Ex.initialised (Ex.with_file Ex.good_image))
           Ex.path (mkFile 0 0 Ex.good_image) Ex.good_hdr Ex.payload
           (restore_reaches_header_ex Ex.good_image H0)
           H1 H2 H3 H4 H5 H6 H7 H8 H9 H10).
Defined.

Lemma restore_rejects_changed_byte_witness :
  restore_flash_from_sd Sim.board 8 (Some Ex.path)
    (Ex.with_file Ex.tampered_image)
  = Some (-10, Ex.initialised (Ex.with_file Ex.tampered_image)) /\
  forallb (fun fr => negb (destructive fr))
    (frames (bus_since (Ex.with_file Ex.tampered_image)
               (Ex.initialised (Ex.with_file Ex.tampered_image)))) = true.
Proof.
  assert (H0 : 28 <= Z.of_nat (length Ex.tampered_image))
    by (vm_compute; discriminate).
  assert (H1 : file_data (mkFile 0 0 Ex.tampered_image)
               = hdr_bytes Ex.good_hdr ++ ([x01; x02] ++ x83 :: [x04])
                 ++ le32 (crc32_all Ex.good_hdr)) by reflexivity.
  assert (H2 : magic Ex.good_hdr = FIMG_MAGIC) by reflexivity.
  assert (H3 : in_u32 (flash_size Ex.good_hdr))
    by (vm_compute; split; [discriminate|reflexivity]).
  assert (H4 : in_u32 (chunk_size Ex.good_hdr))
    by (vm_compute; split; [discriminate|reflexivity]).
  assert (H5 : in_u32 (image_size Ex.good_hdr))
    by (vm_compute; split; [discriminate|reflexivity]).
  assert (H6 : chunk_size Ex.good_hdr <> 0) by (vm_compute; discriminate).
  assert (H7 : image_size Ex.good_hdr
               = Z.of_nat (length ([x01; x02] ++ x03 :: [x04])))
    by reflexivity.
  assert (H8 : crc32_all Ex.good_hdr
               = crc32_update 0 ([x01; x02] ++ x03 :: [x04])) by reflexivity.
  assert (H9 : x03 <> x83) by discriminate.
  assert (H10 : malloc Sim.board (chunk_size Ex.good_hdr)
                  (Ex.initialised (Ex.with_file Ex.tampered_image)) = true)
    by (vm_compute; reflexivity).
  exact (restore_rejects_changed_byte Sim.board 8 (Some Ex.path)
           (Ex.with_file Ex.tampered_image)
           (Ex.initialised (Ex.with_file Ex.tampered_image))
           Ex.path (mkFile 0 0 Ex.tampered_image) Ex.good_hdr
           [x01; x02] [x04] x03 x83
           (restore_reaches_header_ex Ex.tampered_image H0)
           H1 H2 H3 H4 H5 H6 H7 H8 H9 H10).
Defined.

Lemma crc32_detects_byte_change_witness :
  crc32_update 0 ([x01; x02] ++ x03 :: [x04])
  <> crc32_update 0 ([x01; x02] ++ x83 :: [x04]).
Proof.
  assert (H : x03 <> x83) by discriminate.
  exact (crc32_detects_byte_change 0 [x01; x02] [x04] x03 x83 H).
Defined.

Lemma capacity_decoding_witness :
  flash_calculate_capacity x18 = 2 ^ (b2z x18 - 3) /\
  flash_calculate_capacity x0f = 0.
Proof.
  assert (H1 : 0x10 <= b2z x18 <= 0x1F)
    by (vm_compute; split; discriminate).
  assert (H2 : b2z x0f < 0x10 \/ 0x1F < b2z x0f)
    by (left; vm_compute; reflexivity).
  exact (conj (proj1 (capacity_decoding x18) H1)
              (proj1 (proj2 (capacity_decoding x0f)) H2)).
Defined.

Lemma hdr_layout_roundtrip_witness :
  length (hdr_bytes Ex.good_hdr) = 28%nat /\
  hdr_of_bytes (hdr_bytes Ex.good_hdr) = Ex.good_hdr.
Proof.
  assert (H1 : length (magic Ex.good_hdr) = 8%nat) by reflexivity.
  assert (H2 : in_u32 (flash_size Ex.good_hdr))
    by (vm_compute; split; [discriminate|reflexivity]).
  assert (H3 : in_u32 (chunk_size Ex.good_hdr))
    by (vm_compute; split; [discriminate|reflexivity]).
  assert (H4 : in_u32 (image_size Ex.good_hdr))
    by (vm_compute; split; [discriminate|reflexivity]).
  assert (H5 : in_u32 (crc32_all Ex.good_hdr))
    by (vm_compute; split; [discriminate|reflexivity]).
  exact (proj1 hdr_layout_roundtrip Ex.good_hdr H1 H2 H3 H4 H5).
Defined.

Lemma choose_latest_image_listed_witness :
  card_ready Demo.stamped_card = true /\
  has_folder Demo.stamped_card = true /\
  exists f, In f (dir_entries Demo.stamped_card) /\
    strstr (fname f) ".fimg" = true /\
    "FLASHIMG/t0000000002_ef4018.fimg"%string
    = snprintf_s 128 (image_path f).
Proof.
  assert (H : choose_latest_image 128 Demo.stamped_card
              = (0, "FLASHIMG/t0000000002_ef4018.fimg"%string))
    by (vm_compute; reflexivity).
  exact (choose_latest_image_listed 128 Demo.stamped_card _ H).
Defined.

Lemma choose_latest_image_stamped_witness :
  exists f,
    In f (dir_entries Demo.images_card) /\
    choose_latest_image 128 Demo.images_card
    = (0, snprintf_s 128 (image_path f)) /\
    forall g, In g (dir_entries Demo.images_card) ->
      not_after (fdate g) (ftime g) (fdate f) (ftime f).
Proof.
  assert (H1 : card_ready Demo.images_card = true) by reflexivity.
  assert (H2 : has_folder Demo.images_card = true) by reflexivity.
  assert (H3 : dir_entries Demo.images_card <> [])
    by (vm_compute; discriminate).
  assert (E : dir_entries Demo.images_card
              = [mkFILINFO "t0000000001_ef4018.fimg" 5 1;
                 mkFILINFO "t0000000002_ef4018.fimg" 7 2;
                 mkFILINFO "t0000000003_ef4018.fimg" 7 1])
    by (vm_compute; reflexivity).
  assert (H4 : Forall stamped_image (dir_entries Demo.images_card)).
  { rewrite E.
    repeat (apply Forall_cons;
            [unfold stamped_image; cbn [fname fdate ftime];
             repeat split; try reflexivity; try lia|]).
    apply Forall_nil. }
  exact (choose_latest_image_stamped Demo.images_card H1 H2 H3 H4).
Defined.

Lemma list_flash_images_chooser_witness :
  ((3 = -1 /\
    ["FLASHIMG/t0000000001_ef4018.fimg"; "FLASHIMG/t0000000002_ef4018.fimg";
     "FLASHIMG/t0000000003_ef4018.fimg"]%string = []) \/
   3 = Z.of_nat
         (length ["FLASHIMG/t0000000001_ef4018.fimg";
                  "FLASHIMG/t0000000002_ef4018.fimg";
                  "FLASHIMG/t0000000003_ef4018.fimg"]%string)) /\
  st_bus (mounted (Demo.with_card Demo.stamped_card))
  = st_bus (Demo.with_card Demo.stamped_card) /\
  (0 <= 3 ->
   (Forall (fun f => 0 <= fdate f /\ 0 <= ftime f)
      (dir_entries (st_vol (mounted (Demo.with_card Demo.stamped_card)))) ->
    (0 < 3 <->
     fst (choose_latest_image 128
            (st_vol (mounted (Demo.with_card Demo.stamped_card)))) = 0)) /\
   forall p,
     choose_latest_image 128
       (st_vol (mounted (Demo.with_card Demo.stamped_card))) = (0, p) ->
     exists line,
       In line ["FLASHIMG/t0000000001_ef4018.fimg";
                "FLASHIMG/t0000000002_ef4018.fimg";
                "FLASHIMG/t0000000003_ef4018.fimg"]%string /\
       p = snprintf_s 128 line).
Proof.
  assert (H : list_flash_images Sim.board (Demo.with_card Demo.stamped_card)
              = (3,
                 ["FLASHIMG/t0000000001_ef4018.fimg";
                  "FLASHIMG/t0000000002_ef4018.fimg";
                  "FLASHIMG/t0000000003_ef4018.fimg"]%string,
                 mounted (Demo.with_card Demo.stamped_card)))
    by (vm_compute; reflexivity).
  exact (list_flash_images_chooser Sim.board
           (Demo.with_card Demo.stamped_card) _ _ _ H).
Defined.

Lemma read_line_blocking_safe_witness :
  Z.of_nat (String.length "ac") <= 8 - 1 /\
  Forall printable (list_ascii_of_string "ac").
Proof.
  assert (H1 : 1 <= 8 < 2 ^ 32) by (split; [lia|reflexivity]).
  assert (H2 : read_line_blocking 0 Demo.keys 8
               = Some ("ac"%string, [97; 98; 8; 32; 8; 99; 10],
                       [KeyChar 100 950000])) by (vm_compute; reflexivity).
  exact (read_line_blocking_safe 0 Demo.keys _ 8 _ _ H1 H2).
Defined.

Lemma read_line_blocking_typed_witness :
  read_line_blocking 0
    (typed "t1.fimg" 5 ++ KeyChar 13 6 :: [KeyChar 52 7]) 128
  = Some ("t1.fimg"%string,
          map (fun a => Z.of_N (N_of_ascii a)) (list_ascii_of_string "t1.fimg")
            ++ [10],
          [KeyChar 52 7]).
Proof.
  assert (H1 : 1 <= 128 < 2 ^ 32) by (split; [lia|reflexivity]).
  assert (H2 : Forall printable (list_ascii_of_string "t1.fimg")).
  { repeat (apply Forall_cons;
            [unfold printable; vm_compute; split;
             [discriminate|reflexivity]|]).
    apply Forall_nil. }
  assert (H3 : Z.of_nat (String.length "t1.fimg") <= 128 - 1)
    by (vm_compute; discriminate).
  exact (read_line_blocking_typed 0 5 6 "t1.fimg" [KeyChar 52 7] 128
           H1 H2 H3).
Defined.

Lemma menu_restore_path_whole_witness :
  menu_restore_path "t1.fimg" = Some "FLASHIMG/t1.fimg"%string /\
  restore_target (Some "FLASHIMG/t1.fimg"%string) Ex.card
  = (0, "FLASHIMG/t1.fimg"%string).
Proof.
  assert (H1 : (String.length "t1.fimg" <= 127)%nat) by (vm_compute; lia).
  assert (H2 : string_nonempty "t1.fimg" = true) by reflexivity.
  exact (menu_restore_path_whole "t1.fimg" Ex.card H1 H2).
Defined.

Lemma mount_failure_status_witness :
  restore_flash_from_sd Sim.board 8 None (Demo.with_card Demo.no_card)
  = Some (-1, Demo.with_card Demo.no_card) /\
  backup_flash_to_sd Sim.board 8 (Demo.with_card Demo.no_card)
  = Some (-1, Demo.with_card Demo.no_card) /\
  list_flash_images Sim.board (Demo.with_card Demo.no_card)
  = (-1, [], Demo.with_card Demo.no_card).
Proof.
  assert (H : st_mounted (Demo.with_card Demo.no_card) = false /\
              card_ready (st_vol (Demo.with_card Demo.no_card)) = false)
    by (split; reflexivity).
  exact (proj1 (mount_failure_status Sim.board 8 None
                  (Demo.with_card Demo.no_card)) H).
Defined.


Lemma sim_erase_program_read_witness :
  exists s1 s2 s3,
    flash_dut_erase_4k Sim.board 8 4096 Ex.start = Some (true, s1) /\
    flash_dut_program_page Sim.board 8 4096 (Some [x01; x02; x03]) s1
    = Some (true, s2) /\
    flash_dut_read Sim.board 4096 (length [x01; x02; x03]) s2
    = (true, [x01; x02; x03], s3) /\
    Sim.mem (st_hw s3)
    = firstn (Z.to_nat 4096) Ex.content ++ [x01; x02; x03]
      ++ repeat xff (4096 - length [x01; x02; x03])
      ++ skipn (Z.to_nat 4096 + 4096) Ex.content.
Proof.
  assert (H1 : (3 < 8)%nat) by lia.
  assert (H2 : 0 <= 1) by lia.
  assert (H3 : Z.of_nat 3 * 1 <= 200) by lia.
  assert (H4 : sim_at Ex.id 3 1 8192 Ex.content false Ex.card false Ex.start)
    by (exists 0%nat, false, 0, []; split; [reflexivity | lia]).
  assert (H5 : 0 <= 4096) by lia.
  assert (H6 : 4096 mod 4096 = 0) by reflexivity.
  assert (H7 : 4096 + 4096 <= Z.of_nat (length Ex.content) <= 2 ^ 24)
    by (vm_compute; split; discriminate).
  assert (H8 : 1 <= Z.of_nat (length [x01; x02; x03]) <= FLASH_PAGE_SIZE)
    by (vm_compute; split; discriminate).
  exact (sim_erase_program_read 8 Ex.id 3 1 8192 H1 H2 H3 Ex.content false
           Ex.card false Ex.start 4096 [x01; x02; x03] H4 H5 H6 H7 H8).
Defined.

Lemma sim_crc32_over_flash_witness :
  exists s',
    crc32_over_flash Sim.board (Z.of_nat (length Ex.content)) 100 Ex.start
    = Some (0, crc32_update 0 Ex.content, s') /\
    sim_at Ex.id 3 1 8192 Ex.content false Ex.card false s'.
Proof.
  assert (H1 : (3 < 8)%nat) by lia.
  assert (H4 : sim_at Ex.id 3 1 8192 Ex.content false Ex.card false Ex.start)
    by (exists 0%nat, false, 0, []; split; [reflexivity | lia]).
  assert (H5 : Z.of_nat (length Ex.content) <= 2 ^ 24)
    by (vm_compute; discriminate).
  assert (H6 : 0 < 100 <= 8192) by lia.
  exact (sim_crc32_over_flash 8 Ex.id 3 1 8192 H1 Ex.content false Ex.card
           false Ex.start 100 H4 H5 H6).
Defined.


Lemma backup_then_restore_latest_witness :
  exists stamp id f,
    lookup_file (backup_name stamp id) (files (st_vol Demo.backed_up))
    = Some f /\
    choose_latest_image 128 (st_vol Demo.backed_up)
    = (0, backup_name stamp id) /\
    forall s2 : state (hw Sim.board),
      st_vol s2 = st_vol Demo.backed_up ->
      restore_flash_from_sd Sim.board 8 None s2
      = restore_flash_from_sd Sim.board 8 (Some (backup_name stamp id)) s2.
Proof.
  assert (H1 : backup_flash_to_sd Sim.board 8 Ex.start
               = Some (0, Demo.backed_up)) by (vm_compute; reflexivity).
  assert (H2 : dir_entries (st_vol Ex.start) = []) by reflexivity.
  assert (E : dir_entries (st_vol Demo.backed_up)
              = [mkFILINFO "t0000000016_ef4010.fimg" 0 0])
    by (vm_compute; reflexivity).
  assert (H3 : Forall (fun e => 0 <= fdate e /\ 0 <= ftime e)
                 (dir_entries (st_vol Demo.backed_up))).
  { rewrite E. apply Forall_cons; [cbn [fdate ftime]; lia|apply Forall_nil]. }
  exact (backup_then_restore_latest Sim.board 8 Ex.start Demo.backed_up
           H1 H2 H3).
Defined.
